(** * Pain-map resolver and pain-area store

    A shallow embedding of [client/src/components/steps/PainMappingStep.tsx]:
    the hotspot catalog ([frontHotspots], [backHotspots]), the click resolver
    ([handleImageClick]) and the pain-area store operations
    ([removePainArea], [handleIntensityChange], the view filter of the marker
    overlay).

    Numbers.  The resolver is modelled twice.  In the exact model,
    JavaScript numbers that carry pixel positions, sizes and catalog
    fractions are exact rationals ([Q]); the decimal literals of the catalog
    are the same decimals here, and rounding error and NaN are not
    represented.  It carries the statements about the store, the records
    and the notes, whose conclusions do not depend on how a quotient is
    rounded or on which of two near entries a click is given.  In [Double]
    the same code is modelled in binary64 ([SpecFloat] at precision 53):
    a decimal literal is the double nearest to it, every operation rounds
    to nearest, and [0/0] is NaN.  It carries the statements that rounding
    or NaN decide: which entry the search selects, and what the check
    before [getImageData] lets through.  [Math.sqrt] is the rounded square
    root and [Math.pow(x, 2)] the rounded square [x * x].  Integers (canvas
    sizes, raster coordinates, alpha values, intensities, group ids,
    [Date.now()]) are [Z].

    State.  The component reads [formData.painAreas] from the form context
    and keeps [selectedPainAreaId], [currentView] and [canvasRef] itself.
    Every handler is a function from the state it was rendered with to the
    next state; an early [return] leaves the state as it is. *)

From Stdlib Require Import ZArith QArith Qpower Qround Qreals Reals Lra Lia.
From Stdlib Require Import SpecFloat.
From Stdlib Require Import String Ascii List Bool.
From Stdlib Require Import Decimal DecimalString DecimalPos DecimalZ.
Import ListNotations.

Set Implicit Arguments.

(** ** Data model *)

Inductive BodyView : Set := front | back.

Definition BodyView_eqb (a b : BodyView) : bool :=
  match a, b with
  | front, front | back, back => true
  | _, _ => false
  end.

(** The string a view is rendered as inside a template literal. *)
Definition viewName (v : BodyView) : string :=
  match v with front => "front" | back => "back" end.

Module Hotspot.
(** [interface Hotspot]; an absent [isDetail] is [false]. *)
Record t : Set := mk {
  id : Z;
  name : string;
  x : Q;
  y : Q;
  width : Q;
  height : Q;
  isDetail : bool
}.
End Hotspot.

Module PainArea.
Record Coordinates : Set := mkCoordinates { x : Q; y : Q }.

(** Modelled from the spec: the [PainArea] type of [data/formData], which is
    not part of the sources at hand.  It has the five fields of the
    PainAreaRecord of the data model (and of the server's schema);
    [coordinates] and [notes] are optional, as the component reads them
    through [&&] and [?.]. *)
Record t : Set := mk {
  id : string;
  region : string;
  intensity : Z;
  coordinates : option Coordinates;
  notes : option string
}.

(** [{ ...area, intensity: newIntensity }] *)
Definition withIntensity (area : t) (newIntensity : Z) : t :=
  mk (id area) (region area) newIntensity (coordinates area) (notes area).
End PainArea.

Module Canvas.
(** The offscreen canvas behind [canvasRef].  [getContext] is the result of
    [canvas.getContext('2d')]; a context is represented by the one
    observation the component makes of it: the alpha channel
    [ctx.getImageData(sx, sy, 1, 1).data[3]] of the pixel at [(sx, sy)]. *)
Definition Context2D : Type := Z -> Z -> Z.

Record t : Type := mk {
  width : Z;
  height : Z;
  getContext : option Context2D
}.
End Canvas.

Module DOMRect.
Record t : Set := mk { left : Q; top : Q; width : Q; height : Q }.
End DOMRect.

(** A click on the body image: the pointer position and the image's
    [getBoundingClientRect()]. *)
Record MouseEvent : Set := mkMouseEvent {
  clientX : Q;
  clientY : Q;
  rect : DOMRect.t
}.

Record State : Type := mkState {
  painAreas : list PainArea.t;          (* formData.painAreas *)
  selectedPainAreaId : option string;   (* useState<string | null>(null) *)
  currentView : BodyView;               (* useState<BodyView>('back') *)
  canvasRef : option Canvas.t           (* canvasRef.current *)
}.

(** ** Hotspot catalog *)

Definition frontHotspots : list Hotspot.t := [
  Hotspot.mk 1 "Forehead (Central Superior)" 0.45 0.005 0.1 0.02 false;
  Hotspot.mk 1 "Forehead (Central Inferior)" 0.45 0.025 0.1 0.02 false;
  Hotspot.mk 1 "Forehead (Left Superior)" 0.37 0.005 0.08 0.02 false;
  Hotspot.mk 1 "Forehead (Left Inferior)" 0.37 0.025 0.08 0.02 false;
  Hotspot.mk 1 "Forehead (Right Superior)" 0.55 0.005 0.08 0.02 false;
  Hotspot.mk 1 "Forehead (Right Inferior)" 0.55 0.025 0.08 0.02 false;
  Hotspot.mk 1 "Left Temple (Superior)" 0.33 0.03 0.05 0.02 false;
  Hotspot.mk 1 "Left Temple (Inferior)" 0.33 0.05 0.05 0.02 false;
  Hotspot.mk 1 "Right Temple (Superior)" 0.62 0.03 0.05 0.02 false;
  Hotspot.mk 1 "Right Temple (Inferior)" 0.62 0.05 0.05 0.02 false;
  Hotspot.mk 1 "Left Eyebrow" 0.38 0.045 0.07 0.01 false;
  Hotspot.mk 1 "Right Eyebrow" 0.55 0.045 0.07 0.01 false;
  Hotspot.mk 1 "Glabella (Between Eyebrows)" 0.475 0.05 0.05 0.01 false;
  Hotspot.mk 1 "Left Upper Eyelid" 0.39 0.058 0.06 0.01 false;
  Hotspot.mk 1 "Right Upper Eyelid" 0.55 0.058 0.06 0.01 false;
  Hotspot.mk 1 "Left Lower Eyelid" 0.39 0.068 0.06 0.01 false;
  Hotspot.mk 1 "Right Lower Eyelid" 0.55 0.068 0.06 0.01 false;
  Hotspot.mk 1 "Nose (Bridge)" 0.475 0.07 0.05 0.015 false;
  Hotspot.mk 1 "Nose (Dorsum)" 0.475 0.085 0.05 0.015 false;
  Hotspot.mk 1 "Nose (Left Ala)" 0.45 0.095 0.03 0.02 false;
  Hotspot.mk 1 "Nose (Right Ala)" 0.52 0.095 0.03 0.02 false;
  Hotspot.mk 1 "Nose (Tip)" 0.485 0.105 0.03 0.01 false;
  Hotspot.mk 1 "Left Cheek (Zygomatic Arch)" 0.35 0.075 0.1 0.02 false;
  Hotspot.mk 1 "Right Cheek (Zygomatic Arch)" 0.55 0.075 0.1 0.02 false;
  Hotspot.mk 1 "Left Cheek (Buccal Mid)" 0.36 0.095 0.1 0.025 false;
  Hotspot.mk 1 "Right Cheek (Buccal Mid)" 0.54 0.095 0.1 0.025 false;
  Hotspot.mk 1 "Philtrum (Above Upper Lip)" 0.475 0.11 0.05 0.01 false;
  Hotspot.mk 1 "Upper Lip" 0.455 0.12 0.09 0.01 false;
  Hotspot.mk 1 "Lower Lip" 0.455 0.13 0.09 0.01 false;
  Hotspot.mk 1 "Chin (Mentum)" 0.465 0.14 0.07 0.015 false;
  Hotspot.mk 1 "Left Mandible (Angle)" 0.35 0.125 0.05 0.03 false;
  Hotspot.mk 1 "Right Mandible (Angle)" 0.60 0.125 0.05 0.03 false;
  Hotspot.mk 2 "Submental Triangle (Under Chin)" 0.46 0.15 0.08 0.015 false;
  Hotspot.mk 2 "Anterior Neck (Hyoid Area)" 0.46 0.165 0.08 0.015 false;
  Hotspot.mk 2 "Anterior Neck (Thyroid Cartilage)" 0.46 0.18 0.08 0.015 false;
  Hotspot.mk 2 "Anterior Neck (Left Carotid Triangle)" 0.40 0.16 0.06 0.03 false;
  Hotspot.mk 2 "Anterior Neck (Right Carotid Triangle)" 0.54 0.16 0.06 0.03 false;
  Hotspot.mk 2 "Suprasternal Notch" 0.475 0.195 0.05 0.01 false;
  Hotspot.mk 3 "Left Sternoclavicular Joint" 0.43 0.195 0.04 0.02 false;
  Hotspot.mk 3 "Left Clavicle (Mid)" 0.35 0.19 0.07 0.02 false;
  Hotspot.mk 3 "Left Acromioclavicular Joint" 0.28 0.195 0.05 0.02 false;
  Hotspot.mk 4 "Right Sternoclavicular Joint" 0.53 0.195 0.04 0.02 false;
  Hotspot.mk 4 "Right Clavicle (Mid)" 0.58 0.19 0.07 0.02 false;
  Hotspot.mk 4 "Right Acromioclavicular Joint" 0.67 0.195 0.05 0.02 false;
  Hotspot.mk 5 "Manubrium" 0.475 0.21 0.05 0.03 false;
  Hotspot.mk 5 "Sternal Body (Upper)" 0.475 0.24 0.05 0.04 false;
  Hotspot.mk 5 "Sternal Body (Lower)" 0.475 0.28 0.05 0.04 false;
  Hotspot.mk 6 "Left Pectoral (Superior Medial)" 0.40 0.22 0.07 0.04 false;
  Hotspot.mk 6 "Left Pectoral (Superior Lateral)" 0.29 0.22 0.11 0.04 false;
  Hotspot.mk 6 "Left Pectoral (Inferior Medial)" 0.40 0.26 0.07 0.04 false;
  Hotspot.mk 6 "Left Pectoral (Inferior Lateral)" 0.29 0.26 0.11 0.04 false;
  Hotspot.mk 7 "Right Pectoral (Superior Medial)" 0.53 0.22 0.07 0.04 false;
  Hotspot.mk 7 "Right Pectoral (Superior Lateral)" 0.60 0.22 0.11 0.04 false;
  Hotspot.mk 7 "Right Pectoral (Inferior Medial)" 0.53 0.26 0.07 0.04 false;
  Hotspot.mk 7 "Right Pectoral (Inferior Lateral)" 0.60 0.26 0.11 0.04 false;
  Hotspot.mk 12 "Epigastrium (Central)" 0.46 0.32 0.08 0.04 false;
  Hotspot.mk 13 "Left Costal Margin (Upper Abdomen)" 0.35 0.32 0.1 0.05 false;
  Hotspot.mk 14 "Right Costal Margin (Upper Abdomen)" 0.55 0.32 0.1 0.05 false;
  Hotspot.mk 15 "Umbilicus" 0.48 0.38 0.04 0.03 false;
  Hotspot.mk 16 "Left Flank (Mid Abdomen)" 0.35 0.37 0.1 0.06 false;
  Hotspot.mk 17 "Right Flank (Mid Abdomen)" 0.55 0.37 0.1 0.06 false;
  Hotspot.mk 18 "Left Lower Abdomen (Inguinal Ligament Area)" 0.37 0.44 0.08 0.04 false;
  Hotspot.mk 19 "Right Lower Abdomen (Inguinal Ligament Area)" 0.55 0.44 0.08 0.04 false;
  Hotspot.mk 20 "Pubic Symphysis Area" 0.47 0.49 0.06 0.03 false;
  Hotspot.mk 8 "Left Shoulder (Deltoid - Anterior)" 0.26 0.20 0.06 0.05 false;
  Hotspot.mk 8 "Left Biceps (Short Head)" 0.25 0.25 0.05 0.08 false;
  Hotspot.mk 8 "Left Biceps (Long Head)" 0.22 0.27 0.04 0.08 false;
  Hotspot.mk 8 "Left Elbow Crease (Medial)" 0.22 0.36 0.03 0.03 false;
  Hotspot.mk 8 "Left Elbow Crease (Lateral)" 0.18 0.36 0.03 0.03 false;
  Hotspot.mk 9 "Right Shoulder (Deltoid - Anterior)" 0.68 0.20 0.06 0.05 false;
  Hotspot.mk 9 "Right Biceps (Short Head)" 0.70 0.25 0.05 0.08 false;
  Hotspot.mk 9 "Right Biceps (Long Head)" 0.74 0.27 0.04 0.08 false;
  Hotspot.mk 9 "Right Elbow Crease (Medial)" 0.75 0.36 0.03 0.03 false;
  Hotspot.mk 9 "Right Elbow Crease (Lateral)" 0.79 0.36 0.03 0.03 false;
  Hotspot.mk 10 "Left Forearm (Volar - Proximal Medial)" 0.20 0.40 0.04 0.06 false;
  Hotspot.mk 10 "Left Forearm (Volar - Proximal Lateral)" 0.16 0.40 0.04 0.06 false;
  Hotspot.mk 10 "Left Forearm (Volar - Distal Medial)" 0.19 0.46 0.04 0.06 false;
  Hotspot.mk 10 "Left Forearm (Volar - Distal Lateral)" 0.15 0.46 0.04 0.06 false;
  Hotspot.mk 10 "Left Wrist (Palmar Crease)" 0.17 0.52 0.05 0.02 false;
  Hotspot.mk 10 "Left Palm (Base of Thumb)" 0.15 0.54 0.03 0.03 false;
  Hotspot.mk 10 "Left Palm (Base of Pinky)" 0.19 0.55 0.02 0.03 false;
  Hotspot.mk 10 "Left Palm (Center)" 0.17 0.56 0.03 0.03 false;
  Hotspot.mk 10 "Left Thumb (Volar)" 0.13 0.58 0.02 0.05 false;
  Hotspot.mk 10 "Left Index Finger (Volar)" 0.14 0.61 0.02 0.05 false;
  Hotspot.mk 10 "Left Middle Finger (Volar)" 0.16 0.62 0.02 0.05 false;
  Hotspot.mk 10 "Left Ring Finger (Volar)" 0.18 0.61 0.02 0.05 false;
  Hotspot.mk 10 "Left Pinky Finger (Volar)" 0.20 0.60 0.02 0.05 false;
  Hotspot.mk 11 "Right Forearm (Volar - Proximal Medial)" 0.76 0.40 0.04 0.06 false;
  Hotspot.mk 11 "Right Forearm (Volar - Proximal Lateral)" 0.80 0.40 0.04 0.06 false;
  Hotspot.mk 11 "Right Forearm (Volar - Distal Medial)" 0.77 0.46 0.04 0.06 false;
  Hotspot.mk 11 "Right Forearm (Volar - Distal Lateral)" 0.81 0.46 0.04 0.06 false;
  Hotspot.mk 11 "Right Wrist (Palmar Crease)" 0.78 0.52 0.05 0.02 false;
  Hotspot.mk 11 "Right Palm (Base of Thumb)" 0.82 0.54 0.03 0.03 false;
  Hotspot.mk 11 "Right Palm (Base of Pinky)" 0.78 0.55 0.02 0.03 false;
  Hotspot.mk 11 "Right Palm (Center)" 0.80 0.56 0.03 0.03 false;
  Hotspot.mk 11 "Right Thumb (Volar)" 0.85 0.58 0.02 0.05 false;
  Hotspot.mk 11 "Right Index Finger (Volar)" 0.84 0.61 0.02 0.05 false;
  Hotspot.mk 11 "Right Middle Finger (Volar)" 0.82 0.62 0.02 0.05 false;
  Hotspot.mk 11 "Right Ring Finger (Volar)" 0.80 0.61 0.02 0.05 false;
  Hotspot.mk 11 "Right Pinky Finger (Volar)" 0.78 0.60 0.02 0.05 false;
  Hotspot.mk 21 "Left Hip (Greater Trochanter Area - Anterior)" 0.28 0.49 0.06 0.06 false;
  Hotspot.mk 21 "Left Thigh (Anterior Superior)" 0.33 0.54 0.1 0.07 false;
  Hotspot.mk 21 "Left Thigh (Anterior Medial)" 0.38 0.60 0.06 0.1 false;
  Hotspot.mk 21 "Left Thigh (Anterior Lateral)" 0.29 0.60 0.06 0.1 false;
  Hotspot.mk 21 "Left Knee (Suprapatellar)" 0.34 0.69 0.09 0.03 false;
  Hotspot.mk 21 "Left Patella" 0.345 0.72 0.08 0.04 false;
  Hotspot.mk 21 "Left Knee (Infrapatellar Medial)" 0.38 0.76 0.04 0.03 false;
  Hotspot.mk 21 "Left Knee (Infrapatellar Lateral)" 0.31 0.76 0.04 0.03 false;
  Hotspot.mk 22 "Right Hip (Greater Trochanter Area - Anterior)" 0.66 0.49 0.06 0.06 false;
  Hotspot.mk 22 "Right Thigh (Anterior Superior)" 0.57 0.54 0.1 0.07 false;
  Hotspot.mk 22 "Right Thigh (Anterior Medial)" 0.56 0.60 0.06 0.1 false;
  Hotspot.mk 22 "Right Thigh (Anterior Lateral)" 0.65 0.60 0.06 0.1 false;
  Hotspot.mk 22 "Right Knee (Suprapatellar)" 0.57 0.69 0.09 0.03 false;
  Hotspot.mk 22 "Right Patella" 0.575 0.72 0.08 0.04 false;
  Hotspot.mk 22 "Right Knee (Infrapatellar Medial)" 0.58 0.76 0.04 0.03 false;
  Hotspot.mk 22 "Right Knee (Infrapatellar Lateral)" 0.65 0.76 0.04 0.03 false;
  Hotspot.mk 23 "Left Shin (Tibial Tuberosity)" 0.35 0.79 0.07 0.03 false;
  Hotspot.mk 23 "Left Shin (Anteromedial)" 0.37 0.82 0.06 0.08 false;
  Hotspot.mk 23 "Left Shin (Anterolateral)" 0.30 0.82 0.06 0.08 false;
  Hotspot.mk 23 "Left Ankle (Medial Malleolus - Anterior)" 0.38 0.90 0.03 0.03 false;
  Hotspot.mk 23 "Left Ankle (Lateral Malleolus - Anterior)" 0.30 0.90 0.03 0.03 false;
  Hotspot.mk 23 "Left Foot (Dorsum - Navicular/Cuneiforms)" 0.35 0.925 0.06 0.02 false;
  Hotspot.mk 23 "Left Foot (Dorsum - Cuboid/Metatarsals)" 0.30 0.93 0.05 0.02 false;
  Hotspot.mk 23 "Left Hallux (Big Toe - Dorsal)" 0.37 0.95 0.03 0.03 false;
  Hotspot.mk 23 "Left Toes 2-5 (Dorsal)" 0.31 0.955 0.05 0.03 false;
  Hotspot.mk 24 "Right Shin (Tibial Tuberosity)" 0.58 0.79 0.07 0.03 false;
  Hotspot.mk 24 "Right Shin (Anteromedial)" 0.57 0.82 0.06 0.08 false;
  Hotspot.mk 24 "Right Shin (Anterolateral)" 0.64 0.82 0.06 0.08 false;
  Hotspot.mk 24 "Right Ankle (Medial Malleolus - Anterior)" 0.59 0.90 0.03 0.03 false;
  Hotspot.mk 24 "Right Ankle (Lateral Malleolus - Anterior)" 0.67 0.90 0.03 0.03 false;
  Hotspot.mk 24 "Right Foot (Dorsum - Navicular/Cuneiforms)" 0.59 0.925 0.06 0.02 false;
  Hotspot.mk 24 "Right Foot (Dorsum - Cuboid/Metatarsals)" 0.65 0.93 0.05 0.02 false;
  Hotspot.mk 24 "Right Hallux (Big Toe - Dorsal)" 0.60 0.95 0.03 0.03 false;
  Hotspot.mk 24 "Right Toes 2-5 (Dorsal)" 0.64 0.955 0.05 0.03 false
].

Definition backHotspots : list Hotspot.t := [
  Hotspot.mk 25 "Vertex (Top of Head - Posterior)" 0.45 0.005 0.1 0.02 false;
  Hotspot.mk 25 "Occiput (Superior Nuchal Line - Left)" 0.40 0.025 0.07 0.03 false;
  Hotspot.mk 25 "Occiput (Superior Nuchal Line - Right)" 0.53 0.025 0.07 0.03 false;
  Hotspot.mk 25 "Occiput (Inion/External Occipital Protuberance)" 0.475 0.05 0.05 0.02 false;
  Hotspot.mk 25 "Posterior Neck (Suboccipital - Left)" 0.42 0.07 0.06 0.03 false;
  Hotspot.mk 25 "Posterior Neck (Suboccipital - Right)" 0.52 0.07 0.06 0.03 false;
  Hotspot.mk 25 "Cervical Spine (C2-C4 Spinous Processes)" 0.475 0.10 0.05 0.03 false;
  Hotspot.mk 25 "Cervical Spine (C5-C7 Spinous Processes)" 0.475 0.13 0.05 0.03 false;
  Hotspot.mk 25 "Posterior Neck (Lateral - Left)" 0.39 0.10 0.06 0.05 false;
  Hotspot.mk 25 "Posterior Neck (Lateral - Right)" 0.55 0.10 0.06 0.05 false;
  Hotspot.mk 26 "Left Acromion (Posterior)" 0.28 0.16 0.05 0.03 false;
  Hotspot.mk 26 "Left Supraspinatus Area" 0.33 0.17 0.08 0.04 false;
  Hotspot.mk 26 "Left Scapular Spine" 0.30 0.21 0.12 0.02 false;
  Hotspot.mk 26 "Left Infraspinatus Area" 0.32 0.23 0.1 0.06 false;
  Hotspot.mk 26 "Left Teres Major/Minor Area" 0.28 0.25 0.07 0.05 false;
  Hotspot.mk 27 "Right Acromion (Posterior)" 0.67 0.16 0.05 0.03 false;
  Hotspot.mk 27 "Right Supraspinatus Area" 0.59 0.17 0.08 0.04 false;
  Hotspot.mk 27 "Right Scapular Spine" 0.58 0.21 0.12 0.02 false;
  Hotspot.mk 27 "Right Infraspinatus Area" 0.58 0.23 0.1 0.06 false;
  Hotspot.mk 27 "Right Teres Major/Minor Area" 0.65 0.25 0.07 0.05 false;
  Hotspot.mk 28 "Left Deltoid (Posterior Head)" 0.28 0.19 0.06 0.06 false;
  Hotspot.mk 28 "Left Triceps (Lateral Head)" 0.25 0.25 0.05 0.09 false;
  Hotspot.mk 28 "Left Triceps (Long Head)" 0.29 0.26 0.05 0.09 false;
  Hotspot.mk 29 "Right Deltoid (Posterior Head)" 0.66 0.19 0.06 0.06 false;
  Hotspot.mk 29 "Right Triceps (Lateral Head)" 0.70 0.25 0.05 0.09 false;
  Hotspot.mk 29 "Right Triceps (Long Head)" 0.66 0.26 0.05 0.09 false;
  Hotspot.mk 30 "Left Olecranon (Elbow Tip)" 0.24 0.35 0.04 0.03 false;
  Hotspot.mk 30 "Left Forearm (Dorsal - Proximal Ulnar)" 0.23 0.38 0.04 0.06 false;
  Hotspot.mk 30 "Left Forearm (Dorsal - Proximal Radial)" 0.19 0.39 0.04 0.06 false;
  Hotspot.mk 30 "Left Forearm (Dorsal - Distal Ulnar)" 0.22 0.44 0.04 0.07 false;
  Hotspot.mk 30 "Left Forearm (Dorsal - Distal Radial)" 0.18 0.45 0.04 0.07 false;
  Hotspot.mk 31 "Right Olecranon (Elbow Tip)" 0.72 0.35 0.04 0.03 false;
  Hotspot.mk 31 "Right Forearm (Dorsal - Proximal Ulnar)" 0.73 0.38 0.04 0.06 false;
  Hotspot.mk 31 "Right Forearm (Dorsal - Proximal Radial)" 0.77 0.39 0.04 0.06 false;
  Hotspot.mk 31 "Right Forearm (Dorsal - Distal Ulnar)" 0.74 0.44 0.04 0.07 false;
  Hotspot.mk 31 "Right Forearm (Dorsal - Distal Radial)" 0.78 0.45 0.04 0.07 false;
  Hotspot.mk 32 "Left Wrist (Dorsum)" 0.20 0.51 0.05 0.03 false;
  Hotspot.mk 32 "Left Hand (Dorsum - Metacarpals)" 0.18 0.54 0.06 0.05 false;
  Hotspot.mk 32 "Left Thumb (Dorsal)" 0.15 0.57 0.02 0.04 false;
  Hotspot.mk 32 "Left Fingers 2-5 (Dorsal)" 0.17 0.59 0.05 0.05 false;
  Hotspot.mk 33 "Right Wrist (Dorsum)" 0.75 0.51 0.05 0.03 false;
  Hotspot.mk 33 "Right Hand (Dorsum - Metacarpals)" 0.76 0.54 0.06 0.05 false;
  Hotspot.mk 33 "Right Thumb (Dorsal)" 0.83 0.57 0.02 0.04 false;
  Hotspot.mk 33 "Right Fingers 2-5 (Dorsal)" 0.78 0.59 0.05 0.05 false;
  Hotspot.mk 34 "Thoracic Spine (T1-T2 - Left Paraspinal)" 0.475 0.16 0.025 0.04 false;
  Hotspot.mk 34 "Thoracic Spine (T3-T5 - Left Paraspinal)" 0.475 0.20 0.025 0.05 false;
  Hotspot.mk 34 "Thoracic Spine (T6-T9 - Left Paraspinal)" 0.475 0.25 0.025 0.07 false;
  Hotspot.mk 34 "Thoracic Spine (T10-T12 - Left Paraspinal)" 0.475 0.32 0.025 0.06 false;
  Hotspot.mk 34 "Left Upper Trapezius" 0.38 0.16 0.08 0.06 false;
  Hotspot.mk 34 "Left Mid Trapezius/Rhomboids" 0.40 0.22 0.07 0.08 false;
  Hotspot.mk 34 "Left Upper Trapezius (Superior Medial)" 0.42 0.15 0.04 0.03 false;
  Hotspot.mk 34 "Left Upper Trapezius (Superior Lateral)" 0.37 0.15 0.04 0.03 false;
  Hotspot.mk 34 "Left Upper Trapezius (Inferior Medial)" 0.42 0.19 0.04 0.03 false;
  Hotspot.mk 34 "Left Upper Trapezius (Inferior Lateral)" 0.37 0.19 0.04 0.03 false;
  Hotspot.mk 34 "Left Mid Traps (Superior Medial)" 0.43 0.21 0.035 0.04 false;
  Hotspot.mk 34 "Left Mid Traps (Superior Lateral)" 0.39 0.21 0.035 0.04 false;
  Hotspot.mk 34 "Left Mid Traps (Inferior Medial)" 0.43 0.26 0.035 0.04 false;
  Hotspot.mk 34 "Left Mid Traps (Inferior Lateral)" 0.39 0.26 0.035 0.04 false;
  Hotspot.mk 35 "Thoracic Spine (T1-T2 - Right Paraspinal)" 0.50 0.16 0.025 0.04 false;
  Hotspot.mk 35 "Thoracic Spine (T3-T5 - Right Paraspinal)" 0.50 0.20 0.025 0.05 false;
  Hotspot.mk 35 "Thoracic Spine (T6-T9 - Right Paraspinal)" 0.50 0.25 0.025 0.07 false;
  Hotspot.mk 35 "Thoracic Spine (T10-T12 - Right Paraspinal)" 0.50 0.32 0.025 0.06 false;
  Hotspot.mk 35 "Right Upper Trapezius" 0.54 0.16 0.08 0.06 false;
  Hotspot.mk 35 "Right Mid Trapezius/Rhomboids" 0.53 0.22 0.07 0.08 false;
  Hotspot.mk 35 "Right Upper Trapezius (Superior Medial)" 0.55 0.15 0.04 0.03 false;
  Hotspot.mk 35 "Right Upper Trapezius (Superior Lateral)" 0.60 0.15 0.04 0.03 false;
  Hotspot.mk 35 "Right Upper Trapezius (Inferior Medial)" 0.55 0.19 0.04 0.03 false;
  Hotspot.mk 35 "Right Upper Trapezius (Inferior Lateral)" 0.60 0.19 0.04 0.03 false;
  Hotspot.mk 35 "Right Mid Traps (Superior Medial)" 0.53 0.21 0.035 0.04 false;
  Hotspot.mk 35 "Right Mid Traps (Superior Lateral)" 0.57 0.21 0.035 0.04 false;
  Hotspot.mk 35 "Right Mid Traps (Inferior Medial)" 0.53 0.26 0.035 0.04 false;
  Hotspot.mk 35 "Right Mid Traps (Inferior Lateral)" 0.57 0.26 0.035 0.04 false;
  Hotspot.mk 36 "Left Latissimus Dorsi (Upper Back)" 0.33 0.28 0.12 0.1 false;
  Hotspot.mk 36 "Left Lower Back (Flank - Thoracolumbar)" 0.35 0.38 0.1 0.06 false;
  Hotspot.mk 37 "Right Latissimus Dorsi (Upper Back)" 0.55 0.28 0.12 0.1 false;
  Hotspot.mk 37 "Right Lower Back (Flank - Thoracolumbar)" 0.55 0.38 0.1 0.06 false;
  Hotspot.mk 38 "Lumbar Spine (L1-L3 - Left Paraspinal)" 0.475 0.39 0.025 0.05 false;
  Hotspot.mk 38 "Lumbar Spine (L4-L5 - Left Paraspinal)" 0.475 0.44 0.025 0.04 false;
  Hotspot.mk 38 "Left Lumbar Erector Spinae" 0.41 0.39 0.06 0.09 false;
  Hotspot.mk 38 "L Gluteal (Superior)" 0.35 0.48 0.1 0.05 false;
  Hotspot.mk 38 "L Gluteal (Mid-Lateral)" 0.29 0.51 0.07 0.07 false;
  Hotspot.mk 38 "L Gluteal (Mid-Medial)" 0.36 0.53 0.08 0.06 false;
  Hotspot.mk 38 "L Ischial Tuberosity Area" 0.38 0.58 0.06 0.03 false;
  Hotspot.mk 38 "L UpperOuterLumbar S1" 0.39 0.37 0.01 0.01 false;
  Hotspot.mk 38 "L UpperOuterLumbar S2" 0.40 0.37 0.01 0.01 false;
  Hotspot.mk 38 "L UpperOuterLumbar S3" 0.41 0.37 0.01 0.01 false;
  Hotspot.mk 38 "L UpperOuterLumbar S4" 0.42 0.37 0.01 0.01 false;
  Hotspot.mk 38 "L UpperOuterLumbar S5" 0.39 0.38 0.01 0.01 false;
  Hotspot.mk 38 "L UpperOuterLumbar S6" 0.40 0.38 0.01 0.01 false;
  Hotspot.mk 38 "L UpperOuterLumbar S7" 0.41 0.38 0.01 0.01 false;
  Hotspot.mk 38 "L UpperOuterLumbar S8" 0.42 0.38 0.01 0.01 false;
  Hotspot.mk 38 "L UpperOuterLumbar S9" 0.39 0.39 0.01 0.01 false;
  Hotspot.mk 38 "L UpperOuterLumbar S10" 0.40 0.39 0.01 0.01 false;
  Hotspot.mk 38 "L UpperOuterLumbar S11" 0.41 0.39 0.01 0.01 false;
  Hotspot.mk 38 "L UpperOuterLumbar S12" 0.42 0.39 0.01 0.01 false;
  Hotspot.mk 38 "L UpperOuterLumbar S13" 0.39 0.40 0.01 0.01 false;
  Hotspot.mk 38 "L UpperOuterLumbar S14" 0.40 0.40 0.01 0.01 false;
  Hotspot.mk 38 "L UpperOuterLumbar S15" 0.41 0.40 0.01 0.01 false;
  Hotspot.mk 38 "L UpperOuterLumbar S16" 0.42 0.40 0.01 0.01 false;
  Hotspot.mk 38 "L UpperOuterLumbar S17" 0.43 0.385 0.01 0.01 false;
  Hotspot.mk 38 "L UpperOuterLumbar S18" 0.43 0.395 0.01 0.01 false;
  Hotspot.mk 38 "L UpperOuterLumbar S19" 0.385 0.38 0.01 0.01 false;
  Hotspot.mk 38 "L UpperOuterLumbar S20" 0.385 0.39 0.01 0.01 false;
  Hotspot.mk 38 "L Lumbar TopOuter A1" 0.39 0.375 0.01 0.01 false;
  Hotspot.mk 38 "L Lumbar TopOuter A2" 0.40 0.375 0.01 0.01 false;
  Hotspot.mk 38 "L Lumbar TopOuter A3" 0.39 0.385 0.01 0.01 false;
  Hotspot.mk 38 "L Lumbar TopOuter A4" 0.40 0.385 0.01 0.01 false;
  Hotspot.mk 38 "L Lumbar TopOuter B1" 0.38 0.39 0.01 0.01 false;
  Hotspot.mk 38 "L Lumbar TopOuter B2" 0.39 0.39 0.01 0.01 false;
  Hotspot.mk 38 "L Lumbar TopOuter B3" 0.38 0.40 0.01 0.01 false;
  Hotspot.mk 38 "L Lumbar TopOuter B4" 0.39 0.40 0.01 0.01 false;
  Hotspot.mk 38 "L Lumbar UpperLat C1" 0.395 0.405 0.01 0.01 false;
  Hotspot.mk 38 "L Lumbar UpperLat C2" 0.405 0.405 0.01 0.01 false;
  Hotspot.mk 38 "L Lumbar UpperLat C3" 0.395 0.415 0.01 0.01 false;
  Hotspot.mk 38 "L Lumbar UpperLat C4" 0.405 0.415 0.01 0.01 false;
  Hotspot.mk 38 "L Lumbar ES (SupLat 1)" 0.40 0.38 0.015 0.015 false;
  Hotspot.mk 38 "L Lumbar ES (SupLat 2)" 0.415 0.38 0.015 0.015 false;
  Hotspot.mk 38 "L Lumbar ES (SupLat 3)" 0.40 0.395 0.015 0.015 false;
  Hotspot.mk 38 "L Lumbar ES (SupMid 1)" 0.43 0.38 0.015 0.015 false;
  Hotspot.mk 38 "L Lumbar ES (SupMid 2)" 0.445 0.38 0.015 0.015 false;
  Hotspot.mk 38 "L Lumbar ES (SupMid 3)" 0.43 0.395 0.015 0.015 false;
  Hotspot.mk 38 "L Lumbar ES (MidLat 1)" 0.40 0.41 0.015 0.015 false;
  Hotspot.mk 38 "L Lumbar ES (MidLat 2)" 0.415 0.41 0.015 0.015 false;
  Hotspot.mk 38 "L Lumbar ES (MidLat 3)" 0.40 0.425 0.015 0.015 false;
  Hotspot.mk 38 "L Lumbar Para (Sup 1)" 0.45 0.38 0.012 0.01 false;
  Hotspot.mk 38 "L Lumbar Para (Sup 2)" 0.462 0.38 0.013 0.01 false;
  Hotspot.mk 38 "L Lumbar Para (Sup 3)" 0.45 0.39 0.012 0.01 false;
  Hotspot.mk 38 "L Lumbar Para (Mid 1)" 0.45 0.40 0.012 0.01 false;
  Hotspot.mk 38 "L Lumbar Para (Mid 2)" 0.462 0.40 0.013 0.01 false;
  Hotspot.mk 38 "L Lumbar Para (Mid 3)" 0.45 0.41 0.012 0.01 false;
  Hotspot.mk 38 "L Lumbar (TL 1a)" 0.40 0.37 0.01 0.01 false;
  Hotspot.mk 38 "L Lumbar (TL 1b)" 0.41 0.37 0.01 0.01 false;
  Hotspot.mk 38 "L Lumbar (TL 2a)" 0.42 0.37 0.01 0.01 false;
  Hotspot.mk 38 "L Lumbar (TL 2b)" 0.43 0.37 0.01 0.01 false;
  Hotspot.mk 38 "L Lumbar (TL 3a)" 0.40 0.38 0.01 0.01 false;
  Hotspot.mk 38 "L Lumbar (TL 3b)" 0.41 0.38 0.01 0.01 false;
  Hotspot.mk 38 "L Lumbar (TC 1a)" 0.44 0.37 0.01 0.01 false;
  Hotspot.mk 38 "L Lumbar (TC 1b)" 0.45 0.37 0.01 0.01 false;
  Hotspot.mk 38 "L Lumbar (TC 2a)" 0.46 0.37 0.01 0.01 false;
  Hotspot.mk 38 "L Lumbar (TC 2b)" 0.47 0.37 0.01 0.01 false;
  Hotspot.mk 38 "L Glute SupLat (A1)" 0.30 0.47 0.02 0.015 false;
  Hotspot.mk 38 "L Glute SupLat (A2)" 0.32 0.47 0.02 0.015 false;
  Hotspot.mk 38 "L Glute SupLat (B1)" 0.33 0.475 0.02 0.015 false;
  Hotspot.mk 38 "L Glute SupLat (B2)" 0.35 0.475 0.02 0.015 false;
  Hotspot.mk 38 "L Glute SupMidLat (1)" 0.29 0.49 0.025 0.015 false;
  Hotspot.mk 38 "L Glute SupMidLat (2)" 0.315 0.49 0.025 0.015 false;
  Hotspot.mk 38 "L Glute UpOut (1)" 0.28 0.48 0.02 0.015 false;
  Hotspot.mk 38 "L Glute UpOut (2)" 0.30 0.48 0.02 0.015 false;
  Hotspot.mk 38 "L Glute TL (1a)" 0.28 0.47 0.01 0.01 false;
  Hotspot.mk 38 "L Glute TL (1b)" 0.29 0.47 0.01 0.01 false;
  Hotspot.mk 38 "L Glute TL (2a)" 0.30 0.46 0.01 0.01 false;
  Hotspot.mk 38 "L Glute TL (2b)" 0.31 0.46 0.01 0.01 false;
  Hotspot.mk 38 "L Glute TL (3a)" 0.32 0.47 0.01 0.01 false;
  Hotspot.mk 38 "L Glute TL (3b)" 0.33 0.47 0.01 0.01 false;
  Hotspot.mk 38 "L Glute TL (4a)" 0.34 0.46 0.01 0.01 false;
  Hotspot.mk 38 "L Glute TL (4b)" 0.35 0.46 0.01 0.01 false;
  Hotspot.mk 38 "L Glute TL (5a)" 0.31 0.485 0.01 0.01 false;
  Hotspot.mk 38 "L Glute TL (5b)" 0.32 0.485 0.01 0.01 false;
  Hotspot.mk 38 "L Glute TL (6a)" 0.33 0.495 0.01 0.01 false;
  Hotspot.mk 38 "L Glute TL (6b)" 0.34 0.495 0.01 0.01 false;
  Hotspot.mk 38 "L Glute (Superior Medial 1)" 0.36 0.48 0.02 0.015 false;
  Hotspot.mk 38 "L Glute (Superior Medial 2)" 0.38 0.48 0.02 0.015 false;
  Hotspot.mk 38 "L Glute (Superior Medial 3)" 0.37 0.49 0.02 0.015 false;
  Hotspot.mk 38 "L UpperLateralThigh S1" 0.28 0.50 0.01 0.02 false;
  Hotspot.mk 38 "L UpperLateralThigh S2" 0.29 0.50 0.01 0.02 false;
  Hotspot.mk 38 "L UpperLateralThigh S3" 0.30 0.50 0.01 0.02 false;
  Hotspot.mk 38 "L UpperLateralThigh S4" 0.28 0.52 0.01 0.02 false;
  Hotspot.mk 38 "L UpperLateralThigh S5" 0.29 0.52 0.01 0.02 false;
  Hotspot.mk 38 "L UpperLateralThigh S6" 0.30 0.52 0.01 0.02 false;
  Hotspot.mk 38 "L UpperLateralThigh S7" 0.28 0.54 0.01 0.02 false;
  Hotspot.mk 38 "L UpperLateralThigh S8" 0.29 0.54 0.01 0.02 false;
  Hotspot.mk 38 "L UpperLateralThigh S9" 0.30 0.54 0.01 0.02 false;
  Hotspot.mk 38 "L UpperLateralThigh S10" 0.28 0.56 0.01 0.02 false;
  Hotspot.mk 38 "L UpperLateralThigh S11" 0.29 0.56 0.01 0.02 false;
  Hotspot.mk 38 "L UpperLateralThigh S12" 0.30 0.56 0.01 0.02 false;
  Hotspot.mk 38 "L UpperLateralThigh S13" 0.28 0.58 0.01 0.02 false;
  Hotspot.mk 38 "L UpperLateralThigh S14" 0.29 0.58 0.01 0.02 false;
  Hotspot.mk 38 "L UpperLateralThigh S15" 0.30 0.58 0.01 0.02 false;
  Hotspot.mk 38 "Left Posterior Superior Iliac Spine (PSIS)" 0.42 0.47 0.04 0.03 false;
  Hotspot.mk 38 "L Sacrum TopOuter A1" 0.40 0.455 0.01 0.01 false;
  Hotspot.mk 38 "L Sacrum TopOuter A2" 0.41 0.455 0.01 0.01 false;
  Hotspot.mk 38 "L Sacrum TopOuter A3" 0.40 0.465 0.01 0.01 false;
  Hotspot.mk 38 "L Sacrum TopOuter A4" 0.41 0.465 0.01 0.01 false;
  Hotspot.mk 38 "L Sacrum UpperLat B1" 0.415 0.47 0.01 0.01 false;
  Hotspot.mk 38 "L Sacrum UpperLat B2" 0.425 0.47 0.01 0.01 false;
  Hotspot.mk 38 "L Sacrum UpperLat B3" 0.415 0.48 0.01 0.01 false;
  Hotspot.mk 38 "L Sacrum UpperLat B4" 0.425 0.48 0.01 0.01 false;
  Hotspot.mk 38 "L PSIS (Sup 1)" 0.42 0.46 0.02 0.01 false;
  Hotspot.mk 38 "L PSIS (Sup 2)" 0.44 0.46 0.02 0.01 false;
  Hotspot.mk 38 "L PSIS (Lat 1)" 0.40 0.47 0.01 0.015 false;
  Hotspot.mk 38 "L PSIS (Lat 2)" 0.41 0.47 0.01 0.015 false;
  Hotspot.mk 38 "L SI Area (Sup 1)" 0.44 0.465 0.015 0.012 false;
  Hotspot.mk 38 "L SI Area (Sup 2)" 0.455 0.465 0.015 0.013 false;
  Hotspot.mk 38 "L Sacral Ala (Sup 1)" 0.45 0.475 0.012 0.01 false;
  Hotspot.mk 38 "L Sacral Ala (Sup 2)" 0.462 0.475 0.013 0.01 false;
  Hotspot.mk 38 "L Sacrum (TL 1a)" 0.41 0.46 0.01 0.01 false;
  Hotspot.mk 38 "L Sacrum (TL 1b)" 0.42 0.46 0.01 0.01 false;
  Hotspot.mk 38 "L Sacrum (TL 2a)" 0.43 0.46 0.01 0.01 false;
  Hotspot.mk 38 "L Sacrum (TL 2b)" 0.44 0.46 0.01 0.01 false;
  Hotspot.mk 38 "L Sacrum (TL 3a)" 0.41 0.47 0.01 0.01 false;
  Hotspot.mk 38 "L Sacrum (TL 3b)" 0.42 0.47 0.01 0.01 false;
  Hotspot.mk 38 "L Sacrum (TL 4a)" 0.41 0.48 0.01 0.01 false;
  Hotspot.mk 38 "L Sacrum (TL 4b)" 0.42 0.48 0.01 0.01 false;
  Hotspot.mk 39 "Lumbar Spine (L1-L3 - Right Paraspinal)" 0.50 0.39 0.025 0.05 false;
  Hotspot.mk 39 "Lumbar Spine (L4-L5 - Right Paraspinal)" 0.50 0.44 0.025 0.04 false;
  Hotspot.mk 39 "Right Lumbar Erector Spinae" 0.53 0.39 0.06 0.09 false;
  Hotspot.mk 39 "Right Gluteal (Superior)" 0.55 0.48 0.1 0.05 false;
  Hotspot.mk 39 "R Gluteal (Mid-Lateral)" 0.64 0.51 0.07 0.07 false;
  Hotspot.mk 39 "R Gluteal (Mid-Medial)" 0.56 0.53 0.08 0.06 false;
  Hotspot.mk 39 "R Ischial Tuberosity Area" 0.56 0.58 0.06 0.03 false;
  Hotspot.mk 39 "R UpperOuterLumbar S1" 0.57 0.37 0.01 0.01 false;
  Hotspot.mk 39 "R UpperOuterLumbar S2" 0.58 0.37 0.01 0.01 false;
  Hotspot.mk 39 "R UpperOuterLumbar S3" 0.59 0.37 0.01 0.01 false;
  Hotspot.mk 39 "R UpperOuterLumbar S4" 0.60 0.37 0.01 0.01 false;
  Hotspot.mk 39 "R UpperOuterLumbar S5" 0.57 0.38 0.01 0.01 false;
  Hotspot.mk 39 "R UpperOuterLumbar S6" 0.58 0.38 0.01 0.01 false;
  Hotspot.mk 39 "R UpperOuterLumbar S7" 0.59 0.38 0.01 0.01 false;
  Hotspot.mk 39 "R UpperOuterLumbar S8" 0.60 0.38 0.01 0.01 false;
  Hotspot.mk 39 "R UpperOuterLumbar S9" 0.57 0.39 0.01 0.01 false;
  Hotspot.mk 39 "R UpperOuterLumbar S10" 0.58 0.39 0.01 0.01 false;
  Hotspot.mk 39 "R UpperOuterLumbar S11" 0.59 0.39 0.01 0.01 false;
  Hotspot.mk 39 "R UpperOuterLumbar S12" 0.60 0.39 0.01 0.01 false;
  Hotspot.mk 39 "R UpperOuterLumbar S13" 0.57 0.40 0.01 0.01 false;
  Hotspot.mk 39 "R UpperOuterLumbar S14" 0.58 0.40 0.01 0.01 false;
  Hotspot.mk 39 "R UpperOuterLumbar S15" 0.59 0.40 0.01 0.01 false;
  Hotspot.mk 39 "R UpperOuterLumbar S16" 0.60 0.40 0.01 0.01 false;
  Hotspot.mk 39 "R UpperOuterLumbar S17" 0.565 0.385 0.01 0.01 false;
  Hotspot.mk 39 "R UpperOuterLumbar S18" 0.565 0.395 0.01 0.01 false;
  Hotspot.mk 39 "R UpperOuterLumbar S19" 0.605 0.38 0.01 0.01 false;
  Hotspot.mk 39 "R UpperOuterLumbar S20" 0.605 0.39 0.01 0.01 false;
  Hotspot.mk 39 "R Lumbar TopOuter A1" 0.59 0.375 0.01 0.01 false;
  Hotspot.mk 39 "R Lumbar TopOuter A2" 0.58 0.375 0.01 0.01 false;
  Hotspot.mk 39 "R Lumbar TopOuter A3" 0.59 0.385 0.01 0.01 false;
  Hotspot.mk 39 "R Lumbar TopOuter A4" 0.58 0.385 0.01 0.01 false;
  Hotspot.mk 39 "R Lumbar TopOuter B1" 0.60 0.39 0.01 0.01 false;
  Hotspot.mk 39 "R Lumbar TopOuter B2" 0.59 0.39 0.01 0.01 false;
  Hotspot.mk 39 "R Lumbar TopOuter B3" 0.60 0.40 0.01 0.01 false;
  Hotspot.mk 39 "R Lumbar TopOuter B4" 0.59 0.40 0.01 0.01 false;
  Hotspot.mk 39 "R Lumbar UpperLat C1" 0.585 0.405 0.01 0.01 false;
  Hotspot.mk 39 "R Lumbar UpperLat C2" 0.575 0.405 0.01 0.01 false;
  Hotspot.mk 39 "R Lumbar UpperLat C3" 0.585 0.415 0.01 0.01 false;
  Hotspot.mk 39 "R Lumbar UpperLat C4" 0.575 0.415 0.01 0.01 false;
  Hotspot.mk 39 "R Lumbar ES (SupLat 1)" 0.52 0.38 0.015 0.015 false;
  Hotspot.mk 39 "R Lumbar ES (SupLat 2)" 0.535 0.38 0.015 0.015 false;
  Hotspot.mk 39 "R Lumbar ES (SupLat 3)" 0.52 0.395 0.015 0.015 false;
  Hotspot.mk 39 "R Lumbar ES (SupMid 1)" 0.55 0.38 0.015 0.015 false;
  Hotspot.mk 39 "R Lumbar ES (SupMid 2)" 0.565 0.38 0.015 0.015 false;
  Hotspot.mk 39 "R Lumbar ES (SupMid 3)" 0.55 0.395 0.015 0.015 false;
  Hotspot.mk 39 "R Lumbar ES (MidLat 1)" 0.52 0.41 0.015 0.015 false;
  Hotspot.mk 39 "R Lumbar ES (MidLat 2)" 0.535 0.41 0.015 0.015 false;
  Hotspot.mk 39 "R Lumbar ES (MidLat 3)" 0.52 0.425 0.015 0.015 false;
  Hotspot.mk 39 "R Lumbar Para (Sup 1)" 0.50 0.38 0.012 0.01 false;
  Hotspot.mk 39 "R Lumbar Para (Sup 2)" 0.512 0.38 0.013 0.01 false;
  Hotspot.mk 39 "R Lumbar Para (Sup 3)" 0.50 0.39 0.012 0.01 false;
  Hotspot.mk 39 "R Lumbar Para (Mid 1)" 0.50 0.40 0.012 0.01 false;
  Hotspot.mk 39 "R Lumbar Para (Mid 2)" 0.512 0.40 0.013 0.01 false;
  Hotspot.mk 39 "R Lumbar Para (Mid 3)" 0.50 0.41 0.012 0.01 false;
  Hotspot.mk 39 "R Lumbar (TR 1a)" 0.57 0.37 0.01 0.01 false;
  Hotspot.mk 39 "R Lumbar (TR 1b)" 0.58 0.37 0.01 0.01 false;
  Hotspot.mk 39 "R Lumbar (TR 2a)" 0.55 0.37 0.01 0.01 false;
  Hotspot.mk 39 "R Lumbar (TR 2b)" 0.56 0.37 0.01 0.01 false;
  Hotspot.mk 39 "R Lumbar (TR 3a)" 0.57 0.38 0.01 0.01 false;
  Hotspot.mk 39 "R Lumbar (TR 3b)" 0.58 0.38 0.01 0.01 false;
  Hotspot.mk 39 "R Glute SupLat (A1)" 0.66 0.47 0.02 0.015 false;
  Hotspot.mk 39 "R Glute SupLat (A2)" 0.64 0.47 0.02 0.015 false;
  Hotspot.mk 39 "R Glute SupLat (B1)" 0.63 0.475 0.02 0.015 false;
  Hotspot.mk 39 "R Glute SupLat (B2)" 0.61 0.475 0.02 0.015 false;
  Hotspot.mk 39 "R Glute SupMidLat (1)" 0.66 0.49 0.025 0.015 false;
  Hotspot.mk 39 "R Glute SupMidLat (2)" 0.635 0.49 0.025 0.015 false;
  Hotspot.mk 39 "R Glute UpOut (1)" 0.68 0.48 0.02 0.015 false;
  Hotspot.mk 39 "R Glute UpOut (2)" 0.66 0.48 0.02 0.015 false;
  Hotspot.mk 39 "R Glute TR (1a)" 0.68 0.47 0.01 0.01 false;
  Hotspot.mk 39 "R Glute TR (1b)" 0.67 0.47 0.01 0.01 false;
  Hotspot.mk 39 "R Glute TR (2a)" 0.66 0.46 0.01 0.01 false;
  Hotspot.mk 39 "R Glute TR (2b)" 0.65 0.46 0.01 0.01 false;
  Hotspot.mk 39 "R Glute TR (3a)" 0.64 0.47 0.01 0.01 false;
  Hotspot.mk 39 "R Glute TR (3b)" 0.63 0.47 0.01 0.01 false;
  Hotspot.mk 39 "R Glute TR (4a)" 0.62 0.46 0.01 0.01 false;
  Hotspot.mk 39 "R Glute TR (4b)" 0.61 0.46 0.01 0.01 false;
  Hotspot.mk 39 "R Glute TR (5a)" 0.65 0.485 0.01 0.01 false;
  Hotspot.mk 39 "R Glute TR (5b)" 0.64 0.485 0.01 0.01 false;
  Hotspot.mk 39 "R Glute TR (6a)" 0.63 0.495 0.01 0.01 false;
  Hotspot.mk 39 "R Glute TR (6b)" 0.62 0.495 0.01 0.01 false;
  Hotspot.mk 39 "R Glute (Superior Medial 1)" 0.60 0.48 0.02 0.015 false;
  Hotspot.mk 39 "R Glute (Superior Medial 2)" 0.58 0.48 0.02 0.015 false;
  Hotspot.mk 39 "R Glute (Superior Medial 3)" 0.59 0.49 0.02 0.015 false;
  Hotspot.mk 39 "R UpperLateralThigh S1" 0.68 0.50 0.01 0.02 false;
  Hotspot.mk 39 "R UpperLateralThigh S2" 0.69 0.50 0.01 0.02 false;
  Hotspot.mk 39 "R UpperLateralThigh S3" 0.70 0.50 0.01 0.02 false;
  Hotspot.mk 39 "R UpperLateralThigh S4" 0.68 0.52 0.01 0.02 false;
  Hotspot.mk 39 "R UpperLateralThigh S5" 0.69 0.52 0.01 0.02 false;
  Hotspot.mk 39 "R UpperLateralThigh S6" 0.70 0.52 0.01 0.02 false;
  Hotspot.mk 39 "R UpperLateralThigh S7" 0.68 0.54 0.01 0.02 false;
  Hotspot.mk 39 "R UpperLateralThigh S8" 0.69 0.54 0.01 0.02 false;
  Hotspot.mk 39 "R UpperLateralThigh S9" 0.70 0.54 0.01 0.02 false;
  Hotspot.mk 39 "R UpperLateralThigh S10" 0.68 0.56 0.01 0.02 false;
  Hotspot.mk 39 "R UpperLateralThigh S11" 0.69 0.56 0.01 0.02 false;
  Hotspot.mk 39 "R UpperLateralThigh S12" 0.70 0.56 0.01 0.02 false;
  Hotspot.mk 39 "R UpperLateralThigh S13" 0.68 0.58 0.01 0.02 false;
  Hotspot.mk 39 "R UpperLateralThigh S14" 0.69 0.58 0.01 0.02 false;
  Hotspot.mk 39 "R UpperLateralThigh S15" 0.70 0.58 0.01 0.02 false;
  Hotspot.mk 39 "Right Posterior Superior Iliac Spine (PSIS)" 0.54 0.47 0.04 0.03 false;
  Hotspot.mk 39 "R Sacrum TopOuter A1" 0.58 0.455 0.01 0.01 false;
  Hotspot.mk 39 "R Sacrum TopOuter A2" 0.57 0.455 0.01 0.01 false;
  Hotspot.mk 39 "R Sacrum TopOuter A3" 0.58 0.465 0.01 0.01 false;
  Hotspot.mk 39 "R Sacrum TopOuter A4" 0.57 0.465 0.01 0.01 false;
  Hotspot.mk 39 "R Sacrum UpperLat B1" 0.565 0.47 0.01 0.01 false;
  Hotspot.mk 39 "R Sacrum UpperLat B2" 0.555 0.47 0.01 0.01 false;
  Hotspot.mk 39 "R Sacrum UpperLat B3" 0.565 0.48 0.01 0.01 false;
  Hotspot.mk 39 "R Sacrum UpperLat B4" 0.555 0.48 0.01 0.01 false;
  Hotspot.mk 39 "R PSIS (Sup 1)" 0.54 0.46 0.02 0.01 false;
  Hotspot.mk 39 "R PSIS (Sup 2)" 0.56 0.46 0.02 0.01 false;
  Hotspot.mk 39 "R PSIS (Lat 1)" 0.58 0.47 0.01 0.015 false;
  Hotspot.mk 39 "R PSIS (Lat 2)" 0.57 0.47 0.01 0.015 false;
  Hotspot.mk 39 "R SI Area (Sup 1)" 0.53 0.465 0.015 0.012 false;
  Hotspot.mk 39 "R SI Area (Sup 2)" 0.515 0.465 0.015 0.013 false;
  Hotspot.mk 39 "R Sacral Ala (Sup 1)" 0.525 0.475 0.012 0.01 false;
  Hotspot.mk 39 "R Sacral Ala (Sup 2)" 0.513 0.475 0.012 0.01 false;
  Hotspot.mk 39 "R Sacrum (TR 1a)" 0.57 0.46 0.01 0.01 false;
  Hotspot.mk 39 "R Sacrum (TR 1b)" 0.56 0.46 0.01 0.01 false;
  Hotspot.mk 39 "R Sacrum (TR 2a)" 0.55 0.46 0.01 0.01 false;
  Hotspot.mk 39 "R Sacrum (TR 2b)" 0.54 0.46 0.01 0.01 false;
  Hotspot.mk 39 "R Sacrum (TR 3a)" 0.57 0.47 0.01 0.01 false;
  Hotspot.mk 39 "R Sacrum (TR 3b)" 0.56 0.47 0.01 0.01 false;
  Hotspot.mk 39 "R Sacrum (TR 4a)" 0.57 0.48 0.01 0.01 false;
  Hotspot.mk 39 "R Sacrum (TR 4b)" 0.56 0.48 0.01 0.01 false;
  Hotspot.mk 39 "Sacrum (Midline)" 0.475 0.48 0.05 0.04 false;
  Hotspot.mk 39 "Sacrum (Sup Cent 1)" 0.475 0.47 0.025 0.01 false;
  Hotspot.mk 39 "Sacrum (Sup Cent 2)" 0.50 0.47 0.025 0.01 false;
  Hotspot.mk 39 "Sacrum (Mid Cent 1)" 0.475 0.49 0.025 0.01 false;
  Hotspot.mk 39 "Sacrum (Mid Cent 2)" 0.50 0.49 0.025 0.01 false;
  Hotspot.mk 40 "Left Proximal Hamstring" 0.33 0.60 0.11 0.06 false;
  Hotspot.mk 40 "L LowerLateralThigh S16" 0.28 0.60 0.01 0.02 false;
  Hotspot.mk 40 "L LowerLateralThigh S17" 0.29 0.60 0.01 0.02 false;
  Hotspot.mk 40 "L LowerLateralThigh S18" 0.30 0.60 0.01 0.02 false;
  Hotspot.mk 40 "L LowerLateralThigh S19" 0.28 0.62 0.01 0.02 false;
  Hotspot.mk 40 "L LowerLateralThigh S20" 0.29 0.62 0.01 0.02 false;
  Hotspot.mk 40 "L LowerLateralThigh S21" 0.30 0.62 0.01 0.02 false;
  Hotspot.mk 40 "L LowerLateralThigh S22" 0.28 0.64 0.01 0.02 false;
  Hotspot.mk 40 "L LowerLateralThigh S23" 0.29 0.64 0.01 0.02 false;
  Hotspot.mk 40 "L LowerLateralThigh S24" 0.30 0.64 0.01 0.02 false;
  Hotspot.mk 40 "L LowerLateralThigh S25" 0.28 0.66 0.01 0.02 false;
  Hotspot.mk 40 "L LowerLateralThigh S26" 0.29 0.66 0.01 0.02 false;
  Hotspot.mk 40 "L LowerLateralThigh S27" 0.30 0.66 0.01 0.02 false;
  Hotspot.mk 40 "L LowerLateralThigh S28" 0.28 0.68 0.01 0.02 false;
  Hotspot.mk 40 "L LowerLateralThigh S29" 0.29 0.68 0.01 0.02 false;
  Hotspot.mk 40 "L LowerLateralThigh S30" 0.30 0.68 0.01 0.02 false;
  Hotspot.mk 41 "Right Proximal Hamstring" 0.56 0.60 0.11 0.06 false;
  Hotspot.mk 41 "R LowerLateralThigh S16" 0.68 0.60 0.01 0.02 false;
  Hotspot.mk 41 "R LowerLateralThigh S17" 0.69 0.60 0.01 0.02 false;
  Hotspot.mk 41 "R LowerLateralThigh S18" 0.70 0.60 0.01 0.02 false;
  Hotspot.mk 41 "R LowerLateralThigh S19" 0.68 0.62 0.01 0.02 false;
  Hotspot.mk 41 "R LowerLateralThigh S20" 0.69 0.62 0.01 0.02 false;
  Hotspot.mk 41 "R LowerLateralThigh S21" 0.70 0.62 0.01 0.02 false;
  Hotspot.mk 41 "R LowerLateralThigh S22" 0.68 0.64 0.01 0.02 false;
  Hotspot.mk 41 "R LowerLateralThigh S23" 0.69 0.64 0.01 0.02 false;
  Hotspot.mk 41 "R LowerLateralThigh S24" 0.70 0.64 0.01 0.02 false;
  Hotspot.mk 41 "R LowerLateralThigh S25" 0.68 0.66 0.01 0.02 false;
  Hotspot.mk 41 "R LowerLateralThigh S26" 0.69 0.66 0.01 0.02 false;
  Hotspot.mk 41 "R LowerLateralThigh S27" 0.70 0.66 0.01 0.02 false;
  Hotspot.mk 41 "R LowerLateralThigh S28" 0.68 0.68 0.01 0.02 false;
  Hotspot.mk 41 "R LowerLateralThigh S29" 0.69 0.68 0.01 0.02 false;
  Hotspot.mk 41 "R LowerLateralThigh S30" 0.70 0.68 0.01 0.02 false;
  Hotspot.mk 42 "Left Mid-Hamstring" 0.33 0.66 0.11 0.06 false;
  Hotspot.mk 42 "Left Distal Hamstring (Popliteal Superior)" 0.34 0.72 0.1 0.04 false;
  Hotspot.mk 42 "Left Calf (Gastrocnemius - Medial Head)" 0.37 0.76 0.06 0.07 false;
  Hotspot.mk 42 "Left Calf (Gastrocnemius - Lateral Head)" 0.30 0.76 0.06 0.07 false;
  Hotspot.mk 42 "Left Calf (Soleus - Mid)" 0.33 0.83 0.08 0.06 false;
  Hotspot.mk 42 "Left Lateral Shin (Posterior)" 0.28 0.80 0.05 0.08 false;
  Hotspot.mk 43 "Right Mid-Hamstring" 0.56 0.66 0.11 0.06 false;
  Hotspot.mk 43 "Right Distal Hamstring (Popliteal Superior)" 0.56 0.72 0.1 0.04 false;
  Hotspot.mk 43 "Right Calf (Gastrocnemius - Medial Head)" 0.57 0.76 0.06 0.07 false;
  Hotspot.mk 43 "Right Calf (Gastrocnemius - Lateral Head)" 0.64 0.76 0.06 0.07 false;
  Hotspot.mk 43 "Right Calf (Soleus - Mid)" 0.59 0.83 0.08 0.06 false;
  Hotspot.mk 43 "Right Lateral Shin (Posterior)" 0.67 0.80 0.05 0.08 false;
  Hotspot.mk 44 "Left Achilles Tendon" 0.35 0.89 0.05 0.04 false;
  Hotspot.mk 44 "Left Heel (Posterior)" 0.35 0.93 0.06 0.03 false;
  Hotspot.mk 44 "Left Sole (Plantar Heel)" 0.34 0.96 0.07 0.03 true;
  Hotspot.mk 44 "Left Sole (Plantar Arch - Medial)" 0.37 0.95 0.04 0.02 true;
  Hotspot.mk 44 "Left Sole (Plantar Arch - Lateral)" 0.31 0.95 0.04 0.02 true;
  Hotspot.mk 44 "Left Sole (Plantar Forefoot - Medial)" 0.36 0.94 0.04 0.02 true;
  Hotspot.mk 44 "Left Sole (Plantar Forefoot - Lateral)" 0.30 0.94 0.04 0.02 true;
  Hotspot.mk 45 "Right Achilles Tendon" 0.60 0.89 0.05 0.04 false;
  Hotspot.mk 45 "Right Heel (Posterior)" 0.59 0.93 0.06 0.03 false;
  Hotspot.mk 45 "Right Sole (Plantar Heel)" 0.59 0.96 0.07 0.03 true;
  Hotspot.mk 45 "Right Sole (Plantar Arch - Medial)" 0.59 0.95 0.04 0.02 true;
  Hotspot.mk 45 "Right Sole (Plantar Arch - Lateral)" 0.65 0.95 0.04 0.02 true;
  Hotspot.mk 45 "Right Sole (Plantar Forefoot - Medial)" 0.60 0.94 0.04 0.02 true;
  Hotspot.mk 45 "Right Sole (Plantar Forefoot - Lateral)" 0.66 0.94 0.04 0.02 true
].
(** ** JavaScript primitives *)

(** [a < b] on numbers. *)
Definition Qltb (a b : Q) : bool := negb (Qle_bool b a).

(** [Math.round]: the nearest integer, halves going up. *)
Definition Math_round (q : Q) : Z := Qfloor (q + (1 # 2))%Q.

(** An integer inside a template literal: its decimal digits. *)
Definition numberToString (n : Z) : string :=
  NilZero.string_of_int (Z.to_int n).

(** [s.includes(needle)]: [needle] occurs in [s] at some position. *)
Fixpoint includes (s needle : string) : bool :=
  String.prefix needle s
  || match s with
     | EmptyString => false
     | String _ rest => includes rest needle
     end.

(** A string used as a condition is true unless it is empty. *)
Definition truthy (s : string) : bool :=
  match s with EmptyString => false | String _ _ => true end.

(** ** Pain-area store *)

(** [updateFormData({ painAreas: updatedPainAreas })] of the form context:
    [setFormData(prevData => ({ ...prevData, ...stepData }))] replaces
    [formData.painAreas] by the given sequence and keeps the rest. *)
Definition updateFormData_painAreas (updatedPainAreas : list PainArea.t)
    (st : State) : State :=
  mkState updatedPainAreas (selectedPainAreaId st) (currentView st)
    (canvasRef st).

Definition handlePainAreaUpdate (updatedPainAreas : list PainArea.t)
    (st : State) : State :=
  updateFormData_painAreas updatedPainAreas st.

Definition setSelectedPainAreaId (sel : option string) (st : State) : State :=
  mkState (painAreas st) sel (currentView st) (canvasRef st).

Definition setCurrentView (v : BodyView) (st : State) : State :=
  mkState (painAreas st) (selectedPainAreaId st) v (canvasRef st).

(** [selectedPainAreaId === idToRemove] and [area.id === selectedPainAreaId] *)
Definition isSelected (st : State) (anId : string) : bool :=
  match selectedPainAreaId st with
  | Some sel => String.eqb anId sel
  | None => false
  end.

Definition removePainArea (idToRemove : string) (st : State) : State :=
  let updatedPainAreas :=
    filter (fun area => negb (String.eqb (PainArea.id area) idToRemove))
           (painAreas st) in
  let st1 := handlePainAreaUpdate updatedPainAreas st in
  if isSelected st idToRemove then setSelectedPainAreaId None st1 else st1.

Definition selectedPainArea (st : State) : option PainArea.t :=
  match selectedPainAreaId st with
  | Some sel =>
      if truthy sel
      then find (fun area => String.eqb (PainArea.id area) sel) (painAreas st)
      else None
  | None => None
  end.

Definition handleIntensityChange (newIntensity : Z) (st : State) : State :=
  match selectedPainArea st with
  | Some _ =>
      let updatedPainAreas :=
        map (fun area =>
               if isSelected st (PainArea.id area)
               then PainArea.withIntensity area newIntensity
               else area)
            (painAreas st) in
      handlePainAreaUpdate updatedPainAreas st
  | None => st
  end.

(** The radio buttons of the view switch. *)
Definition selectView (v : BodyView) (st : State) : State :=
  setSelectedPainAreaId None (setCurrentView v st).

(** The records drawn over the image:
    [formData.painAreas.filter(area => area.notes?.includes(`View: ${currentView}`))]. *)
Definition filterByView (view : BodyView) (areas : list PainArea.t)
    : list PainArea.t :=
  filter (fun area =>
            match PainArea.notes area with
            | Some n => includes n ("View: " ++ viewName view)%string
            | None => false
            end)
         areas.

(** ** Resolver *)

Definition imageWidth (ev : MouseEvent) : Q := DOMRect.width (rect ev).
Definition imageHeight (ev : MouseEvent) : Q := DOMRect.height (rect ev).
Definition clickX (ev : MouseEvent) : Q :=
  (clientX ev - DOMRect.left (rect ev))%Q.
Definition clickY (ev : MouseEvent) : Q :=
  (clientY ev - DOMRect.top (rect ev))%Q.

(** The reasons for which [handleImageClick] returns without a record, one
    per [return] statement. *)
Inductive Exit : Set :=
| OutsideDisplayed   (* 'Click outside displayed image bounds.' *)
| CanvasNotReady     (* 'Canvas not ready or has no dimensions for pixel check.' *)
| NoContext          (* 'Canvas context not available for pixel check.' *)
| OutsideNatural     (* 'Calculated canvas click is outside natural image bounds.' *)
| Transparent        (* 'Clicked on a transparent part of the image.' *)
| EmptyCatalog       (* hotspotsToSearch.length === 0 *)
| NoClosest.         (* closestHotspot is still null after the loop *)

Definition outsideDisplayed (ev : MouseEvent) : bool :=
  Qltb (clickX ev) 0 || Qltb (imageWidth ev) (clickX ev)
  || Qltb (clickY ev) 0 || Qltb (imageHeight ev) (clickY ev).

Definition canvasClickX (ev : MouseEvent) (naturalWidth : Z) : Z :=
  Math_round ((clickX ev / imageWidth ev) * inject_Z naturalWidth)%Q.

Definition canvasClickY (ev : MouseEvent) (naturalHeight : Z) : Z :=
  Math_round ((clickY ev / imageHeight ev) * inject_Z naturalHeight)%Q.

Definition outsideNatural (cx cy naturalWidth naturalHeight : Z) : bool :=
  (cx <? 0)%Z || (cx >=? naturalWidth)%Z
  || (cy <? 0)%Z || (cy >=? naturalHeight)%Z.

(** The pixel that was read: the arguments of [getImageData] and the alpha
    value it returned. *)
Record Sample : Set := mkSample { sx : Z; sy : Z; alpha : Z }.

(** The first part of [handleImageClick], up to the call of [getImageData]:
    either an early return or the pixel that was sampled. *)
Definition samplePixel (canvas : option Canvas.t) (ev : MouseEvent)
    : Exit + Sample :=
  if outsideDisplayed ev then inl OutsideDisplayed
  else
    match canvas with
    | None => inl CanvasNotReady
    | Some canvas =>
        if (Canvas.width canvas =? 0)%Z || (Canvas.height canvas =? 0)%Z
        then inl CanvasNotReady
        else
          let naturalWidth := Canvas.width canvas in
          let naturalHeight := Canvas.height canvas in
          let cx := canvasClickX ev naturalWidth in
          let cy := canvasClickY ev naturalHeight in
          match Canvas.getContext canvas with
          | None => inl NoContext
          | Some ctx =>
              if outsideNatural cx cy naturalWidth naturalHeight
              then inl OutsideNatural
              else inr (mkSample cx cy (ctx cx cy))
          end
    end.

Definition hsCenterX (ev : MouseEvent) (hotspot : Hotspot.t) : Q :=
  (Hotspot.x hotspot * imageWidth ev
   + (Hotspot.width hotspot * imageWidth ev) / 2)%Q.

Definition hsCenterY (ev : MouseEvent) (hotspot : Hotspot.t) : Q :=
  (Hotspot.y hotspot * imageHeight ev
   + (Hotspot.height hotspot * imageHeight ev) / 2)%Q.

(** The argument of [Math.sqrt] in the loop body: the square of the distance
    between the click and the centre of the hotspot's box. *)
Definition distanceSquared (ev : MouseEvent) (hotspot : Hotspot.t) : Q :=
  ((clickX ev - hsCenterX ev hotspot) ^ 2
   + (clickY ev - hsCenterY ev hotspot) ^ 2)%Q.

(** The loop variables [closestHotspot] and [minDistance].  The square root is
    strictly increasing, so the loop's [distance < minDistance] is decided on
    the squares; [minDistanceSquared = None] stands for [Infinity]. *)
Record Closest : Set := mkClosest {
  closestHotspot : option Hotspot.t;
  minDistanceSquared : option Q
}.

Definition belowMin (d2 : Q) (minD2 : option Q) : bool :=
  match minD2 with
  | None => true
  | Some m => Qltb d2 m
  end.

Definition loopBody (ev : MouseEvent) (acc : Closest) (hotspot : Hotspot.t)
    : Closest :=
  let d2 := distanceSquared ev hotspot in
  if belowMin d2 (minDistanceSquared acc)
  then mkClosest (Some hotspot) (Some d2)
  else acc.

Definition searchHotspots (ev : MouseEvent) (hotspotsToSearch : list Hotspot.t)
    : Closest :=
  fold_left (loopBody ev) hotspotsToSearch (mkClosest None None).

(** [`View: ${currentView}, RegionID: ${regionIDForNotes}`], with the detail
    suffix for a detail hotspot. *)
Definition notesFor (view : BodyView) (h : Hotspot.t) : string :=
  let notes :=
    ("View: " ++ viewName view ++ ", RegionID: "
       ++ numberToString (Hotspot.id h))%string in
  if Hotspot.isDetail h then (notes ++ ", Detail: " ++ Hotspot.name h)%string
  else notes.

Definition newPainArea (view : BodyView) (ev : MouseEvent) (now : Z)
    (h : Hotspot.t) : PainArea.t :=
  PainArea.mk
    ("point-" ++ numberToString now)%string
    (Hotspot.name h)
    5
    (Some (PainArea.mkCoordinates (clickX ev / 0.85)%Q (clickY ev / 0.85)%Q))
    (Some (notesFor view h)).

Section Resolver.

(** The two catalog tables the component closes over. *)
Variables frontCatalog backCatalog : list Hotspot.t.

(** [currentView === 'front' ? frontHotspots : backHotspots] *)
Definition hotspotsFor (view : BodyView) : list Hotspot.t :=
  match view with front => frontCatalog | back => backCatalog end.

(** [handleImageClick] up to the end of the search loop: the reason for an
    early return, or the hotspot the record is made from. *)
Definition resolveWith (st : State) (ev : MouseEvent) : Exit + Hotspot.t :=
  match samplePixel (canvasRef st) ev with
  | inl e => inl e
  | inr s =>
      if (alpha s <? 10)%Z then inl Transparent
      else
        let hotspotsToSearch := hotspotsFor (currentView st) in
        if (length hotspotsToSearch =? 0)%nat then inl EmptyCatalog
        else
          match closestHotspot (searchHotspots ev hotspotsToSearch) with
          | None => inl NoClosest
          | Some h => inr h
          end
  end.

(** [now] is the value of [Date.now()] at the click. *)
Definition handleImageClickWith (ev : MouseEvent) (now : Z) (st : State)
    : State :=
  match resolveWith st ev with
  | inl _ => st
  | inr h =>
      let area := newPainArea (currentView st) ev now h in
      setSelectedPainAreaId (Some (PainArea.id area))
        (handlePainAreaUpdate (painAreas st ++ [area])%list st)
  end.

End Resolver.

Definition resolve : State -> MouseEvent -> Exit + Hotspot.t :=
  resolveWith frontHotspots backHotspots.

Definition handleImageClick : MouseEvent -> Z -> State -> State :=
  handleImageClickWith frontHotspots backHotspots.

(** ** Notions used in the statements *)

(** The ids of the stored records, in store order. *)
Definition ids (st : State) : list string := map PainArea.id (painAreas st).

(** The update [handleIntensityChange] applies to each record when the
    record with id [sel] is the selected one. *)
Definition setIntensityOf (sel : string) (newIntensity : Z)
    (area : PainArea.t) : PainArea.t :=
  if String.eqb (PainArea.id area) sel
  then PainArea.withIntensity area newIntensity
  else area.

(** The [distance] of the loop body: the Euclidean distance between the
    click and the centre of the hotspot's box, [Math.sqrt] of the sum of the
    two squares. *)
Definition distance (ev : MouseEvent) (hotspot : Hotspot.t) : R :=
  sqrt (Q2R (distanceSquared ev hotspot)).




(** The catalog of a view, over the two tables of the component. *)
Definition listHotspots : BodyView -> list Hotspot.t :=
  hotspotsFor frontHotspots backHotspots.

(** A fraction: a number of the interval [0, 1]. *)
Definition inUnit (q : Q) : bool := Qle_bool 0 q && Qle_bool q 1.

Definition boxInUnit (h : Hotspot.t) : bool :=
  inUnit (Hotspot.x h) && inUnit (Hotspot.y h)
  && inUnit (Hotspot.width h) && inUnit (Hotspot.height h).

(** The test of the overlay filter on one record. *)
Definition showsIn (view : BodyView) (area : PainArea.t) : bool :=
  match PainArea.notes area with
  | Some n => includes n ("View: " ++ viewName view)%string
  | None => false
  end.

(** The notes written for hotspot [h] in view [view] are found by the filter
    of [view], and not by the filter of the other view. *)
Definition tagRecovered (view : BodyView) (h : Hotspot.t) : bool :=
  Bool.eqb (includes (notesFor view h) ("View: " ++ viewName front)%string)
           (BodyView_eqb view front)
  && Bool.eqb (includes (notesFor view h) ("View: " ++ viewName back)%string)
              (BodyView_eqb view back).

(** ** Sample inputs *)

(** A fully opaque 100 x 200 raster. *)
Definition opaqueCanvas : Canvas.t :=
  Canvas.mk 100 200 (Some (fun _ _ => 255%Z)).


(** The image shown 300 x 600 with its corner at (100, 10). *)
Definition shownRect : DOMRect.t := DOMRect.mk 100 10 300 600.

(** A click at offset (85, 85) of the shown image. *)
Definition sampleClick : MouseEvent := mkMouseEvent 185 95 shownRect.


(** A click at offset (150, 300) of the shown image. *)
Definition secondClick : MouseEvent := mkMouseEvent 250 310 shownRect.

(** A click that maps to raster pixel (50, 50). *)
Definition holeClick : MouseEvent := mkMouseEvent 250 160 shownRect.

Definition emptyFront : State := mkState [] None front (Some opaqueCanvas).


Definition sampleArea : PainArea.t :=
  PainArea.mk "point-1700000000000" "Chin (Mentum)" 5
    (Some (PainArea.mkCoordinates 100 100))
    (Some "View: front, RegionID: 1"%string).

Definition otherArea : PainArea.t :=
  PainArea.mk "point-1700000000777" "Upper Lip" 8
    (Some (PainArea.mkCoordinates 120 90))
    (Some "View: front, RegionID: 1"%string).

(** A store of two records, the first one selected. *)
Definition sampleStore : State :=
  mkState [sampleArea; otherArea] (Some "point-1700000000000"%string) front
    (Some opaqueCanvas).

(** * The resolver in binary64

    The same code, [handleImageClick] up to the end of the search loop, with
    its numbers as the doubles they are.  The functions carry the names they
    have in the source and in the exact model above.  A click is the same
    [MouseEvent]: [clientX], [clientY] and the rectangle of
    [getBoundingClientRect()] are finite doubles, given by their values. *)

Module Double.

(** A JavaScript number: a binary64 value of IEEE 754, with one NaN.  The
    operations round to nearest, ties to even. *)
Definition number : Set := spec_float.

Definition prec : Z := 53.
Definition emax : Z := 1024.

Definition add : number -> number -> number := SFadd prec emax.
Definition sub : number -> number -> number := SFsub prec emax.
Definition mul : number -> number -> number := SFmul prec emax.
Definition div : number -> number -> number := SFdiv prec emax.
Definition Math_sqrt : number -> number := SFsqrt prec emax.

(** [a < b] and [a <= b]: false when either side is NaN. *)
Definition ltb : number -> number -> bool := SFltb.
Definition leb : number -> number -> bool := SFleb.

Definition Infinity : number := S754_infinity false.

(** The double of an integer. *)
Definition ofZ (n : Z) : number := binary_normalize prec emax n 0 false.

(** The double nearest to a rational: the value of a decimal literal, and
    the rational itself when it is the value of a double.  Numerator and
    denominator are integers, so the quotient is rounded once. *)
Definition ofQ (q : Q) : number := div (ofZ (Qnum q)) (ofZ (Zpos (Qden q))).

(** [Math.pow(x, 2)]: the square, rounded once, which is what the engines'
    [pow] returns for the exponent 2. *)
Definition Math_pow2 (x : number) : number := mul x x.

(** The value of [Math.round]: an integer, or one of the three numbers that
    are not finite.  Both signs of zero are [Integer 0]: they compare alike
    and [getImageData] takes them alike. *)
Inductive Rounded : Set :=
| Integer (n : Z)
| NotANumber
| PlusInfinity
| MinusInfinity.

(** [Math.round]: the integer nearest to [x], the upper one of two that are
    equally near; a number that is not finite is returned as it is.  A
    finite number is [m * 2^e] with its sign, and [floor (x + 1/2)] is
    computed on the integers. *)
Definition Math_round (x : number) : Rounded :=
  match x with
  | S754_zero _ => Integer 0
  | S754_infinity s => if s then MinusInfinity else PlusInfinity
  | S754_nan => NotANumber
  | S754_finite s m e =>
      let sm := if s then Z.neg m else Z.pos m in
      match e with
      | Z.neg k => Integer ((2 * sm + 2 ^ Z.pos k) / 2 ^ (Z.pos k + 1))
      | _ => Integer (sm * 2 ^ e)
      end
  end.

(** [r < n] and [r >= n] for a rounded number and an integer. *)
Definition Rounded_ltb (r : Rounded) (n : Z) : bool :=
  match r with
  | Integer k => (k <? n)%Z
  | MinusInfinity => true
  | NotANumber | PlusInfinity => false
  end.

Definition Rounded_geb (r : Rounded) (n : Z) : bool :=
  match r with
  | Integer k => (k >=? n)%Z
  | PlusInfinity => true
  | NotANumber | MinusInfinity => false
  end.

(** How the handler ends without a hotspot: by one of its [return]
    statements, or by the [TypeError] that [getImageData] throws. *)
Inductive Ending : Set :=
| Returned (e : Exit)
| Thrown.

(** The conversion of a number to the [long] of an interface that does not
    enforce the range: numbers that are not finite become 0, integers are
    taken modulo [2^32] into the signed range. *)
Definition toLong (r : Rounded) : Z :=
  match r with
  | Integer k => ((k + 2 ^ 31) mod 2 ^ 32 - 2 ^ 31)%Z
  | NotANumber | PlusInfinity | MinusInfinity => 0%Z
  end.

Definition inLong (k : Z) : bool := ((- 2 ^ 31 <=? k) && (k <? 2 ^ 31))%Z.

(** [ctx.getImageData(sx, sy, 1, 1).data[3]], or [None] for a [TypeError].
    The canvas is the browser's, and browsers differ on arguments that are
    no [long]: with [enforceRange] the method is the one of the HTML
    standard, declared [[EnforceRange] long], which throws for NaN, for an
    infinity and for an integer out of range; without it the arguments are
    converted as a plain [long]. *)
Definition getImageData (enforceRange : bool) (ctx : Canvas.Context2D)
    (sx sy : Rounded) : option Z :=
  if enforceRange then
    match sx, sy with
    | Integer n, Integer m =>
        if inLong n && inLong m then Some (ctx n m) else None
    | _, _ => None
    end
  else Some (ctx (toLong sx) (toLong sy)).

Definition zero : number := ofZ 0.

Definition imageWidth (ev : MouseEvent) : number :=
  ofQ (DOMRect.width (rect ev)).
Definition imageHeight (ev : MouseEvent) : number :=
  ofQ (DOMRect.height (rect ev)).
Definition clickX (ev : MouseEvent) : number :=
  sub (ofQ (clientX ev)) (ofQ (DOMRect.left (rect ev))).
Definition clickY (ev : MouseEvent) : number :=
  sub (ofQ (clientY ev)) (ofQ (DOMRect.top (rect ev))).

Definition outsideDisplayed (ev : MouseEvent) : bool :=
  ltb (clickX ev) zero || ltb (imageWidth ev) (clickX ev)
  || ltb (clickY ev) zero || ltb (imageHeight ev) (clickY ev).

Definition canvasClickX (ev : MouseEvent) (naturalWidth : Z) : Rounded :=
  Math_round (mul (div (clickX ev) (imageWidth ev)) (ofZ naturalWidth)).

Definition canvasClickY (ev : MouseEvent) (naturalHeight : Z) : Rounded :=
  Math_round (mul (div (clickY ev) (imageHeight ev)) (ofZ naturalHeight)).

Definition outsideNatural (cx cy : Rounded) (naturalWidth naturalHeight : Z)
    : bool :=
  Rounded_ltb cx 0 || Rounded_geb cx naturalWidth
  || Rounded_ltb cy 0 || Rounded_geb cy naturalHeight.

(** The arguments [getImageData] was called with and the alpha value of the
    pixel it read. *)
Record Sample : Set := mkSample { sx : Rounded; sy : Rounded; alpha : Z }.

Definition samplePixel (enforceRange : bool) (canvas : option Canvas.t)
    (ev : MouseEvent) : Ending + Sample :=
  if outsideDisplayed ev then inl (Returned OutsideDisplayed)
  else
    match canvas with
    | None => inl (Returned CanvasNotReady)
    | Some canvas =>
        if (Canvas.width canvas =? 0)%Z || (Canvas.height canvas =? 0)%Z
        then inl (Returned CanvasNotReady)
        else
          let naturalWidth := Canvas.width canvas in
          let naturalHeight := Canvas.height canvas in
          let cx := canvasClickX ev naturalWidth in
          let cy := canvasClickY ev naturalHeight in
          match Canvas.getContext canvas with
          | None => inl (Returned NoContext)
          | Some ctx =>
              if outsideNatural cx cy naturalWidth naturalHeight
              then inl (Returned OutsideNatural)
              else
                match getImageData enforceRange ctx cx cy with
                | None => inl Thrown
                | Some pixelAlpha => inr (mkSample cx cy pixelAlpha)
                end
          end
    end.

Definition hsCenterX (ev : MouseEvent) (hotspot : Hotspot.t) : number :=
  add (mul (ofQ (Hotspot.x hotspot)) (imageWidth ev))
      (div (mul (ofQ (Hotspot.width hotspot)) (imageWidth ev)) (ofZ 2)).

Definition hsCenterY (ev : MouseEvent) (hotspot : Hotspot.t) : number :=
  add (mul (ofQ (Hotspot.y hotspot)) (imageHeight ev))
      (div (mul (ofQ (Hotspot.height hotspot)) (imageHeight ev)) (ofZ 2)).

(** The [distance] of the loop body. *)
Definition distance (ev : MouseEvent) (hotspot : Hotspot.t) : number :=
  Math_sqrt
    (add (Math_pow2 (sub (clickX ev) (hsCenterX ev hotspot)))
         (Math_pow2 (sub (clickY ev) (hsCenterY ev hotspot)))).

(** The loop variables [closestHotspot] and [minDistance]. *)
Record Closest : Set := mkClosest {
  closestHotspot : option Hotspot.t;
  minDistance : number
}.

Definition loopBody (ev : MouseEvent) (acc : Closest) (hotspot : Hotspot.t)
    : Closest :=
  let distance := distance ev hotspot in
  if ltb distance (minDistance acc)
  then mkClosest (Some hotspot) distance
  else acc.

Definition searchHotspots (ev : MouseEvent) (hotspotsToSearch : list Hotspot.t)
    : Closest :=
  fold_left (loopBody ev) hotspotsToSearch (mkClosest None Infinity).

(** [handleImageClick] up to the end of the search loop, over the two
    catalog tables: how the handler ends without a hotspot, or the hotspot
    the record is made from. *)
Definition resolveWith (enforceRange : bool)
    (frontCatalog backCatalog : list Hotspot.t)
    (st : State) (ev : MouseEvent) : Ending + Hotspot.t :=
  match samplePixel enforceRange (canvasRef st) ev with
  | inl e => inl e
  | inr s =>
      if (alpha s <? 10)%Z then inl (Returned Transparent)
      else
        let hotspotsToSearch :=
          hotspotsFor frontCatalog backCatalog (currentView st) in
        if (length hotspotsToSearch =? 0)%nat then inl (Returned EmptyCatalog)
        else
          match closestHotspot (searchHotspots ev hotspotsToSearch) with
          | None => inl (Returned NoClosest)
          | Some h => inr h
          end
  end.

Definition resolve (enforceRange : bool)
    : State -> MouseEvent -> Ending + Hotspot.t :=
  resolveWith enforceRange frontHotspots backHotspots.

(** The click is on the right edge of the displayed image, whose width is
    a positive finite number, and vertically within the image. *)
Definition onRightEdge (ev : MouseEvent) : Prop :=
  clickX ev = imageWidth ev
  /\ (exists m e, imageWidth ev = S754_finite false m e)
  /\ ltb (clickY ev) zero = false
  /\ ltb (imageHeight ev) (clickY ev) = false.

(** The click is on the bottom edge of the displayed image, whose height is
    a positive finite number, and horizontally within the image. *)
Definition onBottomEdge (ev : MouseEvent) : Prop :=
  clickY ev = imageHeight ev
  /\ (exists m e, imageHeight ev = S754_finite false m e)
  /\ ltb (clickX ev) zero = false
  /\ ltb (imageWidth ev) (clickX ev) = false.

End Double.

(** ** Sample inputs of the binary64 resolver *)

(** The back view over the opaque raster. *)
Definition emptyBack : State := mkState [] None back (Some opaqueCanvas).

(** A click at offset (30, 321) of the shown image. *)
Definition tieClick : MouseEvent := mkMouseEvent 130 331 shownRect.

(** Two entries of the back catalog, the hand before the thumb. *)
Definition leftHand : Hotspot.t :=
  Hotspot.mk 32 "Left Hand (Dorsum - Metacarpals)" 0.18 0.54 0.06 0.05 false.

Definition leftThumb : Hotspot.t :=
  Hotspot.mk 32 "Left Thumb (Dorsal)" 0.15 0.57 0.02 0.04 false.

(** A click on the right edge of the shown image. *)
Definition edgeClick : MouseEvent := mkMouseEvent 400 95 shownRect.

(** The click [img.click()] delivers while the image has no box: the
    pointer at the origin and an empty rectangle. *)
Definition cornerClick : MouseEvent := mkMouseEvent 0 0 (DOMRect.mk 0 0 0 0).

(** * The rest of the component and the code around it

    The marker colours, the selection, the loading of the image and the
    red-flag handlers of the same component; the steps of the form context
    and their validity; the suggestion, the highest intensity and the pain
    bar of the summary step; what the server writes of the pain areas into
    the prompt and the email, and how it names uploads
    ([server/routes/upload.js]). *)

(** ** Marker colours, selection and image loading *)

(** [getIntensityColor], on the integer intensities of stored records. *)
Definition getIntensityColor (intensity : Z) : string :=
  if (intensity =? 0)%Z then "#cccccc"
  else if (1 <=? intensity)%Z && (intensity <=? 2)%Z then "#4ade80"
  else if (3 <=? intensity)%Z && (intensity <=? 4)%Z then "#84cc16"
  else if (5 <=? intensity)%Z && (intensity <=? 6)%Z then "#facc15"
  else if (7 <=? intensity)%Z && (intensity <=? 8)%Z then "#fb923c"
  else if (9 <=? intensity)%Z && (intensity <=? 10)%Z then "#f87171"
  else "#cccccc".

(** The [onClick] of a marker: [setSelectedPainAreaId(area.id)]. *)
Definition markerClick (area : PainArea.t) (st : State) : State :=
  setSelectedPainAreaId (Some (PainArea.id area)) st.

(** The [onClick] of the Done button: [setSelectedPainAreaId(null)]. *)
Definition doneClick (st : State) : State := setSelectedPainAreaId None st.

Module Image.
(** A decoded image element: its natural size and the alpha channel of its
    pixels. *)
Record t : Type := mk {
  naturalWidth : Z;
  naturalHeight : Z;
  alphaAt : Z -> Z -> Z
}.
End Image.

(** The raster after [clearRect] and [drawImage(img, 0, 0, naturalWidth,
    naturalHeight)] on a canvas of the image's natural size: the image's
    pixels inside the canvas, transparent black outside. *)
Definition drawImage (img : Image.t) : Canvas.Context2D :=
  fun px py =>
    if ((0 <=? px) && (px <? Image.naturalWidth img)
        && (0 <=? py) && (py <? Image.naturalHeight img))%Z
    then Image.alphaAt img px py
    else 0%Z.

Definition setCanvas (canvas : Canvas.t) (st : State) : State :=
  mkState (painAreas st) (selectedPainAreaId st) (currentView st)
    (Some canvas).

(** The [onLoad] handler of the image. *)
Definition onLoad (img : Image.t) (st : State) : State :=
  match canvasRef st with
  | Some canvas =>
      if ((0 <? Image.naturalWidth img) && (0 <? Image.naturalHeight img))%Z
      then
        match Canvas.getContext canvas with
        | Some _ =>
            setCanvas
              (Canvas.mk (Image.naturalWidth img) (Image.naturalHeight img)
                 (Some (drawImage img)))
              st
        | None => st
        end
      else st
  | None => st
  end.

(** One event of the pain-map part of the page, with the element that
    raises it: the image (click, load), the remove button of a listed
    record, the slider (shown while [selectedPainArea] exists, limited to
    0..10), the two view radio buttons, a marker (drawn for the records of
    the current view that have coordinates), the Done button of the slider
    panel. *)
Inductive step (st : State) : State -> Prop :=
| step_click (ev : MouseEvent) (now : Z) :
    step st (handleImageClick ev now st)
| step_load (img : Image.t) :
    step st (onLoad img st)
| step_remove (area : PainArea.t) :
    In area (painAreas st) ->
    step st (removePainArea (PainArea.id area) st)
| step_slider (v : Z) :
    selectedPainArea st <> None -> (0 <= v <= 10)%Z ->
    step st (handleIntensityChange v st)
| step_view (view : BodyView) :
    step st (selectView view st)
| step_marker (area : PainArea.t) :
    In area (filterByView (currentView st) (painAreas st)) ->
    PainArea.coordinates area <> None ->
    step st (markerClick area st)
| step_done :
    selectedPainArea st <> None ->
    step st (doneClick st).

(** The states a session gets to from [st0]. *)
Inductive reachableFrom (st0 : State) : State -> Prop :=
| reach_start : reachableFrom st0 st0
| reach_step (st st' : State) :
    reachableFrom st0 st -> step st st' -> reachableFrom st0 st'.

(** A session that starts without marks. *)
Definition freshSession (st : State) : Prop :=
  painAreas st = [] /\ selectedPainAreaId st = None.

(** The record was made by a click in view [view] that matched hotspot [h]
    of that view's catalog. *)
Definition madeFrom (view : BodyView) (h : Hotspot.t) (area : PainArea.t)
    : Prop :=
  In h (listHotspots view)
  /\ PainArea.region area = Hotspot.name h
  /\ PainArea.notes area = Some (notesFor view h)
  /\ PainArea.coordinates area <> None
  /\ truthy (PainArea.id area) = true.

(** What every stored record of a session satisfies: an intensity on the
    scale, and an origin in the catalog. *)
Definition wellMade (area : PainArea.t) : Prop :=
  (0 <= PainArea.intensity area <= 10)%Z
  /\ exists view h, madeFrom view h area.

Definition sessionInvariant (st : State) : Prop :=
  Forall wellMade (painAreas st)
  /\ (forall sel, selectedPainAreaId st = Some sel -> In sel (ids st)).

(** A loaded silhouette, opaque but for its pixel (50, 50). *)
Definition holedImage : Image.t :=
  Image.mk 100 200
    (fun px py => if ((px =? 50) && (py =? 50))%Z then 0%Z else 255%Z).

(** An image that failed to decode. *)
Definition brokenImage : Image.t := Image.mk 0 0 (fun _ _ => 0%Z).

(** ** Red flags *)

(** [RedFlagsData] of [data/formData] is not part of the sources at hand:
    the records below have the fields that the component reads and writes,
    with the types its handlers give them.  A field that the component reads
    through [|| ''] or [|| false] may be absent. *)

Module AreaEntry.
(** One entry of [areas]: the box of one body area. *)
Record t : Set := mk { selected : bool }.
End AreaEntry.

Module AreaSymptom.
(** [muscleWeakness] and [numbnessOrTingling]; [areas] is an object keyed by
    area name, kept here with its keys in order. *)
Record t : Set := mk {
  present : bool;
  areas : option (list (string * AreaEntry.t))
}.
End AreaSymptom.

Module WeightLoss.
(** [Number] stands for the values [parseFloat] returns. *)
Record t (Number : Type) : Type := mk {
  present : bool;
  period : option string;
  amountKg : option Number
}.
End WeightLoss.

Module Incontinence.
Record t : Set := mk {
  present : bool;
  details : option string;
  isNewOnset : option bool
}.
End Incontinence.

Module Saddle.
Record t : Set := mk { present : bool; details : option string }.
End Saddle.

Module Balance.
Record t : Set := mk { present : bool; type : string }.
End Balance.

Module RedFlags.
Record t (Number : Type) : Type := mk {
  muscleWeakness : AreaSymptom.t;
  numbnessOrTingling : AreaSymptom.t;
  unexplainedWeightLoss : WeightLoss.t Number;
  bladderOrBowelIncontinence : Incontinence.t;
  saddleAnaesthesia : Saddle.t;
  balanceProblems : Balance.t;
  otherRedFlagPresent : option bool;
  otherRedFlag : option string
}.
End RedFlags.

Module Flag.
(** The flag names [handleRedFlagMainPresentChange] accepts. *)
Inductive t : Set :=
| muscleWeakness
| numbnessOrTingling
| unexplainedWeightLoss
| bladderOrBowelIncontinence
| saddleAnaesthesia
| balanceProblems
| otherRedFlagPresent.
End Flag.

Module AreaFlag.
(** The flag names [handleAreaSelectionChange] accepts. *)
Inductive t : Set := muscleWeakness | numbnessOrTingling.
End AreaFlag.

Module DetailFlag.
(** The flag names [handleSingleDetailChange] accepts. *)
Inductive t : Set := bladderOrBowelIncontinence | saddleAnaesthesia.
End DetailFlag.

(** [Object.keys(symptom.areas).forEach(areaKey =>
      symptom.areas[areaKey] = { selected: false })] *)
Definition deselectAll (areas : list (string * AreaEntry.t))
    : list (string * AreaEntry.t) :=
  map (fun entry => (fst entry, AreaEntry.mk false)) areas.

(** [areas[areaKey]] *)
Fixpoint lookupArea (areaKey : string) (areas : list (string * AreaEntry.t))
    : option AreaEntry.t :=
  match areas with
  | [] => None
  | (k, e) :: rest =>
      if String.eqb k areaKey then Some e else lookupArea areaKey rest
  end.

(** [areas[areaKey].selected = isSelected], for a key that is there. *)
Fixpoint setSelected (areaKey : string) (isSelected : bool)
    (areas : list (string * AreaEntry.t)) : list (string * AreaEntry.t) :=
  match areas with
  | [] => []
  | (k, e) :: rest =>
      if String.eqb k areaKey then (k, AreaEntry.mk isSelected) :: rest
      else (k, e) :: setSelected areaKey isSelected rest
  end.

Definition setAreaSymptomPresent (isPresent : bool) (symptom : AreaSymptom.t)
    : AreaSymptom.t :=
  AreaSymptom.mk isPresent
    (match AreaSymptom.areas symptom with
     | Some areas => if negb isPresent then Some (deselectAll areas)
                     else Some areas
     | None => None
     end).

Section RedFlagHandlers.

Variable Number : Type.

(** The next [formData.redFlags], the value every handler passes to
    [updateFormData({ redFlags: ... })]. *)
Definition handleRedFlagMainPresentChange (flagName : Flag.t)
    (isPresent : bool) (redFlags : RedFlags.t Number) : RedFlags.t Number :=
  let '(RedFlags.mk mw nt wl bb sa bp orp orf) := redFlags in
  match flagName with
  | Flag.muscleWeakness =>
      RedFlags.mk (setAreaSymptomPresent isPresent mw) nt wl bb sa bp orp orf
  | Flag.numbnessOrTingling =>
      RedFlags.mk mw (setAreaSymptomPresent isPresent nt) wl bb sa bp orp orf
  | Flag.bladderOrBowelIncontinence =>
      let symptom :=
        if negb isPresent
        then Incontinence.mk isPresent (Some ""%string) (Some false)
        else Incontinence.mk isPresent (Incontinence.details bb)
               (Incontinence.isNewOnset bb) in
      RedFlags.mk mw nt wl symptom sa bp orp orf
  | Flag.saddleAnaesthesia =>
      let symptom :=
        if negb isPresent then Saddle.mk isPresent (Some ""%string)
        else Saddle.mk isPresent (Saddle.details sa) in
      RedFlags.mk mw nt wl bb symptom bp orp orf
  | Flag.unexplainedWeightLoss =>
      let symptom :=
        if negb isPresent then WeightLoss.mk isPresent (Some ""%string) None
        else WeightLoss.mk isPresent (WeightLoss.period wl)
               (WeightLoss.amountKg wl) in
      RedFlags.mk mw nt symptom bb sa bp orp orf
  | Flag.balanceProblems =>
      let symptom :=
        if negb isPresent then Balance.mk isPresent ""%string
        else Balance.mk isPresent (Balance.type bp) in
      RedFlags.mk mw nt wl bb sa symptom orp orf
  | Flag.otherRedFlagPresent =>
      RedFlags.mk mw nt wl bb sa bp (Some isPresent)
        (if negb isPresent then Some ""%string else orf)
  end.

Definition selectArea (areaKey : string) (isSelected : bool)
    (symptom : AreaSymptom.t) : AreaSymptom.t :=
  match AreaSymptom.areas symptom with
  | Some areas =>
      match lookupArea areaKey areas with
      | Some _ =>
          AreaSymptom.mk (AreaSymptom.present symptom)
            (Some (setSelected areaKey isSelected areas))
      | None => symptom
      end
  | None => symptom
  end.

Definition handleAreaSelectionChange (flagName : AreaFlag.t)
    (areaKey : string) (isSelected : bool) (redFlags : RedFlags.t Number)
    : RedFlags.t Number :=
  let '(RedFlags.mk mw nt wl bb sa bp orp orf) := redFlags in
  match flagName with
  | AreaFlag.muscleWeakness =>
      RedFlags.mk (selectArea areaKey isSelected mw) nt wl bb sa bp orp orf
  | AreaFlag.numbnessOrTingling =>
      RedFlags.mk mw (selectArea areaKey isSelected nt) wl bb sa bp orp orf
  end.

Definition handleSingleDetailChange (flagName : DetailFlag.t)
    (detailValue : string) (redFlags : RedFlags.t Number)
    : RedFlags.t Number :=
  let '(RedFlags.mk mw nt wl bb sa bp orp orf) := redFlags in
  match flagName with
  | DetailFlag.bladderOrBowelIncontinence =>
      RedFlags.mk mw nt wl
        (Incontinence.mk (Incontinence.present bb) (Some detailValue)
           (Incontinence.isNewOnset bb))
        sa bp orp orf
  | DetailFlag.saddleAnaesthesia =>
      RedFlags.mk mw nt wl bb
        (Saddle.mk (Saddle.present sa) (Some detailValue)) bp orp orf
  end.

Definition handleBladderIsNewOnsetChange (isNewOnset : bool)
    (redFlags : RedFlags.t Number) : RedFlags.t Number :=
  let '(RedFlags.mk mw nt wl bb sa bp orp orf) := redFlags in
  RedFlags.mk mw nt wl
    (Incontinence.mk (Incontinence.present bb) (Incontinence.details bb)
       (Some isNewOnset))
    sa bp orp orf.

Definition handleBalanceProblemTypeChange (typeValue : string)
    (redFlags : RedFlags.t Number) : RedFlags.t Number :=
  let '(RedFlags.mk mw nt wl bb sa bp orp orf) := redFlags in
  RedFlags.mk mw nt wl bb sa (Balance.mk true typeValue) orp orf.

Definition handleOtherRedFlagTextChange (text : string)
    (redFlags : RedFlags.t Number) : RedFlags.t Number :=
  let '(RedFlags.mk mw nt wl bb sa bp orp orf) := redFlags in
  RedFlags.mk mw nt wl bb sa bp orp (Some text).

Definition handleWeightLossPeriodChange (period : string)
    (redFlags : RedFlags.t Number) : RedFlags.t Number :=
  let '(RedFlags.mk mw nt wl bb sa bp orp orf) := redFlags in
  RedFlags.mk mw nt
    (WeightLoss.mk (WeightLoss.present wl) (Some period)
       (WeightLoss.amountKg wl))
    bb sa bp orp orf.

Variable parseFloat : string -> Number.

Definition handleWeightLossAmountChange (amount : string)
    (redFlags : RedFlags.t Number) : RedFlags.t Number :=
  let numAmount :=
    if String.eqb amount "" then None else Some (parseFloat amount) in
  let '(RedFlags.mk mw nt wl bb sa bp orp orf) := redFlags in
  RedFlags.mk mw nt
    (WeightLoss.mk (WeightLoss.present wl) (WeightLoss.period wl) numAmount)
    bb sa bp orp orf.

End RedFlagHandlers.

(** What a flag holds besides its checkbox: the fields that the page shows
    under the checkbox once it is checked. *)
Inductive FlagDetail (Number : Type) : Type :=
| AreaDetail (areas : option (list (string * AreaEntry.t)))
| WeightLossDetail (period : option string) (amountKg : option Number)
| IncontinenceDetail (details : option string) (isNewOnset : option bool)
| TextDetail (text : option string)
| TypeDetail (type : string).

Arguments AreaDetail {Number} areas.
Arguments WeightLossDetail {Number} period amountKg.
Arguments IncontinenceDetail {Number} details isNewOnset.
Arguments TextDetail {Number} text.
Arguments TypeDetail {Number} type.

Definition flagPresent (Number : Type) (flagName : Flag.t)
    (redFlags : RedFlags.t Number) : option bool :=
  match flagName with
  | Flag.muscleWeakness =>
      Some (AreaSymptom.present (RedFlags.muscleWeakness redFlags))
  | Flag.numbnessOrTingling =>
      Some (AreaSymptom.present (RedFlags.numbnessOrTingling redFlags))
  | Flag.unexplainedWeightLoss =>
      Some (WeightLoss.present (RedFlags.unexplainedWeightLoss redFlags))
  | Flag.bladderOrBowelIncontinence =>
      Some (Incontinence.present
              (RedFlags.bladderOrBowelIncontinence redFlags))
  | Flag.saddleAnaesthesia =>
      Some (Saddle.present (RedFlags.saddleAnaesthesia redFlags))
  | Flag.balanceProblems =>
      Some (Balance.present (RedFlags.balanceProblems redFlags))
  | Flag.otherRedFlagPresent => RedFlags.otherRedFlagPresent redFlags
  end.

Definition flagDetail (Number : Type) (flagName : Flag.t)
    (redFlags : RedFlags.t Number) : FlagDetail Number :=
  match flagName with
  | Flag.muscleWeakness =>
      AreaDetail (AreaSymptom.areas (RedFlags.muscleWeakness redFlags))
  | Flag.numbnessOrTingling =>
      AreaDetail
        (AreaSymptom.areas (RedFlags.numbnessOrTingling redFlags))
  | Flag.unexplainedWeightLoss =>
      WeightLossDetail
        (WeightLoss.period (RedFlags.unexplainedWeightLoss redFlags))
        (WeightLoss.amountKg (RedFlags.unexplainedWeightLoss redFlags))
  | Flag.bladderOrBowelIncontinence =>
      IncontinenceDetail
        (Incontinence.details (RedFlags.bladderOrBowelIncontinence redFlags))
        (Incontinence.isNewOnset
           (RedFlags.bladderOrBowelIncontinence redFlags))
  | Flag.saddleAnaesthesia =>
      TextDetail (Saddle.details (RedFlags.saddleAnaesthesia redFlags))
  | Flag.balanceProblems =>
      TypeDetail (Balance.type (RedFlags.balanceProblems redFlags))
  | Flag.otherRedFlagPresent =>
      TextDetail (RedFlags.otherRedFlag redFlags)
  end.

(** The detail of a flag after it was unchecked. *)
Definition clearedDetail (Number : Type) (detail : FlagDetail Number)
    : FlagDetail Number :=
  match detail with
  | AreaDetail (Some areas) => AreaDetail (Some (deselectAll areas))
  | AreaDetail None => AreaDetail None
  | WeightLossDetail _ _ => WeightLossDetail (Some ""%string) None
  | IncontinenceDetail _ _ =>
      IncontinenceDetail (Some ""%string) (Some false)
  | TextDetail _ => TextDetail (Some ""%string)
  | TypeDetail _ => TypeDetail ""%string
  end.

Definition Flag_eqb (a b : Flag.t) : bool :=
  match a, b with
  | Flag.muscleWeakness, Flag.muscleWeakness
  | Flag.numbnessOrTingling, Flag.numbnessOrTingling
  | Flag.unexplainedWeightLoss, Flag.unexplainedWeightLoss
  | Flag.bladderOrBowelIncontinence, Flag.bladderOrBowelIncontinence
  | Flag.saddleAnaesthesia, Flag.saddleAnaesthesia
  | Flag.balanceProblems, Flag.balanceProblems
  | Flag.otherRedFlagPresent, Flag.otherRedFlagPresent => true
  | _, _ => false
  end.

(** The area flag as a flag of the main list. *)
Definition AreaFlag_flag (flagName : AreaFlag.t) : Flag.t :=
  match flagName with
  | AreaFlag.muscleWeakness => Flag.muscleWeakness
  | AreaFlag.numbnessOrTingling => Flag.numbnessOrTingling
  end.

Definition areasOf (Number : Type) (flagName : AreaFlag.t)
    (redFlags : RedFlags.t Number) : option (list (string * AreaEntry.t)) :=
  match flagName with
  | AreaFlag.muscleWeakness =>
      AreaSymptom.areas (RedFlags.muscleWeakness redFlags)
  | AreaFlag.numbnessOrTingling =>
      AreaSymptom.areas (RedFlags.numbnessOrTingling redFlags)
  end.

(** Red flags as a patient may have left them: weakness in the arms,
    weight loss of unknown amount over three months, a bowel problem of new
    onset, and a note. *)
Definition sampleRedFlags : RedFlags.t Q :=
  RedFlags.mk
    (AreaSymptom.mk true
       (Some [("Arms"%string, AreaEntry.mk true);
              ("Legs"%string, AreaEntry.mk false)]))
    (AreaSymptom.mk false None)
    (WeightLoss.mk true (Some "last 3 months"%string) (Some 5%Q))
    (Incontinence.mk true (Some "Bowel"%string) (Some true))
    (Saddle.mk false None)
    (Balance.mk false ""%string)
    (Some true)
    (Some "night sweats"%string).

(** ** The form context: steps and their validity *)

Definition totalSteps : Z := 7.

(** [goToNextStep] and [goToPrevStep] of one context value.  The guard reads
    [currentStep], the step of the render that made the context value; the
    update [setCurrentStep(prevStep => prevStep + 1)] is applied to
    [prevStep], the step at the time of the update.  The two are the same
    when the call is made on the context value of the latest render, and
    differ when a context value is called again before the next render.
    Each function gives the step after the call. *)
Definition goToNextStep (currentStep prevStep : Z) : Z :=
  if (currentStep <? totalSteps)%Z then (prevStep + 1)%Z else prevStep.

Definition goToPrevStep (currentStep prevStep : Z) : Z :=
  if (currentStep >? 1)%Z then (prevStep - 1)%Z else prevStep.

(** [goToStep(step)] reads neither: [setCurrentStep(step)] for a step in
    range. *)
Definition goToStep (step : Z) (prevStep : Z) : Z :=
  if ((step >=? 1) && (step <=? totalSteps))%Z then step else prevStep.

Inductive Navigation : Set :=
| Next
| Prev
| GoTo (step : Z).

(** One call on the context value that captured [currentStep], made while
    the step is [prevStep]. *)
Definition navigate (currentStep prevStep : Z) (n : Navigation) : Z :=
  match n with
  | Next => goToNextStep currentStep prevStep
  | Prev => goToPrevStep currentStep prevStep
  | GoTo step => goToStep step prevStep
  end.

(** One call on the context value of the latest render: the captured step
    is the step. *)
Definition navigateRendered (currentStep : Z) (n : Navigation) : Z :=
  navigate currentStep currentStep n.

(** [!!field] for a text field that may be absent. *)
Definition filled (field : option string) : bool :=
  match field with
  | Some s => truthy s
  | None => false
  end.

(** [field === text] *)
Definition isText (field : option string) (text : string) : bool :=
  match field with
  | Some s => String.eqb s text
  | None => false
  end.

(** The demographics of [data/formData], which is not part of the sources at
    hand: the records have the fields that [isStepValid] reads. *)

Module Address.
Record t : Set := mk {
  addressLine1 : option string;
  suburb : option string;
  state : option string;
  postcode : option string
}.
End Address.

Module Funding.
Record t : Set := mk {
  source : option string;
  healthFundName : option string;
  membershipNumber : option string;
  otherSource : option string
}.
End Funding.

Module NextOfKin.
Record t : Set := mk {
  fullName : option string;
  relationship : option string;
  phoneNumber : option string
}.
End NextOfKin.

Module ReferringDoctor.
Record t : Set := mk {
  hasReferringDoctor : option bool;
  doctorName : option string;
  clinic : option string;
  phoneNumber : option string;
  email : option string
}.
End ReferringDoctor.

Module Demographics.
Record t : Set := mk {
  fullName : option string;
  dateOfBirth : option string;
  phoneNumber : option string;
  email : option string;
  residentialAddress : Address.t;
  isPostalSameAsResidential : bool;
  postalAddress : option Address.t;
  funding : Funding.t;
  nextOfKin : NextOfKin.t;
  referringDoctor : ReferringDoctor.t
}.
End Demographics.

Module FormData.
(** The part of [formData] that [isStepValid] reads. *)
Record t : Set := mk {
  consent : option bool;
  painAreas : list PainArea.t;
  demographics : Demographics.t
}.
End FormData.

Definition addressFilled (a : Address.t) : bool :=
  filled (Address.addressLine1 a) && filled (Address.suburb a)
  && filled (Address.state a) && filled (Address.postcode a).

(** [case 6] of [isStepValid]. *)
Definition demographicsValid (d : Demographics.t) : bool :=
  let isResidentialValid := addressFilled (Demographics.residentialAddress d) in
  let isPostalValid :=
    if negb (Demographics.isPostalSameAsResidential d)
    then match Demographics.postalAddress d with
         | Some postal => addressFilled postal
         | None => false
         end
    else true in
  let funding := Demographics.funding d in
  let isFundingValid :=
    if isText (Funding.source funding) "Private Health Insurance"
    then filled (Funding.healthFundName funding)
         && filled (Funding.membershipNumber funding)
    else if isText (Funding.source funding) "Other"
    then filled (Funding.otherSource funding)
    else true in
  let nextOfKin := Demographics.nextOfKin d in
  let referringDoctor := Demographics.referringDoctor d in
  let isNextOfKinValid :=
    filled (NextOfKin.fullName nextOfKin)
    && filled (NextOfKin.relationship nextOfKin)
    && filled (NextOfKin.phoneNumber nextOfKin) in
  let isReferringDoctorValid :=
    match ReferringDoctor.hasReferringDoctor referringDoctor with
    | Some true =>
        filled (ReferringDoctor.doctorName referringDoctor)
        && filled (ReferringDoctor.clinic referringDoctor)
        && filled (ReferringDoctor.phoneNumber referringDoctor)
        && filled (ReferringDoctor.email referringDoctor)
    | _ => true
    end in
  filled (Demographics.fullName d)
  && filled (Demographics.dateOfBirth d)
  && filled (Demographics.phoneNumber d)
  && filled (Demographics.email d)
  && isResidentialValid
  && isPostalValid
  && isFundingValid
  && isNextOfKinValid
  && isReferringDoctorValid.

Definition isStepValid (formData : FormData.t) (step : Z) : bool :=
  match step with
  | 1%Z => match FormData.consent formData with
           | Some true => true
           | _ => false
           end
  | 2%Z => true
  | 3%Z => true
  | 4%Z => true
  | 5%Z => (0 <? length (FormData.painAreas formData))%nat
  | 6%Z => demographicsValid (FormData.demographics formData)
  | 7%Z => true
  | _ => false
  end.

(** The form data of a session: the store of the pain map within them. *)
Definition withStore (formData : FormData.t) (st : State) : FormData.t :=
  FormData.mk (FormData.consent formData) (painAreas st)
    (FormData.demographics formData).

(** ** The summary step *)

Section Summary.

(** An entry of [formData.imaging]; the suggestion reads its [hadStudy]. *)
Variable Imaging : Type.
Variable hadStudy : Imaging -> bool.

Definition getNextStepSuggestion (imaging : list Imaging)
    (painAreas : list PainArea.t) (hadSurgery : bool) : string :=
  let hasImaging := existsb hadStudy imaging in
  let hasHighPain :=
    existsb (fun area => (PainArea.intensity area >=? 5)%Z) painAreas in
  let hasPersistentSymptoms := (0 <? length painAreas)%nat in
  if negb hasImaging && hasHighPain then "Referral for imaging"
  else if hadSurgery && hasPersistentSymptoms
  then "Book a Specialist Appointment"
  else if negb hadSurgery && hasPersistentSymptoms
  then "Referral to Allied Health"
  else "No Immediate Action Needed".

End Summary.

(** [Math.max(...values)]; [None] is the [-Infinity] of no values. *)
Definition Math_max (values : list Z) : option Z :=
  fold_left
    (fun acc v =>
       match acc with
       | None => Some v
       | Some m => Some (Z.max m v)
       end)
    values None.

Definition highestPainIntensity (painAreas : list PainArea.t) : option Z :=
  if (0 <? length painAreas)%nat
  then Math_max (map PainArea.intensity painAreas)
  else Some 0%Z.

(** The bar of the pain evaluation card: its colour class and its width in
    percent, [(highestPainIntensity / 10) * 100]. *)
Definition painBarColor (highest : Z) : string :=
  if (highest <=? 3)%Z then "bg-green-500"
  else if (highest <=? 6)%Z then "bg-yellow-500"
  else "bg-red-500".

Definition painBarWidth (highest : Z) : Q :=
  ((inject_Z highest / 10) * 100)%Q.

(** ** The server: the pain areas in the prompt and in the email *)

(** The line feed of [\n] and of a line break inside a template literal. *)
Definition newline : string := String (Ascii.ascii_of_nat 10) EmptyString.

(** [field || 'N/A'] for a text field that may be absent. *)
Definition orNA (field : option string) : string :=
  match field with
  | Some s => if truthy s then s else "N/A"
  | None => "N/A"
  end.

(** The text one pain area adds to the prompt of [/api/generate-summary]. *)
Definition promptPainArea (area : PainArea.t) : string :=
  ("- Region: " ++ PainArea.region area
     ++ ", Intensity: " ++ numberToString (PainArea.intensity area)
     ++ "/10, Notes: " ++ orNA (PainArea.notes area) ++ newline)%string.

(** The pain-area part of building [comprehensivePrompt]: the prompt so far,
    and [formData.painAreas], which the request may lack. *)
Definition appendPainAreas (comprehensivePrompt : string)
    (painAreas : option (list PainArea.t)) : string :=
  match painAreas with
  | Some areas =>
      if (0 <? length areas)%nat
      then
        fold_left (fun prompt area => (prompt ++ promptPainArea area)%string)
          areas
          (comprehensivePrompt ++ newline ++ "Pain Areas Reported:"
             ++ newline)%string
      else comprehensivePrompt
  | None => comprehensivePrompt
  end.

(** [area.intensity || 'N/A'] inside a template literal. *)
Definition intensityOrNA (intensity : Z) : string :=
  if (intensity =? 0)%Z then "N/A" else numberToString intensity.

(** One row of the pain table of [generateAssessmentEmailHTML]. *)
Definition emailPainAreaRow (area : PainArea.t) : string :=
  (newline ++ "              <tr>" ++ newline
     ++ "                <td>" ++ orNA (Some (PainArea.region area))
     ++ "</td>" ++ newline
     ++ "                <td>" ++ intensityOrNA (PainArea.intensity area)
     ++ "</td>" ++ newline
     ++ "                <td>" ++ orNA (PainArea.notes area)
     ++ "</td>" ++ newline
     ++ "              </tr>" ++ newline ++ "            ")%string.

(** [formData.painAreas.map(area => ...).join('')] *)
Definition emailPainAreaRows (painAreas : list PainArea.t) : string :=
  String.concat "" (map emailPainAreaRow painAreas).

(** ** The server: names of uploads *)

Definition isDigit (c : ascii) : bool :=
  (48 <=? nat_of_ascii c)%nat && (nat_of_ascii c <=? 57)%nat.

Definition isLower (c : ascii) : bool :=
  (97 <=? nat_of_ascii c)%nat && (nat_of_ascii c <=? 122)%nat.

Definition isUpper (c : ascii) : bool :=
  (65 <=? nat_of_ascii c)%nat && (nat_of_ascii c <=? 90)%nat.

(** The class [[a-zA-Z0-9_-]]. *)
Definition sessionIdChar (c : ascii) : bool :=
  isLower c || isUpper c || isDigit c
  || Ascii.eqb c "_" || Ascii.eqb c "-".

(** The class [[a-zA-Z0-9_.-]]. *)
Definition fileNameChar (c : ascii) : bool :=
  isLower c || isUpper c || isDigit c
  || Ascii.eqb c "_" || Ascii.eqb c "." || Ascii.eqb c "-".

(** [s.replace(/[^...]/g, '')]: the characters of the class, in order. *)
Fixpoint keepChars (class : ascii -> bool) (s : string) : string :=
  match s with
  | EmptyString => EmptyString
  | String c rest =>
      if class c then String c (keepChars class rest)
      else keepChars class rest
  end.

(** [s.replace(/[^...]/g, '_')]: every other character becomes [_]. *)
Fixpoint maskChars (class : ascii -> bool) (s : string) : string :=
  match s with
  | EmptyString => EmptyString
  | String c rest =>
      String (if class c then c else "_"%char) (maskChars class rest)
  end.

(** The one-character string of a backslash. *)
Definition backslash : string := String (Ascii.ascii_of_nat 92) EmptyString.

(** [formSessionId.replace(/[^a-zA-Z0-9_-]/g, '')] of both upload routes. *)
Definition sanitizedSessionId (formSessionId : string) : string :=
  keepChars sessionIdChar formSessionId.

(** [file.originalname.replace(/[^a-zA-Z0-9_.-]/g, '_')] *)
Definition sanitizedOriginalName (originalname : string) : string :=
  maskChars fileNameChar originalname.

(** [req.query.formSessionId || 'default_session'] *)
Definition sessionIdOfQuery (formSessionId : option string) : string :=
  match formSessionId with
  | Some s => if truthy s then s else "default_session"
  | None => "default_session"
  end.

(** The session id of the form provider,
    [`session-${Date.now()}-${Math.random().toString(36).substring(2, 9)}`];
    [randomPart] is the piece cut from the random number's base-36 digits. *)
Definition formSessionId (now : Z) (randomPart : string) : string :=
  ("session-" ++ numberToString now ++ "-" ++ randomPart)%string.

(** Every character of [s] is of the class. *)
Fixpoint allChars (class : ascii -> bool) (s : string) : bool :=
  match s with
  | EmptyString => true
  | String c rest => class c && allChars class rest
  end.

(** A base-36 digit. *)
Definition isBase36 (c : ascii) : bool := isDigit c || isLower c.

(** * Properties *)

Open Scope Q_scope.

(** ** The store operations *)

Section Store.

Implicit Types (st : State) (area : PainArea.t) (anId : string).

Lemma handlePainAreaUpdate_painAreas l st :
  painAreas (handlePainAreaUpdate l st) = l.
Proof. reflexivity. Qed.

Lemma painAreas_removePainArea anId st :
  painAreas (removePainArea anId st)
  = filter (fun area => negb (String.eqb (PainArea.id area) anId))
           (painAreas st).
Proof. unfold removePainArea. now destruct (isSelected st anId). Qed.

Lemma selected_removePainArea anId st :
  selectedPainAreaId (removePainArea anId st)
  = if isSelected st anId then None else selectedPainAreaId st.
Proof. unfold removePainArea. now destruct (isSelected st anId). Qed.

Lemma filter_twice (A : Type) (p : A -> bool) (l : list A) :
  filter p (filter p l) = filter p l.
Proof.
  induction l as [|a l IH]; simpl; [reflexivity|].
  destruct (p a) eqn:E; simpl; rewrite ?E, IH; reflexivity.
Qed.

Lemma filter_all (A : Type) (p : A -> bool) (l : list A) :
  (forall a, In a l -> p a = true) -> filter p l = l.
Proof.
  induction l as [|a l IH]; simpl; intros H; [reflexivity|].
  rewrite (H a (or_introl eq_refl)), IH; auto.
Qed.

Lemma State_eq st st' :
  painAreas st = painAreas st' ->
  selectedPainAreaId st = selectedPainAreaId st' ->
  currentView st = currentView st' ->
  canvasRef st = canvasRef st' ->
  st = st'.
Proof. destruct st, st'; simpl; intros; subst; reflexivity. Qed.

Lemma removePainArea_twice anId st :
  removePainArea anId (removePainArea anId st) = removePainArea anId st.
Proof.
  apply State_eq.
  - rewrite !painAreas_removePainArea. apply filter_twice.
  - rewrite !selected_removePainArea.
    unfold isSelected at 1. rewrite selected_removePainArea.
    destruct (isSelected st anId) eqn:E; [reflexivity|].
    unfold isSelected in E. now rewrite E.
  - unfold removePainArea.
    repeat match goal with |- context [if ?b then _ else _] => destruct b end;
      reflexivity.
  - unfold removePainArea.
    repeat match goal with |- context [if ?b then _ else _] => destruct b end;
      reflexivity.
Qed.

Lemma removePainArea_absent anId st :
  ~ In anId (ids st) ->
  painAreas (removePainArea anId st) = painAreas st.
Proof.
  intros H. rewrite painAreas_removePainArea. apply filter_all.
  intros a Ha. apply negb_true_iff, String.eqb_neq. intros Heq.
  apply H. rewrite <- Heq. unfold ids. now apply in_map.
Qed.

Lemma removePainArea_split anId st before area after :
  painAreas st = (before ++ area :: after)%list ->
  PainArea.id area = anId ->
  ~ In anId (map PainArea.id before) ->
  ~ In anId (map PainArea.id after) ->
  painAreas (removePainArea anId st) = (before ++ after)%list.
Proof.
  intros E Hid Hb Ha. rewrite painAreas_removePainArea, E, filter_app.
  simpl. rewrite Hid, String.eqb_refl. simpl.
  rewrite !filter_all; [reflexivity| |];
    intros a Hin; apply negb_true_iff, String.eqb_neq; intros Heq;
    [apply Ha|apply Hb]; rewrite <- Heq; now apply in_map.
Qed.

Lemma In_removePainArea anId st area :
  In area (painAreas (removePainArea anId st))
  <-> In area (painAreas st) /\ PainArea.id area <> anId.
Proof.
  rewrite painAreas_removePainArea, filter_In, negb_true_iff.
  now rewrite String.eqb_neq.
Qed.

End Store.

(** C7.  [removePainArea] is idempotent and tolerant: removing twice is
    removing once (on the whole state); an id that no record carries leaves
    the sequence of records as it is; and removing the id of a stored record
    takes out that record and nothing else: a record stays exactly when its
    id differs, and the records that stay keep their order. *)
Theorem removePainArea_idempotent_tolerant (anId : string) (st : State) :
  removePainArea anId (removePainArea anId st) = removePainArea anId st
  /\ (~ In anId (ids st) ->
      painAreas (removePainArea anId st) = painAreas st)
  /\ (forall area,
        In area (painAreas (removePainArea anId st))
        <-> In area (painAreas st) /\ PainArea.id area <> anId)
  /\ (forall before area after,
        painAreas st = (before ++ area :: after)%list ->
        PainArea.id area = anId ->
        ~ In anId (map PainArea.id before) ->
        ~ In anId (map PainArea.id after) ->
        painAreas (removePainArea anId st) = (before ++ after)%list).
Proof.
  split; [apply removePainArea_twice|].
  split; [apply removePainArea_absent|].
  split; [intros; apply In_removePainArea|].
  intros; eapply removePainArea_split; eauto.
Qed.

Lemma removePainArea_witness :
  removePainArea "point-1700000000000"
    (removePainArea "point-1700000000000" sampleStore)
  = removePainArea "point-1700000000000" sampleStore
  /\ painAreas (removePainArea "point-9" sampleStore) = painAreas sampleStore
  /\ painAreas (removePainArea "point-1700000000000" sampleStore)
     = [otherArea].
Proof.
  destruct (removePainArea_idempotent_tolerant
              "point-1700000000000" sampleStore) as (H1 & _ & _ & H4).
  destruct (removePainArea_idempotent_tolerant "point-9" sampleStore)
    as (_ & H2 & _).
  split; [exact H1|]. split.
  - apply H2. vm_compute. intuition discriminate.
  - apply (H4 [] sampleArea [otherArea]).
    + reflexivity.
    + reflexivity.
    + simpl. tauto.
    + vm_compute. intuition discriminate.
Defined.

(** ** Changing an intensity *)

Section Intensity.

Implicit Types (st : State) (area : PainArea.t) (sel : string).

Lemma find_id_In sel (l : list PainArea.t) :
  In sel (map PainArea.id l) ->
  exists area, find (fun a => String.eqb (PainArea.id a) sel) l = Some area.
Proof.
  induction l as [|a l IH]; simpl; [tauto|].
  intros [E|H].
  - rewrite E, String.eqb_refl. eauto.
  - destruct (String.eqb (PainArea.id a) sel); eauto.
Qed.

Lemma selectedPainArea_found st sel :
  selectedPainAreaId st = Some sel ->
  truthy sel = true ->
  In sel (ids st) ->
  exists area, selectedPainArea st = Some area.
Proof.
  intros E T H. unfold selectedPainArea. rewrite E, T.
  now apply find_id_In.
Qed.

Lemma isSelected_eqb st sel anId :
  selectedPainAreaId st = Some sel ->
  isSelected st anId = String.eqb anId sel.
Proof. unfold isSelected. now intros ->. Qed.

Lemma painAreas_handleIntensityChange st sel v :
  selectedPainAreaId st = Some sel ->
  truthy sel = true ->
  In sel (ids st) ->
  painAreas (handleIntensityChange v st)
  = map (setIntensityOf sel v) (painAreas st).
Proof.
  intros E T H. unfold handleIntensityChange.
  destruct (selectedPainArea_found st E T H) as [a ->].
  rewrite handlePainAreaUpdate_painAreas. apply map_ext.
  intros area. unfold setIntensityOf. now rewrite (isSelected_eqb st _ E).
Qed.

Lemma handleIntensityChange_rest st v :
  selectedPainAreaId (handleIntensityChange v st) = selectedPainAreaId st
  /\ currentView (handleIntensityChange v st) = currentView st
  /\ canvasRef (handleIntensityChange v st) = canvasRef st.
Proof.
  unfold handleIntensityChange. destruct (selectedPainArea st); auto.
Qed.

Lemma setIntensityOf_other sel v area :
  PainArea.id area <> sel -> setIntensityOf sel v area = area.
Proof.
  intros H. unfold setIntensityOf.
  now apply String.eqb_neq in H as ->.
Qed.

Lemma setIntensityOf_same sel v area :
  PainArea.id area = sel ->
  setIntensityOf sel v area = PainArea.withIntensity area v.
Proof.
  intros H. unfold setIntensityOf. now rewrite H, String.eqb_refl.
Qed.

Lemma setIntensityOf_id sel v area :
  PainArea.id (setIntensityOf sel v area) = PainArea.id area.
Proof.
  unfold setIntensityOf. now destruct (String.eqb (PainArea.id area) sel).
Qed.

End Intensity.

(** C4, as the code has it.  [handleIntensityChange] checks no range: with a
    stored record selected it stores any integer, -1 and 11 as well as 0 and
    10, in every record that carries the selected id, and changes nothing
    else; there is no failing outcome. *)
Theorem handleIntensityChange_no_range_check
    (st : State) (sel : string) (v : Z) :
  selectedPainAreaId st = Some sel ->
  truthy sel = true ->
  In sel (ids st) ->
  let st' := handleIntensityChange v st in
  painAreas st' = map (setIntensityOf sel v) (painAreas st)
  /\ (forall area,
        In area (painAreas st') -> PainArea.id area = sel ->
        PainArea.intensity area = v)
  /\ (exists area,
        In area (painAreas st') /\ PainArea.id area = sel
        /\ PainArea.intensity area = v)
  /\ selectedPainAreaId st' = Some sel.
Proof.
  intros E T H st'.
  assert (P : painAreas st' = map (setIntensityOf sel v) (painAreas st))
    by now apply painAreas_handleIntensityChange.
  split; [exact P|]. split; [|split].
  - intros area Hin Hid. rewrite P in Hin.
    apply in_map_iff in Hin as (a0 & <- & _).
    rewrite setIntensityOf_id in Hid.
    rewrite setIntensityOf_same by exact Hid. reflexivity.
  - unfold ids in H. apply in_map_iff in H as (a0 & Hid & Hin).
    exists (setIntensityOf sel v a0). rewrite P. split; [now apply in_map|].
    rewrite setIntensityOf_id. split; [exact Hid|].
    rewrite setIntensityOf_same by exact Hid. reflexivity.
  - unfold st'. destruct (handleIntensityChange_rest st v) as (R & _).
    now rewrite R.
Qed.

Lemma handleIntensityChange_no_range_check_witness :
  painAreas (handleIntensityChange (-1) sampleStore)
  = [PainArea.withIntensity sampleArea (-1); otherArea]
  /\ painAreas (handleIntensityChange 11 sampleStore)
     = [PainArea.withIntensity sampleArea 11; otherArea]
  /\ painAreas (handleIntensityChange 0 sampleStore)
     = [PainArea.withIntensity sampleArea 0; otherArea]
  /\ painAreas (handleIntensityChange 10 sampleStore)
     = [PainArea.withIntensity sampleArea 10; otherArea].
Proof.
  split; [|split; [|split]];
    match goal with
    | |- painAreas (handleIntensityChange ?v _) = _ =>
        destruct (@handleIntensityChange_no_range_check
                    sampleStore "point-1700000000000" v)
          as (P & _);
        [reflexivity | reflexivity | vm_compute; tauto | rewrite P; reflexivity]
    end.
Defined.

(** C4, as the claim has it, fails: setting the intensity of the selected
    record to -1, or to 11, changes the store, and the value is stored. *)
Lemma setIntensity_out_of_range_is_stored :
  painAreas (handleIntensityChange (-1) sampleStore) <> painAreas sampleStore
  /\ painAreas (handleIntensityChange 11 sampleStore) <> painAreas sampleStore
  /\ map PainArea.intensity (painAreas (handleIntensityChange (-1) sampleStore))
     = [(-1)%Z; 8%Z]
  /\ map PainArea.intensity (painAreas (handleIntensityChange 11 sampleStore))
     = [11%Z; 8%Z].
Proof.
  repeat split; try reflexivity; vm_compute; discriminate.
Qed.

(** ** Comparisons and rounding *)

Lemma Qltb_lt (a b : Q) : Qltb a b = true <-> a < b.
Proof.
  unfold Qltb. rewrite negb_true_iff. split.
  - intros H. apply Qnot_le_lt. intros L.
    apply Qle_bool_iff in L. congruence.
  - intros H. destruct (Qle_bool b a) eqn:E; [|reflexivity].
    apply Qle_bool_iff in E. exfalso. exact (Qlt_not_le _ _ H E).
Qed.

Lemma Qltb_ge (a b : Q) : Qltb a b = false <-> b <= a.
Proof.
  unfold Qltb. rewrite negb_false_iff. apply Qle_bool_iff.
Qed.

Lemma distanceSquared_nonneg ev h : 0 <= distanceSquared ev h.
Proof.
  unfold distanceSquared.
  rewrite <- (Qplus_0_r 0).
  apply Qplus_le_compat; apply Qsqr_nonneg.
Qed.

(** Comparing distances is comparing their squares. *)
Lemma distance_lt ev h h' :
  (distance ev h < distance ev h')%R
  <-> distanceSquared ev h < distanceSquared ev h'.
Proof.
  unfold distance. split.
  - intros H. apply Rlt_Qlt. now apply sqrt_lt_0_alt.
  - intros H. apply sqrt_lt_1_alt. split.
    + replace 0%R with (Q2R 0) by (unfold Q2R; simpl; lra).
      apply Qle_Rle, distanceSquared_nonneg.
    + now apply Qlt_Rlt.
Qed.

Lemma distance_le ev h h' :
  (distance ev h <= distance ev h')%R
  <-> distanceSquared ev h <= distanceSquared ev h'.
Proof.
  split.
  - intros H. apply Qnot_lt_le. intros L.
    apply distance_lt in L. lra.
  - intros H. apply sqrt_le_1_alt. now apply Qle_Rle.
Qed.

(** ** The search loop *)

Section Search.

Variable ev : MouseEvent.

Local Abbreviation d2 := (distanceSquared ev).

(** From the second hotspot on, the loop keeps the first hotspot of least
    squared distance among those seen. *)
Lemma search_from (h0 : Hotspot.t) (hs : list Hotspot.t) :
  exists before h after,
    (h0 :: hs = before ++ h :: after)%list
    /\ fold_left (loopBody ev) hs (mkClosest (Some h0) (Some (d2 h0)))
       = mkClosest (Some h) (Some (d2 h))
    /\ (forall h', In h' before -> d2 h < d2 h')
    /\ (forall h', In h' after -> d2 h <= d2 h').
Proof.
  induction hs as [|x hs IH] using rev_ind.
  - exists [], h0, []. simpl. intuition.
  - destruct IH as (before & h & after & E & F & B & A).
    rewrite fold_left_app, F. simpl. unfold loopBody. simpl.
    fold (d2 x). destruct (Qltb (d2 x) (d2 h)) eqn:C.
    + apply Qltb_lt in C.
      exists (h0 :: hs)%list, x, []. repeat split.
      * intros h' Hin. rewrite E in Hin.
        apply in_app_or in Hin as [Hin|[<-|Hin]].
        -- eapply Qlt_trans; [exact C|]. now apply B.
        -- exact C.
        -- eapply Qlt_le_trans; [exact C|]. now apply A.
      * intros h' [].
    + apply Qltb_ge in C.
      exists before, h, (after ++ [x])%list. repeat split.
      * change (h0 :: hs ++ [x])%list with ((h0 :: hs) ++ [x])%list.
        rewrite E, <- app_assoc. reflexivity.
      * exact B.
      * intros h' Hin. apply in_app_or in Hin as [Hin|[<-|[]]]; auto.
Qed.

(** The loop over a catalog that is not empty ends with the first hotspot
    of least distance. *)
Lemma searchHotspots_first_nearest (hs : list Hotspot.t) :
  hs <> [] ->
  exists before h after,
    hs = (before ++ h :: after)%list
    /\ closestHotspot (searchHotspots ev hs) = Some h
    /\ (forall h', In h' before -> (distance ev h < distance ev h')%R)
    /\ (forall h', In h' after -> (distance ev h <= distance ev h')%R).
Proof.
  destruct hs as [|h0 tl]; [congruence|]. intros _.
  destruct (search_from h0 tl) as (before & h & after & E & F & B & A).
  exists before, h, after. split; [exact E|]. split.
  - unfold searchHotspots. simpl. unfold loopBody at 2. simpl.
    fold (d2 h0). now rewrite F.
  - split; intros h' Hin.
    + apply distance_lt. now apply B.
    + apply distance_le. now apply A.
Qed.

End Search.

(** ** The pixel check *)



(** ** The click handler *)

Section Handler.

Variables frontCatalog backCatalog : list Hotspot.t.

Local Abbreviation catalog := (hotspotsFor frontCatalog backCatalog).
Local Abbreviation resolve' := (resolveWith frontCatalog backCatalog).
Local Abbreviation click := (handleImageClickWith frontCatalog backCatalog).


Lemma click_match st ev now h :
  resolve' st ev = inr h ->
  click ev now st
  = mkState (painAreas st ++ [newPainArea (currentView st) ev now h])
      (Some (PainArea.id (newPainArea (currentView st) ev now h)))
      (currentView st) (canvasRef st).
Proof. unfold handleImageClickWith. now intros ->. Qed.

(** A match is made of a sampled pixel that is not transparent and of a
    hotspot of the active view's catalog. *)
Lemma resolve_inr st ev h :
  resolve' st ev = inr h ->
  (exists s, samplePixel (canvasRef st) ev = inr s /\ (10 <= alpha s)%Z)
  /\ closestHotspot (searchHotspots ev (catalog (currentView st))) = Some h
  /\ In h (catalog (currentView st)).
Proof.
  unfold resolveWith.
  destruct (samplePixel (canvasRef st) ev) as [e|s]; [discriminate|].
  destruct (alpha s <? 10)%Z eqn:A; [discriminate|].
  destruct (length (catalog (currentView st)) =? 0)%nat eqn:L; [discriminate|].
  destruct (closestHotspot _) as [h'|] eqn:C; [|discriminate].
  intros [= <-]. split; [|split; [reflexivity|]].
  - exists s. split; [reflexivity|]. now apply Z.ltb_ge.
  - assert (NE : catalog (currentView st) <> []).
    { intros E. rewrite E in L. discriminate. }
    destruct (searchHotspots_first_nearest ev NE)
      as (before & h0 & after & E & C' & _).
    rewrite C in C'. injection C' as ->. rewrite E.
    apply in_or_app. right. now left.
Qed.

Lemma resolve_accepts st ev s :
  samplePixel (canvasRef st) ev = inr s -> (10 <= alpha s)%Z ->
  catalog (currentView st) <> [] ->
  resolve' st ev
  = match closestHotspot (searchHotspots ev (catalog (currentView st))) with
    | Some h => inr h
    | None => inl NoClosest
    end.
Proof.
  intros S A NE. unfold resolveWith. rewrite S.
  apply Z.ltb_ge in A. rewrite A.
  destruct (catalog (currentView st)); [congruence|]. reflexivity.
Qed.

End Handler.

(** ** Order of binary64 numbers *)

Section DoubleOrder.

Import Double.

Ltac compare_cases :=
  repeat match goal with
         | H : context [Z.compare ?a ?b] |- _ =>
             destruct (Z.compare_spec a b); try subst
         | |- context [Z.compare ?a ?b] =>
             destruct (Z.compare_spec a b); try subst
         | H : context [Pos.compare_cont Eq ?a ?b] |- _ =>
             change (Pos.compare_cont Eq a b) with (Pos.compare a b) in *;
             destruct (Pos.compare_spec a b); try subst
         | |- context [Pos.compare_cont Eq ?a ?b] =>
             change (Pos.compare_cont Eq a b) with (Pos.compare a b) in *;
             destruct (Pos.compare_spec a b); try subst
         end;
  simpl in *; try discriminate; try reflexivity; try lia.

Lemma Double_ltb_irrefl (a : number) : ltb a a = false.
Proof.
  unfold ltb, SFltb.
  destruct a as [[]|[]| |[] m e]; simpl; try reflexivity; compare_cases.
Qed.

Lemma Double_ltb_leb (a b : number) : ltb a b = true -> leb a b = true.
Proof.
  unfold ltb, leb, SFltb, SFleb.
  destruct (SFcompare a b) as [[]|]; intros; try discriminate; reflexivity.
Qed.

Lemma Double_leb_ltb_trans (a b c : number) :
  leb a b = true -> ltb b c = true -> ltb a c = true.
Proof.
  unfold ltb, leb, SFltb, SFleb.
  destruct a as [[]|[]| |[] ma ea], b as [[]|[]| |[] mb eb],
    c as [[]|[]| |[] mc ec]; simpl; intros; try discriminate;
    try reflexivity; compare_cases.
Qed.

Lemma Double_ltb_trans (a b c : number) :
  ltb a b = true -> ltb b c = true -> ltb a c = true.
Proof. intros L. apply Double_leb_ltb_trans. now apply Double_ltb_leb. Qed.

End DoubleOrder.

(** ** The search loop in binary64 *)

Section DoubleSearch.

Variable ev : MouseEvent.

Local Abbreviation dist := (Double.distance ev).

(** What the loop has found among the entries [seen]: nothing as long as no
    computed distance is below [Infinity], and otherwise the first entry of
    least computed distance. *)
Lemma Double_loop_keeps (seen : list Hotspot.t) (acc : Double.Closest)
    (x : Hotspot.t) :
  match Double.closestHotspot acc with
  | None =>
      Double.minDistance acc = Double.Infinity
      /\ forall e, In e seen -> Double.ltb (dist e) Double.Infinity = false
  | Some h =>
      Double.minDistance acc = dist h
      /\ Double.ltb (dist h) Double.Infinity = true
      /\ exists before after,
           seen = (before ++ h :: after)%list
           /\ (forall e, In e before -> Double.leb (dist e) (dist h) = false)
           /\ (forall e, In e after -> Double.ltb (dist e) (dist h) = false)
  end ->
  match Double.closestHotspot (Double.loopBody ev acc x) with
  | None =>
      Double.minDistance (Double.loopBody ev acc x) = Double.Infinity
      /\ forall e, In e (seen ++ [x])%list ->
                   Double.ltb (dist e) Double.Infinity = false
  | Some h =>
      Double.minDistance (Double.loopBody ev acc x) = dist h
      /\ Double.ltb (dist h) Double.Infinity = true
      /\ exists before after,
           (seen ++ [x])%list = (before ++ h :: after)%list
           /\ (forall e, In e before -> Double.leb (dist e) (dist h) = false)
           /\ (forall e, In e after -> Double.ltb (dist e) (dist h) = false)
  end.
Proof.
  intros I. unfold Double.loopBody.
  destruct (Double.ltb (dist x) (Double.minDistance acc)) eqn:L; simpl.
  - (* the entry becomes the closest one *)
    assert (Below : forall e, In e seen -> Double.leb (dist e) (dist x) = false).
    { intros e In_e.
      destruct (Double.leb (dist e) (dist x)) eqn:Le; [exfalso|reflexivity].
      pose proof (Double_leb_ltb_trans _ _ _ Le L) as Lt.
      destruct (Double.closestHotspot acc) as [h|].
      - destruct I as (M & _ & before & after & -> & B & A).
        rewrite M in Lt.
        apply in_app_or in In_e as [In_e|[<-|In_e]].
        + apply Double_ltb_leb in Lt. rewrite (B e In_e) in Lt. discriminate.
        + rewrite Double_ltb_irrefl in Lt. discriminate.
        + rewrite (A e In_e) in Lt. discriminate.
      - destruct I as (M & N). rewrite M in Lt.
        rewrite (N e In_e) in Lt. discriminate. }
    split; [reflexivity|]. split.
    + destruct (Double.closestHotspot acc) as [h|].
      * destruct I as (M & F & _). rewrite M in L.
        exact (Double_ltb_trans _ _ _ L F).
      * destruct I as (M & _). now rewrite M in L.
    + exists seen, []. split; [reflexivity|]. split; [exact Below|].
      intros e [].
  - (* the loop variables stay *)
    destruct (Double.closestHotspot acc) as [h|].
    + destruct I as (M & F & before & after & -> & B & A).
      split; [exact M|]. split; [exact F|].
      exists before, (after ++ [x])%list. split.
      * now rewrite <- app_assoc.
      * split; [exact B|]. intros e In_e.
        apply in_app_or in In_e as [In_e|[<-|[]]]; [now apply A|].
        now rewrite <- M.
    + destruct I as (M & N). split; [exact M|].
      intros e In_e. apply in_app_or in In_e as [In_e|[<-|[]]]; [now apply N|].
      now rewrite <- M.
Qed.

Lemma Double_search_from (hs seen : list Hotspot.t) (acc : Double.Closest) :
  match Double.closestHotspot acc with
  | None =>
      Double.minDistance acc = Double.Infinity
      /\ forall e, In e seen -> Double.ltb (dist e) Double.Infinity = false
  | Some h =>
      Double.minDistance acc = dist h
      /\ Double.ltb (dist h) Double.Infinity = true
      /\ exists before after,
           seen = (before ++ h :: after)%list
           /\ (forall e, In e before -> Double.leb (dist e) (dist h) = false)
           /\ (forall e, In e after -> Double.ltb (dist e) (dist h) = false)
  end ->
  match Double.closestHotspot (fold_left (Double.loopBody ev) hs acc) with
  | None =>
      forall e, In e (seen ++ hs)%list ->
                Double.ltb (dist e) Double.Infinity = false
  | Some h =>
      Double.ltb (dist h) Double.Infinity = true
      /\ exists before after,
           (seen ++ hs)%list = (before ++ h :: after)%list
           /\ (forall e, In e before -> Double.leb (dist e) (dist h) = false)
           /\ (forall e, In e after -> Double.ltb (dist e) (dist h) = false)
  end.
Proof.
  revert seen acc. induction hs as [|x hs IH]; intros seen acc I; simpl.
  - rewrite app_nil_r. destruct (Double.closestHotspot acc); tauto.
  - replace (seen ++ x :: hs)%list with ((seen ++ [x]) ++ hs)%list
      by now rewrite <- app_assoc.
    apply IH. now apply Double_loop_keeps.
Qed.

Lemma Double_searchHotspots_first_least (hs : list Hotspot.t) :
  match Double.closestHotspot (Double.searchHotspots ev hs) with
  | None => forall e, In e hs -> Double.ltb (dist e) Double.Infinity = false
  | Some h =>
      Double.ltb (dist h) Double.Infinity = true
      /\ exists before after,
           hs = (before ++ h :: after)%list
           /\ (forall e, In e before -> Double.leb (dist e) (dist h) = false)
           /\ (forall e, In e after -> Double.ltb (dist e) (dist h) = false)
  end.
Proof.
  apply (Double_search_from hs [] (Double.mkClosest None Double.Infinity)).
  simpl. split; [reflexivity|]. intros e [].
Qed.

End DoubleSearch.

(** ** The click handler in binary64 *)

Lemma Double_resolve_accepts (enforceRange : bool)
    (frontCatalog backCatalog : list Hotspot.t)
    (st : State) (ev : MouseEvent) (s : Double.Sample) :
  Double.samplePixel enforceRange (canvasRef st) ev = inr s ->
  (10 <= Double.alpha s)%Z ->
  hotspotsFor frontCatalog backCatalog (currentView st) <> [] ->
  Double.resolveWith enforceRange frontCatalog backCatalog st ev
  = match Double.closestHotspot
            (Double.searchHotspots ev
               (hotspotsFor frontCatalog backCatalog (currentView st))) with
    | None => inl (Double.Returned NoClosest)
    | Some h => inr h
    end.
Proof.
  intros S A NE. unfold Double.resolveWith. rewrite S.
  apply Z.ltb_ge in A. rewrite A.
  destruct (hotspotsFor frontCatalog backCatalog (currentView st));
    [congruence|reflexivity].
Qed.

(** C1 (amended).  A click whose pixel was sampled and is not transparent,
    with a catalog for the active view that is not empty, is resolved to the
    first catalog entry of least computed distance: no entry's computed
    distance is below the selected one's, and no entry before it has a
    computed distance below or equal to it.  The computed distance is the
    double [Math.sqrt(Math.pow(clickX - hsCenterX, 2) + Math.pow(clickY -
    hsCenterY, 2))] with the centre [x*imageWidth + (width*imageWidth)/2],
    [y*imageHeight + (height*imageHeight)/2], every operation rounded.  No
    entry is selected only when no computed distance is below [Infinity]. *)
Theorem least_computed_distance_first_wins (enforceRange : bool)
    (frontCatalog backCatalog : list Hotspot.t)
    (st : State) (ev : MouseEvent) (s : Double.Sample) :
  Double.samplePixel enforceRange (canvasRef st) ev = inr s ->
  (10 <= Double.alpha s)%Z ->
  hotspotsFor frontCatalog backCatalog (currentView st) <> [] ->
  (forall h',
     Double.distance ev h'
     = Double.Math_sqrt
         (Double.add
            (Double.Math_pow2
               (Double.sub (Double.clickX ev)
                  (Double.add
                     (Double.mul (Double.ofQ (Hotspot.x h'))
                        (Double.imageWidth ev))
                     (Double.div
                        (Double.mul (Double.ofQ (Hotspot.width h'))
                           (Double.imageWidth ev))
                        (Double.ofZ 2)))))
            (Double.Math_pow2
               (Double.sub (Double.clickY ev)
                  (Double.add
                     (Double.mul (Double.ofQ (Hotspot.y h'))
                        (Double.imageHeight ev))
                     (Double.div
                        (Double.mul (Double.ofQ (Hotspot.height h'))
                           (Double.imageHeight ev))
                        (Double.ofZ 2)))))))
  /\ ((exists before h after,
         hotspotsFor frontCatalog backCatalog (currentView st)
         = (before ++ h :: after)%list
         /\ Double.resolveWith enforceRange frontCatalog backCatalog st ev
            = inr h
         /\ Double.ltb (Double.distance ev h) Double.Infinity = true
         /\ (forall h', In h' before ->
               Double.leb (Double.distance ev h') (Double.distance ev h)
               = false)
         /\ (forall h', In h' after ->
               Double.ltb (Double.distance ev h') (Double.distance ev h)
               = false))
      \/ (Double.resolveWith enforceRange frontCatalog backCatalog st ev
          = inl (Double.Returned NoClosest)
          /\ forall h',
               In h' (hotspotsFor frontCatalog backCatalog (currentView st)) ->
               Double.ltb (Double.distance ev h') Double.Infinity = false)).
Proof.
  intros S A NE. split; [reflexivity|].
  rewrite (Double_resolve_accepts _ _ _ _ _ S A NE).
  pose proof (Double_searchHotspots_first_least ev
                (hotspotsFor frontCatalog backCatalog (currentView st))) as F.
  destruct (Double.closestHotspot
              (Double.searchHotspots ev
                 (hotspotsFor frontCatalog backCatalog (currentView st))))
    as [h|].
  - left. destruct F as (Fin & before & after & E & B & Af).
    exists before, h, after. auto.
  - right. auto.
Qed.



Lemma tieClick_sampled :
  Double.samplePixel true (canvasRef emptyBack) tieClick
  = inr (Double.mkSample (Double.Integer 10) (Double.Integer 107) 255).
Proof. vm_compute. reflexivity. Qed.

Lemma tieClick_resolved (enforceRange : bool) :
  Double.resolveWith enforceRange frontHotspots backHotspots emptyBack tieClick
  = inr leftThumb.
Proof. destruct enforceRange; vm_compute; reflexivity. Qed.

Lemma least_computed_distance_first_wins_witness :
  exists before after,
    backHotspots = (before ++ leftThumb :: after)%list
    /\ Double.resolveWith true frontHotspots backHotspots emptyBack tieClick
       = inr leftThumb
    /\ (forall h', In h' before ->
          Double.leb (Double.distance tieClick h')
            (Double.distance tieClick leftThumb) = false)
    /\ (forall h', In h' after ->
          Double.ltb (Double.distance tieClick h')
            (Double.distance tieClick leftThumb) = false).
Proof.
  destruct (@least_computed_distance_first_wins true
              frontHotspots backHotspots emptyBack tieClick
              (Double.mkSample (Double.Integer 10) (Double.Integer 107) 255))
    as (_ & [(before & h & after & E & R & _ & B & A)|(R & _)]).
  - exact tieClick_sampled.
  - simpl. lia.
  - simpl. unfold backHotspots. discriminate.
  - assert (H : h = leftThumb).
    { rewrite tieClick_resolved in R. now injection R. }
    subst h. exists before, after.
    split; [exact E|]. split; [exact R|]. split; [exact B|exact A].
  - rewrite tieClick_resolved in R. discriminate.
Defined.

(** C1, as stated, fails: the hand and the thumb are equidistant from
    the click, both at the least distance, the hand comes first in the
    catalog, and the thumb is selected.  The centre of the thumb's box
    computes to a double just below 354, which brings its computed distance
    below the hand's. *)
Lemma equidistant_later_entry_selected :
  nth_error backHotspots 37 = Some leftHand
  /\ nth_error backHotspots 38 = Some leftThumb
  /\ distance tieClick leftHand = distance tieClick leftThumb
  /\ (forall h, In h backHotspots ->
        (distance tieClick leftHand <= distance tieClick h)%R)
  /\ Double.ltb (Double.distance tieClick leftThumb)
       (Double.distance tieClick leftHand) = true
  /\ (forall enforceRange,
        Double.resolve enforceRange emptyBack tieClick = inr leftThumb).
Proof.
  split; [vm_compute; reflexivity|]. split; [vm_compute; reflexivity|].
  split.
  { unfold distance. apply f_equal. apply Qeq_eqR. vm_compute. reflexivity. }
  split.
  { intros h In_h.
    destruct (@searchHotspots_first_nearest tieClick backHotspots)
      as (before & h0 & after & E & C & B & A).
    { unfold backHotspots. discriminate. }
    assert (C' : closestHotspot (searchHotspots tieClick backHotspots)
                 = Some leftHand) by (vm_compute; reflexivity).
    rewrite C in C'. injection C' as ->.
    rewrite E in In_h. apply in_app_or in In_h as [In_h|[<-|In_h]].
    - apply Rlt_le. now apply B.
    - apply Rle_refl.
    - now apply A. }
  split; [vm_compute; reflexivity|].
  intros enforceRange. apply tieClick_resolved.
Qed.


(** C10.  The check against the natural bounds does not keep NaN out.  A
    click at the corner of an image whose displayed box is empty is on its
    right and on its bottom edge and passes the check against the displayed
    bounds; the quotient [clickX / imageWidth] is [0/0], both scaled
    coordinates are NaN, every comparison of the check against the natural
    bounds is false, and [getImageData] is called with NaN for both
    coordinates.  Where the method enforces the range of its arguments the
    handler ends there by a [TypeError]; where it converts them, the pixel
    at (0, 0) is read and the click is given a hotspot, from which the
    handler makes a record. *)
Theorem edge_click_on_empty_box_passes_guard (enforceRange : bool) :
  Double.clickX cornerClick = Double.imageWidth cornerClick
  /\ Double.clickY cornerClick = Double.imageHeight cornerClick
  /\ Double.outsideDisplayed cornerClick = false
  /\ Double.canvasClickX cornerClick (Canvas.width opaqueCanvas)
     = Double.NotANumber
  /\ Double.canvasClickY cornerClick (Canvas.height opaqueCanvas)
     = Double.NotANumber
  /\ Double.outsideNatural Double.NotANumber Double.NotANumber
       (Canvas.width opaqueCanvas) (Canvas.height opaqueCanvas) = false
  /\ Double.samplePixel enforceRange (canvasRef emptyFront) cornerClick
     = (if enforceRange then inl Double.Thrown
        else inr (Double.mkSample Double.NotANumber Double.NotANumber 255))
  /\ Double.resolve enforceRange emptyFront cornerClick
     = (if enforceRange then inl Double.Thrown
        else inr (Hotspot.mk 1 "Forehead (Central Superior)"
                    0.45 0.005 0.1 0.02 false)).
Proof.
  split; [vm_compute; reflexivity|].
  split; [vm_compute; reflexivity|].
  split; [vm_compute; reflexivity|].
  split; [vm_compute; reflexivity|].
  split; [vm_compute; reflexivity|].
  split; [reflexivity|].
  split; destruct enforceRange; vm_compute; reflexivity.
Qed.

(** ** The check before [getImageData] in binary64 *)

Section Binary64Facts.

Local Open Scope Z_scope.

(** A mantissa and exponent that are in the normal form of binary64 and
    within its range pass through the rounding unchanged. *)
Lemma binary_round_aux_canonical (s : bool) (m : positive) (e : Z) :
  bounded 53 1024 m e = true ->
  binary_round_aux 53 1024 s (Z.pos m) e loc_Exact = S754_finite s m e.
Proof.
  unfold bounded, canonical_mantissa. intros B.
  apply andb_true_iff in B as [C L]. apply Z.eqb_eq in C.
  unfold binary_round_aux, shr_fexp. simpl Zdigits2. rewrite C, Z.sub_diag.
  cbn [shr shr_record_of_loc shr_m loc_of_shr_record round_nearest_even
       Zdigits2].
  rewrite C, Z.sub_diag. cbn [shr shr_record_of_loc shr_m]. now rewrite L.
Qed.

Lemma digits2_pos_size (p : positive) : digits2_pos p = Pos.size p.
Proof. induction p; simpl; congruence. Qed.

Lemma digits2_pos_shift (p k : positive) :
  digits2_pos (Pos.iter xO p k) = (digits2_pos p + k)%positive.
Proof.
  induction k as [|k IH] using Pos.peano_ind.
  - simpl. lia.
  - rewrite Pos.iter_succ. simpl. rewrite IH. lia.
Qed.

Lemma Zpos_shift (p k : positive) :
  Z.pos (Pos.iter xO p k) = (Z.pos p * 2 ^ Z.pos k)%Z.
Proof.
  induction k as [|k IH] using Pos.peano_ind.
  - simpl. lia.
  - rewrite Pos.iter_succ, Pos2Z.inj_succ, Z.pow_succ_r by lia.
    rewrite Pos2Z.inj_xO, IH. ring.
Qed.

Lemma digits2_pos_bound (p : positive) :
  (Z.pos p < 2 ^ 53)%Z -> (Z.pos (digits2_pos p) <= 53)%Z.
Proof.
  intros B. rewrite digits2_pos_size.
  destruct (Z.le_gt_cases (Z.pos (Pos.size p)) 53) as [L|G]; [exact L|].
  exfalso. pose proof (Pos.size_le p) as S.
  assert (P : (2 ^ 54 <= 2 ^ Z.pos (Pos.size p))%Z)
    by (apply Z.pow_le_mono_r; lia).
  assert (Q : (2 ^ Z.pos (Pos.size p) <= Z.pos p~0)%Z).
  { rewrite <- Pos2Z.inj_pow. apply Pos2Z.pos_le_pos. exact S. }
  change (2 ^ 54)%Z with (2 * 2 ^ 53)%Z in P. lia.
Qed.

(** The double of a positive integer below [2^53] is that integer. *)
Lemma ofZ_exact (p : positive) :
  (Z.pos p < 2 ^ 53)%Z ->
  exists m e,
    Double.ofZ (Z.pos p) = S754_finite false m e
    /\ bounded 53 1024 m e = true
    /\ (e <= 0)%Z
    /\ Z.pos m = (Z.pos p * 2 ^ (- e))%Z.
Proof.
  intros B. pose proof (@digits2_pos_bound p B) as D.
  unfold Double.ofZ, Double.prec, Double.emax, binary_normalize,
    binary_round, shl_align.
  assert (F : fexp 53 1024 (Z.pos (digits2_pos p) + 0)
              = (Z.pos (digits2_pos p) - 53)%Z).
  { unfold fexp, emin. lia. }
  rewrite F.
  destruct (Z.pos (digits2_pos p) - 53 - 0)%Z as [|q|q] eqn:E; [|lia|].
  - exists p, 0%Z.
    assert (Bd : bounded 53 1024 p 0 = true).
    { unfold bounded, canonical_mantissa, fexp, emin.
      apply andb_true_iff. split; [apply Z.eqb_eq; lia|reflexivity]. }
    split; [now apply binary_round_aux_canonical|].
    split; [exact Bd|]. split; [lia|]. simpl. lia.
  - exists (Pos.iter xO p q), (Z.pos (digits2_pos p) - 53)%Z.
    assert (Bd : bounded 53 1024 (Pos.iter xO p q)
                   (Z.pos (digits2_pos p) - 53) = true).
    { unfold bounded, canonical_mantissa, fexp, emin.
      rewrite digits2_pos_shift.
      apply andb_true_iff. split; [apply Z.eqb_eq; lia|apply Z.leb_le; lia]. }
    split; [now apply binary_round_aux_canonical|].
    split; [exact Bd|]. split; [lia|].
    rewrite Zpos_shift. f_equal. f_equal. lia.
Qed.

(** A finite number divided by itself is one. *)
Lemma div_same (s : bool) (m : positive) (e : Z) :
  Double.div (S754_finite s m e) (S754_finite s m e) = Double.ofZ 1.
Proof.
  unfold Double.div, Double.prec, Double.emax, SFdiv, SFdiv_core_binary.
  replace (Zdigits2 (Z.pos m) + e - (Zdigits2 (Z.pos m) + e))%Z with 0%Z
    by lia.
  rewrite Z.sub_diag.
  change (Z.min (fexp 53 1024 0) 0) with (-53)%Z.
  change (0 - -53)%Z with 53%Z. cbv iota.
  assert (Q : Z.div_eucl (Z.shiftl (Z.pos m) 53) (Z.pos m) = (2 ^ 53, 0)%Z).
  { rewrite Z.shiftl_mul_pow2 by lia.
    rewrite (Z.mul_comm (Z.pos m)).
    pose proof (Z.div_mul (2 ^ 53) (Z.pos m) ltac:(lia)) as Dv.
    pose proof (Z.mod_mul (2 ^ 53) (Z.pos m) ltac:(lia)) as Md.
    unfold Z.div in Dv. unfold Z.modulo in Md.
    destruct (Z.div_eucl (2 ^ 53 * Z.pos m) (Z.pos m)) as [q r].
    now subst. }
  rewrite Q.
  replace (new_location (Z.pos m) 0) with loc_Exact
    by (unfold new_location; destruct (Z.even (Z.pos m)); reflexivity).
  destruct s; reflexivity.
Qed.

(** One times a number in normal form is that number. *)
Lemma mul_one (s : bool) (m : positive) (e : Z) :
  bounded 53 1024 m e = true ->
  Double.mul (Double.ofZ 1) (S754_finite s m e) = S754_finite s m e.
Proof.
  intros B. pose proof B as B'.
  unfold bounded, canonical_mantissa in B'.
  apply andb_true_iff in B' as [C L]. apply Z.eqb_eq in C.
  change (Double.ofZ 1) with (S754_finite false 4503599627370496 (-52)).
  unfold Double.mul, Double.prec, Double.emax, SFmul. cbn [xorb].
  unfold binary_round_aux, shr_fexp.
  assert (D : (Zdigits2 (Z.pos (4503599627370496 * m)) + (-52 + e)
               = Z.pos (digits2_pos m) + e)%Z).
  { cbn [Zdigits2].
    change (4503599627370496 * m)%positive
      with (Pos.iter xO m 52%positive).
    rewrite digits2_pos_shift. lia. }
  rewrite D, C.
  replace (e - (-52 + e))%Z with 52%Z by lia.
  change (4503599627370496 * m)%positive
    with (Pos.iter xO m 52%positive).
  assert (S : shr (shr_record_of_loc (Z.pos (Pos.iter xO m 52)) loc_Exact)
                (-52 + e) 52
              = (Build_shr_record (Z.pos m) false false, e)).
  { unfold shr. apply f_equal2; [vm_compute; reflexivity|lia]. }
  rewrite S.
  cbn [shr_m loc_of_shr_record round_nearest_even Zdigits2
       shr_record_of_loc].
  rewrite C, Z.sub_diag. cbn [shr shr_m]. now rewrite L.
Qed.

(** [Math.round] of the double of an integer is that integer. *)
Lemma Math_round_exact (p m : positive) (e : Z) :
  (e <= 0)%Z -> Z.pos m = (Z.pos p * 2 ^ (- e))%Z ->
  Double.Math_round (S754_finite false m e) = Double.Integer (Z.pos p).
Proof.
  intros Le V. unfold Double.Math_round.
  destruct e as [|k|k]; [|lia|].
  - f_equal. simpl in V. lia.
  - f_equal. change (- Z.neg k)%Z with (Z.pos k) in V. rewrite V.
    rewrite Z.pow_add_r by lia. change (2 ^ 1)%Z with 2%Z.
    replace (2 * (Z.pos p * 2 ^ Z.pos k) + 2 ^ Z.pos k)%Z
      with (Z.pos p * (2 ^ Z.pos k * 2) + 2 ^ Z.pos k)%Z by ring.
    assert (P : (0 < 2 ^ Z.pos k)%Z) by (apply Z.pow_pos_nonneg; lia).
    rewrite Z.div_add_l by lia. rewrite Z.div_small by lia. lia.
Qed.

(** The scaled coordinate of a click on the edge is the size of the
    raster. *)
Lemma scaled_edge (x : Double.number) (n : Z) :
  (exists m e, x = S754_finite false m e) ->
  (0 < n < 2 ^ 53)%Z ->
  Double.Math_round (Double.mul (Double.div x x) (Double.ofZ n))
  = Double.Integer n.
Proof.
  intros (m & e & ->) B. rewrite div_same.
  destruct n as [|p|p]; try lia.
  destruct (@ofZ_exact p) as (m' & e' & -> & Bd & Le & V); [lia|].
  rewrite mul_one by exact Bd. now apply Math_round_exact.
Qed.

End Binary64Facts.

Lemma Double_inBounds_iff (cx cy : Double.Rounded) (w h : Z) :
  Double.outsideNatural cx cy w h = false
  <-> (cx = Double.NotANumber
       \/ exists n, cx = Double.Integer n /\ (0 <= n < w)%Z)
      /\ (cy = Double.NotANumber
          \/ exists n, cy = Double.Integer n /\ (0 <= n < h)%Z).
Proof.
  assert (One : forall r n,
             Double.Rounded_ltb r 0 = false /\ Double.Rounded_geb r n = false
             <-> r = Double.NotANumber
                 \/ exists k, r = Double.Integer k /\ (0 <= k < n)%Z).
  { intros r n. destruct r as [k| | |]; simpl.
    - rewrite Z.ltb_ge, Z.geb_leb, Z.leb_gt. split.
      + intros B. right. exists k. split; [reflexivity|lia].
      + intros [E|(k' & [= <-] & B)]; [discriminate|lia].
    - split; [now left|auto].
    - split; [intros [_ E]; discriminate|].
      intros [E|(k & E & _)]; discriminate.
    - split; [intros [E _]; discriminate|].
      intros [E|(k & E & _)]; discriminate. }
  unfold Double.outsideNatural. rewrite !orb_false_iff.
  rewrite <- (One cx w), <- (One cy h). tauto.
Qed.

(** What it takes for the handler to get to [getImageData] in binary64, and
    what it reads there. *)
Lemma Double_samplePixel_inr enforceRange canvasRef0 ev s :
  Double.samplePixel enforceRange canvasRef0 ev = inr s
  <-> Double.outsideDisplayed ev = false
      /\ exists canvas ctx,
           canvasRef0 = Some canvas
           /\ Canvas.width canvas <> 0%Z /\ Canvas.height canvas <> 0%Z
           /\ Canvas.getContext canvas = Some ctx
           /\ Double.outsideNatural
                (Double.canvasClickX ev (Canvas.width canvas))
                (Double.canvasClickY ev (Canvas.height canvas))
                (Canvas.width canvas) (Canvas.height canvas) = false
           /\ Double.getImageData enforceRange ctx
                (Double.canvasClickX ev (Canvas.width canvas))
                (Double.canvasClickY ev (Canvas.height canvas))
              = Some (Double.alpha s)
           /\ Double.sx s = Double.canvasClickX ev (Canvas.width canvas)
           /\ Double.sy s = Double.canvasClickY ev (Canvas.height canvas).
Proof.
  unfold Double.samplePixel. split.
  - destruct (Double.outsideDisplayed ev); [discriminate|].
    destruct canvasRef0 as [canvas|]; [|discriminate].
    destruct (Canvas.width canvas =? 0)%Z eqn:W; [discriminate|].
    destruct (Canvas.height canvas =? 0)%Z eqn:H; [discriminate|]. simpl.
    destruct (Canvas.getContext canvas) as [ctx|] eqn:C; [|discriminate].
    destruct (Double.outsideNatural _ _ _ _) eqn:N; [discriminate|].
    destruct (Double.getImageData _ _ _ _) as [a|] eqn:G; [|discriminate].
    intros [= <-]. split; [reflexivity|]. exists canvas, ctx.
    apply Z.eqb_neq in W, H. simpl. auto 10.
  - intros (-> & canvas & ctx & -> & W & H & -> & N & G & X & Y).
    apply Z.eqb_neq in W, H. rewrite W, H. simpl. rewrite N, G.
    destruct s as [x y a]. simpl in X, Y. now subst.
Qed.

(** X27.  What the check against the natural bounds does ensure: when a
    pixel is sampled, each coordinate [getImageData] was called with is NaN
    or an integer within the natural bounds; and where the method enforces
    the range of its arguments, a pixel is only read for two integers
    within the natural bounds. *)
Theorem sampled_coordinates (enforceRange : bool)
    (canvasRef0 : option Canvas.t) (ev : MouseEvent) (s : Double.Sample) :
  Double.samplePixel enforceRange canvasRef0 ev = inr s ->
  exists canvas,
    canvasRef0 = Some canvas
    /\ (Double.sx s = Double.NotANumber
        \/ exists n,
             Double.sx s = Double.Integer n
             /\ (0 <= n < Canvas.width canvas)%Z)
    /\ (Double.sy s = Double.NotANumber
        \/ exists n,
             Double.sy s = Double.Integer n
             /\ (0 <= n < Canvas.height canvas)%Z)
    /\ (enforceRange = true ->
        exists n m,
          Double.sx s = Double.Integer n /\ Double.sy s = Double.Integer m
          /\ (0 <= n < Canvas.width canvas)%Z
          /\ (0 <= m < Canvas.height canvas)%Z).
Proof.
  intros S. apply Double_samplePixel_inr in S
    as (_ & canvas & ctx & -> & _ & _ & _ & N & G & -> & ->).
  apply Double_inBounds_iff in N as [Bx By].
  exists canvas. split; [reflexivity|]. split; [exact Bx|].
  split; [exact By|]. intros ->. unfold Double.getImageData in G.
  destruct Bx as [Ex|(n & Ex & Bx)]; rewrite Ex in G; [discriminate|].
  destruct By as [Ey|(m & Ey & By)]; rewrite Ey in G; [discriminate|].
  exists n, m. auto.
Qed.

Lemma sampleClick_sampled :
  Double.samplePixel true (canvasRef emptyFront) sampleClick
  = inr (Double.mkSample (Double.Integer 28) (Double.Integer 28) 255).
Proof. vm_compute. reflexivity. Qed.

Lemma sampled_coordinates_witness :
  exists n m,
    (0 <= n < 100)%Z /\ (0 <= m < 200)%Z
    /\ Double.Integer 28 = Double.Integer n
    /\ Double.Integer 28 = Double.Integer m.
Proof.
  destruct (@sampled_coordinates true (canvasRef emptyFront) sampleClick
              (Double.mkSample (Double.Integer 28) (Double.Integer 28) 255)
              sampleClick_sampled)
    as (canvas & [= <-] & _ & _ & In).
  destruct (In eq_refl) as (n & m & X & Y & Bx & By).
  exists n, m. simpl in *. auto.
Defined.

(** X28.  For an image displayed with a positive finite width and height,
    over a raster with a context and sides below [2^53], a click on the
    right or bottom edge of the displayed image passes the check against
    the displayed bounds and is turned away by the check against the
    natural bounds: the quotient of the edge by itself is 1, the scaled
    coordinate is the side of the raster, and [getImageData] is not
    called. *)
Theorem edge_click_rejected (enforceRange : bool) (canvas : Canvas.t)
    (ctx : Canvas.Context2D) (ev : MouseEvent) :
  Canvas.getContext canvas = Some ctx ->
  (0 < Canvas.width canvas < 2 ^ 53)%Z ->
  (0 < Canvas.height canvas < 2 ^ 53)%Z ->
  Double.onRightEdge ev \/ Double.onBottomEdge ev ->
  Double.outsideDisplayed ev = false
  /\ Double.samplePixel enforceRange (Some canvas) ev
     = inl (Double.Returned OutsideNatural)
  /\ forall frontCatalog backCatalog st,
       canvasRef st = Some canvas ->
       Double.resolveWith enforceRange frontCatalog backCatalog st ev
       = inl (Double.Returned OutsideNatural).
Proof.
  intros C W H Edge.
  assert (Pos : forall x,
             (exists m e, x = S754_finite false m e) ->
             Double.ltb x Double.zero = false /\ Double.ltb x x = false).
  { intros x (m & e & ->). split; [reflexivity|apply Double_ltb_irrefl]. }
  assert (D : Double.outsideDisplayed ev = false).
  { unfold Double.outsideDisplayed.
    destruct Edge as [(E & F & L & U)|(E & F & L & U)];
      destruct (Pos _ F) as [P0 P1]; rewrite E, P0, P1, L, U; reflexivity. }
  assert (N : Double.outsideNatural
                (Double.canvasClickX ev (Canvas.width canvas))
                (Double.canvasClickY ev (Canvas.height canvas))
                (Canvas.width canvas) (Canvas.height canvas) = true).
  { unfold Double.outsideNatural, Double.canvasClickX, Double.canvasClickY.
    destruct Edge as [(E & F & _)|(E & F & _)]; rewrite E.
    - rewrite (scaled_edge F W). simpl.
      replace (Canvas.width canvas >=? Canvas.width canvas)%Z with true
        by (symmetry; apply Z.geb_le; lia).
      now rewrite orb_true_r.
    - rewrite (scaled_edge F H). simpl.
      replace (Canvas.height canvas >=? Canvas.height canvas)%Z with true
        by (symmetry; apply Z.geb_le; lia).
      now rewrite !orb_true_r. }
  assert (S : Double.samplePixel enforceRange (Some canvas) ev
              = inl (Double.Returned OutsideNatural)).
  { unfold Double.samplePixel. rewrite D.
    replace (Canvas.width canvas =? 0)%Z with false
      by (symmetry; apply Z.eqb_neq; lia).
    replace (Canvas.height canvas =? 0)%Z with false
      by (symmetry; apply Z.eqb_neq; lia).
    simpl. now rewrite C, N. }
  split; [exact D|]. split; [exact S|].
  intros frontCatalog backCatalog st Ec. unfold Double.resolveWith.
  now rewrite Ec, S.
Qed.

Lemma edgeClick_on_edge : Double.onRightEdge edgeClick.
Proof.
  unfold Double.onRightEdge.
  split; [vm_compute; reflexivity|].
  split; [eexists; eexists; vm_compute; reflexivity|].
  split; vm_compute; reflexivity.
Qed.

Lemma edge_click_rejected_witness :
  Double.samplePixel true (Some opaqueCanvas) edgeClick
  = inl (Double.Returned OutsideNatural)
  /\ Double.resolveWith true frontHotspots backHotspots emptyFront edgeClick
     = inl (Double.Returned OutsideNatural).
Proof.
  destruct (@edge_click_rejected true opaqueCanvas (fun _ _ => 255%Z)
              edgeClick) as (_ & S & R).
  - reflexivity.
  - simpl. lia.
  - simpl. lia.
  - left. exact edgeClick_on_edge.
  - split; [exact S|]. apply R. reflexivity.
Defined.

(** ** Substring search *)

Lemma prefix_iff (p s : string) :
  String.prefix p s = true <-> exists rest, s = (p ++ rest)%string.
Proof.
  revert s. induction p as [|c p IH]; intros s.
  - destruct s; simpl; split; eauto.
  - destruct s as [|c' s]; simpl.
    + split; [discriminate|]. intros [rest E]. discriminate.
    + destruct (ascii_dec c c') as [->|N].
      * rewrite IH. split; intros [rest E]; exists rest; congruence.
      * split; [discriminate|]. intros [rest E]. congruence.
Qed.

Lemma includes_nil (needle : string) :
  includes "" needle = String.prefix needle "" || false.
Proof. reflexivity. Qed.

Lemma includes_cons (c : ascii) (s needle : string) :
  includes (String c s) needle
  = String.prefix needle (String c s) || includes s needle.
Proof. reflexivity. Qed.

(** [includes] finds exactly the occurrences of the needle. *)
Lemma includes_iff (s needle : string) :
  includes s needle = true
  <-> exists before after, s = (before ++ needle ++ after)%string.
Proof.
  induction s as [|c s IH].
  - rewrite includes_nil, orb_false_r, prefix_iff. split.
    + intros [rest E]. exists EmptyString, rest. exact E.
    + intros (before & after & E). destruct before; simpl in E.
      * eauto.
      * discriminate.
  - rewrite includes_cons, orb_true_iff, prefix_iff, IH. split.
    + intros [[rest E]|(before & after & E)].
      * exists EmptyString, rest. exact E.
      * exists (String c before), after. simpl. now rewrite E.
    + intros (before & after & E). destruct before as [|c' before]; simpl in E.
      * left. eauto.
      * right. exists before, after. congruence.
Qed.

Lemma append_assoc (a b c : string) :
  ((a ++ b) ++ c)%string = (a ++ b ++ c)%string.
Proof. induction a; simpl; congruence. Qed.

Lemma append_empty_r (a : string) : (a ++ "")%string = a.
Proof. induction a; simpl; congruence. Qed.

Lemma notesFor_shape view h :
  exists tail,
    notesFor view h
    = ("View: " ++ viewName view ++ ", RegionID: "
         ++ numberToString (Hotspot.id h) ++ tail)%string.
Proof.
  unfold notesFor. destruct (Hotspot.isDetail h).
  - exists (", Detail: " ++ Hotspot.name h)%string.
    now rewrite !append_assoc.
  - exists EmptyString. now rewrite !append_empty_r.
Qed.

(** ** The record a match creates *)




(** ** Adding a record, then setting its intensity *)

(** C8.  After an accepted click has added a record, setting the intensity to
    a value [v] of [0, 10] leaves that record in its place with intensity [v]
    and with the id, region, coordinates and notes it was created with; the
    store has the same length, and every record with another id is where it
    was, unchanged. *)
Theorem add_then_set_intensity
    (frontCatalog backCatalog : list Hotspot.t)
    (st : State) (ev : MouseEvent) (now : Z) (h : Hotspot.t) (v : Z) :
  resolveWith frontCatalog backCatalog st ev = inr h ->
  (0 <= v <= 10)%Z ->
  let st1 := handleImageClickWith frontCatalog backCatalog ev now st in
  let st2 := handleIntensityChange v st1 in
  exists added stored,
    painAreas st1 = (painAreas st ++ [added])%list
    /\ nth_error (painAreas st2) (length (painAreas st)) = Some stored
    /\ PainArea.intensity stored = v
    /\ PainArea.id stored = PainArea.id added
    /\ PainArea.region stored = PainArea.region added
    /\ PainArea.coordinates stored = PainArea.coordinates added
    /\ PainArea.notes stored = PainArea.notes added
    /\ length (painAreas st2) = length (painAreas st1)
    /\ (forall i area,
          nth_error (painAreas st1) i = Some area ->
          PainArea.id area <> PainArea.id added ->
          nth_error (painAreas st2) i = Some area).
Proof.
  intros R _ st1 st2.
  set (added := newPainArea (currentView st) ev now h).
  assert (E1 : painAreas st1 = (painAreas st ++ [added])%list).
  { unfold st1. now rewrite (click_match _ _ _ _ now R). }
  assert (S1 : selectedPainAreaId st1 = Some (PainArea.id added)).
  { unfold st1. now rewrite (click_match _ _ _ _ now R). }
  assert (E2 : painAreas st2
               = map (setIntensityOf (PainArea.id added) v) (painAreas st1)).
  { apply painAreas_handleIntensityChange; [exact S1|reflexivity|].
    unfold ids. rewrite E1, map_app. apply in_or_app. right. now left. }
  exists added, (PainArea.withIntensity added v).
  split; [exact E1|]. split.
  - rewrite E2, E1, map_app, nth_error_app2 by (rewrite length_map; lia).
    rewrite length_map, Nat.sub_diag. simpl.
    rewrite setIntensityOf_same by reflexivity. reflexivity.
  - repeat (split; [reflexivity|]). split.
    + rewrite E2. apply length_map.
    + intros i area Hi Hid. rewrite E2.
      rewrite (map_nth_error _ _ _ Hi).
      now rewrite setIntensityOf_other.
Qed.

Lemma add_then_set_intensity_witness :
  exists stored,
    nth_error
      (painAreas
         (handleIntensityChange 8
            (handleImageClick secondClick 1700000000999 sampleStore)))
      2
    = Some stored
    /\ PainArea.intensity stored = 8%Z
    /\ PainArea.region stored = "Pubic Symphysis Area"%string.
Proof.
  destruct (@add_then_set_intensity frontHotspots backHotspots sampleStore
              secondClick 1700000000999
              (Hotspot.mk 20 "Pubic Symphysis Area"
                 0.47 0.49 0.06 0.03 false) 8)
    as (added & stored & E1 & N & I & _ & Rg & _).
  - vm_compute. reflexivity.
  - lia.
  - exists stored. split; [exact N|]. split; [exact I|].
    rewrite Rg.
    assert (E1' : painAreas
                    (handleImageClick secondClick 1700000000999 sampleStore)
                  = (painAreas sampleStore
                     ++ [newPainArea front secondClick 1700000000999
                           (Hotspot.mk 20 "Pubic Symphysis Area"
                              0.47 0.49 0.06 0.03 false)])%list)
      by (vm_compute; reflexivity).
    unfold handleImageClick in E1'. rewrite E1 in E1'.
    apply app_inv_head in E1'. now injection E1' as ->.
Defined.

(** ** The catalog data *)

Lemma inUnit_iff (q : Q) : inUnit q = true <-> 0 <= q /\ q <= 1.
Proof.
  unfold inUnit. now rewrite andb_true_iff, !Qle_bool_iff.
Qed.

Lemma catalog_boxes_checked :
  forallb boxInUnit frontHotspots && forallb boxInUnit backHotspots = true.
Proof. vm_compute. reflexivity. Qed.

Lemma catalog_tags_checked :
  forallb (tagRecovered front) frontHotspots
  && forallb (tagRecovered back) backHotspots = true.
Proof. vm_compute. reflexivity. Qed.

Lemma catalog_forallb (p : BodyView -> Hotspot.t -> bool) :
  forallb (p front) frontHotspots && forallb (p back) backHotspots = true ->
  forall view h, In h (listHotspots view) -> p view h = true.
Proof.
  intros H view h Hin. apply andb_true_iff in H as [F B].
  destruct view; simpl in Hin.
  - exact (proj1 (forallb_forall _ _) F h Hin).
  - exact (proj1 (forallb_forall _ _) B h Hin).
Qed.

(** C9.  Every entry of the front catalog and of the back catalog has its
    [x], [y], [width] and [height] within [0, 1]. *)
Theorem catalog_boxes_in_unit_interval (view : BodyView) (h : Hotspot.t) :
  In h (listHotspots view) ->
  (0 <= Hotspot.x h /\ Hotspot.x h <= 1)
  /\ (0 <= Hotspot.y h /\ Hotspot.y h <= 1)
  /\ (0 <= Hotspot.width h /\ Hotspot.width h <= 1)
  /\ (0 <= Hotspot.height h /\ Hotspot.height h <= 1).
Proof.
  intros Hin.
  pose proof (catalog_forallb (fun _ => boxInUnit) catalog_boxes_checked
                view h Hin) as B.
  unfold boxInUnit in B. rewrite !andb_true_iff, !inUnit_iff in B. tauto.
Qed.

Lemma catalog_boxes_in_unit_interval_witness :
  0 <= 0.45 /\ 0.45 <= 1.
Proof.
  exact (proj1 (@catalog_boxes_in_unit_interval front
                  (Hotspot.mk 1 "Forehead (Central Superior)"
                     0.45 0.005 0.1 0.02 false)
                  (or_introl eq_refl))).
Defined.

(** ** The view filter *)

Lemma filterByView_filter view areas :
  filterByView view areas = filter (showsIn view) areas.
Proof. reflexivity. Qed.

Lemma showsIn_created view view' ev now h :
  In h (listHotspots view) ->
  showsIn view' (newPainArea view ev now h) = BodyView_eqb view view'.
Proof.
  intros Hin.
  pose proof (catalog_forallb tagRecovered catalog_tags_checked view h Hin)
    as T.
  unfold tagRecovered in T. apply andb_true_iff in T as [Tf Tb].
  apply Bool.eqb_prop in Tf, Tb. unfold showsIn, newPainArea.
  cbn [PainArea.notes]. destruct view'; assumption.
Qed.

(** C6.  A record created in view [front] and one created in view [back]
    are told apart by the filter: whatever the order in which they are
    stored, the filter for [front] returns the front record and the filter
    for [back] the back record.  In a session that switches to the front
    view, marks, switches to the back view and marks again, the two records
    are appended and each filter gains its own record; from an empty store
    the front filter returns just the front record.  The filter returns the
    records whose notes contain the requested tag, all of them and no
    other. *)
Theorem view_filter_isolates_views
    (st : State) (evF evB : MouseEvent) (nowF nowB : Z) (hF hB : Hotspot.t) :
  let s1 := handleImageClick evF nowF (selectView front st) in
  let s2 := handleImageClick evB nowB (selectView back s1) in
  resolve (selectView front st) evF = inr hF ->
  resolve (selectView back s1) evB = inr hB ->
  exists rF rB,
    painAreas s2 = (painAreas st ++ [rF; rB])%list
    /\ filterByView front [rF; rB] = [rF]
    /\ filterByView front [rB; rF] = [rF]
    /\ filterByView back [rF; rB] = [rB]
    /\ filterByView back [rB; rF] = [rB]
    /\ filterByView front (painAreas s2)
       = (filterByView front (painAreas st) ++ [rF])%list
    /\ filterByView back (painAreas s2)
       = (filterByView back (painAreas st) ++ [rB])%list
    /\ (painAreas st = [] -> filterByView front (painAreas s2) = [rF])
    /\ (forall view areas area,
          In area (filterByView view areas)
          <-> In area areas
              /\ exists n,
                   PainArea.notes area = Some n
                   /\ includes n ("View: " ++ viewName view) = true).
Proof.
  intros s1 s2 RF RB.
  set (rF := newPainArea front evF nowF hF).
  set (rB := newPainArea back evB nowB hB).
  assert (E1 : s1 = mkState (painAreas st ++ [rF]) (Some (PainArea.id rF))
                      front (canvasRef st)).
  { unfold s1, handleImageClick. now rewrite (click_match _ _ _ _ nowF RF). }
  assert (E2 : painAreas s2 = (painAreas st ++ [rF; rB])%list).
  { unfold s2, handleImageClick. rewrite (click_match _ _ _ _ nowB RB).
    rewrite E1. simpl. now rewrite <- app_assoc. }
  assert (InF : In hF (listHotspots front)).
  { now destruct (resolve_inr _ _ _ _ RF) as (_ & _ & I). }
  assert (InB : In hB (listHotspots back)).
  { now destruct (resolve_inr _ _ _ _ RB) as (_ & _ & I). }
  assert (FF : showsIn front rF = true)
    by exact (@showsIn_created front front evF nowF hF InF).
  assert (BF : showsIn back rF = false)
    by exact (@showsIn_created front back evF nowF hF InF).
  assert (FB : showsIn front rB = false)
    by exact (@showsIn_created back front evB nowB hB InB).
  assert (BB : showsIn back rB = true)
    by exact (@showsIn_created back back evB nowB hB InB).
  assert (F2 : filterByView front (painAreas s2)
               = (filterByView front (painAreas st) ++ [rF])%list).
  { rewrite E2, !filterByView_filter, filter_app. simpl. now rewrite FF, FB. }
  exists rF, rB. split; [exact E2|].
  do 4 (split; [rewrite filterByView_filter; simpl;
                rewrite ?FF, ?FB, ?BF, ?BB; reflexivity|]).
  split; [exact F2|]. split; [|split].
  - rewrite E2, !filterByView_filter, filter_app. simpl. now rewrite BF, BB.
  - intros Em. rewrite F2, Em. reflexivity.
  - intros view areas area. rewrite filterByView_filter, filter_In.
    unfold showsIn.
    destruct (PainArea.notes area) as [n|].
    + split.
      * intros [I T]. split; [exact I|]. eauto.
      * intros [I (n' & [= <-] & T)]. auto.
    + split.
      * intros [_ T]. discriminate.
      * intros [_ (n' & T & _)]. discriminate.
Qed.

Lemma view_filter_isolates_views_witness :
  exists rF rB,
    painAreas
      (handleImageClick secondClick 1700000000999
         (selectView back
            (handleImageClick sampleClick 1700000000000
               (selectView front emptyFront))))
    = [rF; rB]
    /\ filterByView front [rF; rB] = [rF]
    /\ filterByView front [rB; rF] = [rF].
Proof.
  destruct (@view_filter_isolates_views emptyFront sampleClick secondClick
              1700000000000 1700000000999
              (Hotspot.mk 1 "Left Mandible (Angle)" 0.35 0.125 0.05 0.03 false)
              (Hotspot.mk 39 "Sacrum (Midline)" 0.475 0.48 0.05 0.04 false))
    as (rF & rB & E & F1 & F2 & _).
  - vm_compute. reflexivity.
  - vm_compute. reflexivity.
  - exists rF, rB. split; [exact E|]. split; [exact F1|exact F2].
Defined.

(** ** Record ids *)

Lemma to_int_proper (n : Z) : Z.to_int n <> Pos Nil /\ Z.to_int n <> Neg Nil.
Proof.
  destruct n as [|p|p]; simpl; split; try discriminate;
    intros [= E]; exact (Unsigned.to_uint_nonnil p E).
Qed.

(** Distinct integers are written with distinct digits. *)
Lemma numberToString_inj (n m : Z) :
  numberToString n = numberToString m -> n = m.
Proof.
  unfold numberToString. intros E.
  destruct (to_int_proper n) as [Np Nn], (to_int_proper m) as [Mp Mn].
  pose proof (NilZero.isi (Z.to_int n) Np Nn) as In.
  pose proof (NilZero.isi (Z.to_int m) Mp Mn) as Im.
  rewrite E, Im in In. injection In as In.
  now apply DecimalZ.to_int_inj.
Qed.

Lemma append_inj_r (a b c : string) :
  (a ++ b)%string = (a ++ c)%string -> b = c.
Proof. induction a; simpl; intros E; [exact E|injection E; auto]. Qed.

(** The id of a new record is decided by the clock alone: two records carry
    the same id exactly when they were created at the same value of
    [Date.now()]. *)
Lemma newPainArea_id_eq view view' ev ev' now now' h h' :
  PainArea.id (newPainArea view ev now h)
  = PainArea.id (newPainArea view' ev' now' h')
  <-> now = now'.
Proof.
  unfold newPainArea. cbn [PainArea.id]. split.
  - intros E. now apply append_inj_r, numberToString_inj in E.
  - now intros ->.
Qed.

(** A click at a clock value that no stored id was made from keeps the ids
    of the store distinct. *)
Lemma ids_stay_distinct_on_fresh_clock
    (frontCatalog backCatalog : list Hotspot.t)
    (st : State) (ev : MouseEvent) (now : Z) :
  NoDup (ids st) ->
  ~ In ("point-" ++ numberToString now)%string (ids st) ->
  NoDup (ids (handleImageClickWith frontCatalog backCatalog ev now st)).
Proof.
  intros ND Fresh. unfold handleImageClickWith.
  destruct (resolveWith frontCatalog backCatalog st ev) as [e|h];
    [exact ND|].
  unfold ids. cbn [painAreas setSelectedPainAreaId handlePainAreaUpdate
                     updateFormData_painAreas].
  rewrite map_app. simpl.
  apply NoDup_Add with (a := ("point-" ++ numberToString now)%string)
                       (l := map PainArea.id (painAreas st)).
  - clear. induction (map PainArea.id (painAreas st)) as [|i l IH]; simpl.
    + constructor.
    + now constructor.
  - split; assumption.
Qed.

(** C3, at two clicks that read the same clock value: both are accepted, on
    different regions, and the two records that are stored carry one and the
    same id, so the ids of the store are not distinct. *)
Theorem same_clock_value_same_id :
  let s1 := handleImageClick sampleClick 1700000000000 emptyFront in
  let s2 := handleImageClick secondClick 1700000000000 s1 in
  ids s2 = ["point-1700000000000"; "point-1700000000000"]%string
  /\ map PainArea.region (painAreas s2)
     = ["Left Mandible (Angle)"; "Pubic Symphysis Area"]%string
  /\ ~ NoDup (ids s2).
Proof.
  intros s1 s2.
  assert (E : ids s2 = ["point-1700000000000"; "point-1700000000000"]%string)
    by (vm_compute; reflexivity).
  split; [exact E|]. split; [vm_compute; reflexivity|].
  rewrite E. intros ND. inversion ND as [|i l Hn _]. apply Hn. now left.
Qed.

(** * Properties of the rest of the component and the code around it *)

(** ** Marker colours *)

(** X1.  A marker is grey exactly when the intensity is not one of 1..10: for
    0 and for any value outside the scale. *)
Theorem getIntensityColor_grey_iff (intensity : Z) :
  getIntensityColor intensity = "#cccccc"%string
  <-> (intensity <= 0 \/ 10 < intensity)%Z.
Proof.
  unfold getIntensityColor.
  destruct (intensity =? 0)%Z eqn:E0; [apply Z.eqb_eq in E0; intuition lia|].
  apply Z.eqb_neq in E0.
  repeat match goal with
         | |- context [(?a <=? ?b)%Z] =>
             let L := fresh "L" in destruct (Z.leb_spec a b) as [L|L]; simpl
         end;
    split; intros H; try discriminate; try lia; try reflexivity.
Qed.

Lemma intensity_cases (i : Z) :
  (1 <= i <= 10)%Z ->
  i = 1%Z \/ i = 2%Z \/ i = 3%Z \/ i = 4%Z \/ i = 5%Z
  \/ i = 6%Z \/ i = 7%Z \/ i = 8%Z \/ i = 9%Z \/ i = 10%Z.
Proof. lia. Qed.

(** X2.  On the scale 1..10 the colour tells the band and nothing else: two
    intensities have the same colour exactly when they lie in the same pair
    1-2, 3-4, 5-6, 7-8, 9-10. *)
Theorem getIntensityColor_same_band (i j : Z) :
  (1 <= i <= 10)%Z -> (1 <= j <= 10)%Z ->
  (getIntensityColor i = getIntensityColor j
   <-> ((i + 1) / 2 = (j + 1) / 2)%Z).
Proof.
  intros Hi Hj.
  apply intensity_cases in Hi. apply intensity_cases in Hj.
  repeat (destruct Hi as [Hi|Hi]; [subst i|]); try subst i;
    repeat (destruct Hj as [Hj|Hj]; [subst j|]); try subst j;
    vm_compute; split; intros H; try reflexivity; try discriminate.
Qed.

Lemma getIntensityColor_same_band_witness :
  getIntensityColor 5 = getIntensityColor 6
  /\ getIntensityColor 6 <> getIntensityColor 7.
Proof.
  split.
  - apply (@getIntensityColor_same_band 5 6); [lia|lia|reflexivity].
  - intros E. apply (@getIntensityColor_same_band 6 7) in E; [|lia|lia].
    vm_compute in E. discriminate.
Defined.

(** ** What the slider can and cannot change *)

Lemma map_setIntensityOf (B : Type) (f : PainArea.t -> B) sel v l :
  (forall area, f (PainArea.withIntensity area v) = f area) ->
  map f (map (setIntensityOf sel v) l) = map f l.
Proof.
  intros H. rewrite map_map. apply map_ext. intros area.
  unfold setIntensityOf. destruct (String.eqb (PainArea.id area) sel); auto.
Qed.

Lemma selectedPainArea_some st area :
  selectedPainArea st = Some area ->
  selectedPainAreaId st = Some (PainArea.id area)
  /\ truthy (PainArea.id area) = true
  /\ In area (painAreas st).
Proof.
  unfold selectedPainArea.
  destruct (selectedPainAreaId st) as [sel|]; [|discriminate].
  destruct (truthy sel) eqn:T; [|discriminate].
  intros F. apply find_some in F as [I E]. apply String.eqb_eq in E.
  subst sel. auto.
Qed.

Lemma painAreas_handleIntensityChange_cases st v :
  (selectedPainArea st = None /\ handleIntensityChange v st = st)
  \/ (exists area,
        selectedPainArea st = Some area
        /\ painAreas (handleIntensityChange v st)
           = map (setIntensityOf (PainArea.id area) v) (painAreas st)).
Proof.
  destruct (selectedPainArea st) as [area|] eqn:S.
  - right. exists area. split; [reflexivity|].
    apply selectedPainArea_some in S as (E & T & I).
    apply painAreas_handleIntensityChange; auto.
    unfold ids. now apply in_map.
  - left. split; [reflexivity|].
    unfold handleIntensityChange. now rewrite S.
Qed.

Lemma handleIntensityChange_ids st v :
  map PainArea.id (painAreas (handleIntensityChange v st))
  = map PainArea.id (painAreas st).
Proof.
  destruct (painAreas_handleIntensityChange_cases st v)
    as [[_ ->]|(area & _ & ->)]; [reflexivity|].
  apply map_setIntensityOf. reflexivity.
Qed.

(** X3.  Setting an intensity changes intensities and nothing else: the ids,
    regions, coordinates and notes of the stored records stay as they are, in
    the same order, and so do the selection, the view and the raster.  When
    no stored record is selected (nothing selected, or an id that no record
    carries) the state is not changed at all. *)
Theorem handleIntensityChange_frame (st : State) (v : Z) :
  let st' := handleIntensityChange v st in
  map PainArea.id (painAreas st') = map PainArea.id (painAreas st)
  /\ map PainArea.region (painAreas st') = map PainArea.region (painAreas st)
  /\ map PainArea.coordinates (painAreas st')
     = map PainArea.coordinates (painAreas st)
  /\ map PainArea.notes (painAreas st') = map PainArea.notes (painAreas st)
  /\ selectedPainAreaId st' = selectedPainAreaId st
  /\ currentView st' = currentView st
  /\ canvasRef st' = canvasRef st
  /\ (selectedPainArea st = None -> st' = st)
  /\ (forall sel,
        selectedPainAreaId st = Some sel -> ~ In sel (ids st) -> st' = st).
Proof.
  intros st'. unfold st'.
  destruct (handleIntensityChange_rest st v) as (Rs & Rv & Rc).
  assert (N : selectedPainArea st = None -> handleIntensityChange v st = st).
  { intros S. unfold handleIntensityChange. now rewrite S. }
  destruct (painAreas_handleIntensityChange_cases st v)
    as [[_ E]|(area & _ & E)];
    rewrite E;
    repeat (split; [solve [reflexivity | assumption
                           | apply map_setIntensityOf; reflexivity]|]).
  - reflexivity.
  - intros sel Sel Nin. apply N.
    destruct (selectedPainArea st) as [a|] eqn:S; [|reflexivity].
    apply selectedPainArea_some in S as (E' & _ & I).
    rewrite Sel in E'. injection E' as ->.
    exfalso. apply Nin. unfold ids. now apply in_map.
Qed.

Lemma handleIntensityChange_frame_witness :
  let stale :=
    mkState [sampleArea; otherArea] (Some "point-0"%string) front None in
  handleIntensityChange 9 stale = stale.
Proof.
  intros stale.
  destruct (@handleIntensityChange_frame stale 9) as (_ & _ & _ & _ & _ & _ & _ & _ & H).
  apply (H "point-0"%string); [reflexivity|].
  vm_compute. intuition discriminate.
Defined.

(** ** Removing a record and the selection *)

Lemma find_filter_other sel anId (l : list PainArea.t) :
  sel <> anId ->
  find (fun a => String.eqb (PainArea.id a) sel)
       (filter (fun a => negb (String.eqb (PainArea.id a) anId)) l)
  = find (fun a => String.eqb (PainArea.id a) sel) l.
Proof.
  intros N. induction l as [|a l IH]; simpl; [reflexivity|].
  destruct (String.eqb (PainArea.id a) anId) eqn:E; simpl.
  - apply String.eqb_eq in E.
    destruct (String.eqb (PainArea.id a) sel) eqn:E'; [|exact IH].
    apply String.eqb_eq in E'. congruence.
  - now rewrite IH.
Qed.

(** X4.  Removing a record does not change which record the slider edits,
    with one exception: removing the record that is being edited clears the
    selection, after which the slider has nothing to change. *)
Theorem removePainArea_selection (anId : string) (st : State) (v : Z) :
  selectedPainArea (removePainArea anId st)
  = (if isSelected st anId then None else selectedPainArea st)
  /\ (isSelected st anId = true ->
      selectedPainAreaId (removePainArea anId st) = None
      /\ handleIntensityChange v (removePainArea anId st)
         = removePainArea anId st).
Proof.
  assert (S : selectedPainArea (removePainArea anId st)
              = (if isSelected st anId then None else selectedPainArea st)).
  { unfold selectedPainArea.
    rewrite selected_removePainArea, painAreas_removePainArea.
    destruct (isSelected st anId) eqn:I; [reflexivity|].
    destruct (selectedPainAreaId st) as [sel|] eqn:Sel; [|reflexivity].
    destruct (truthy sel); [|reflexivity].
    apply find_filter_other. intros ->.
    unfold isSelected in I. rewrite Sel, String.eqb_refl in I. discriminate. }
  split; [exact S|]. intros I. split.
  - rewrite selected_removePainArea. now rewrite I.
  - rewrite I in S. unfold handleIntensityChange. now rewrite S.
Qed.

Lemma removePainArea_selection_witness :
  selectedPainAreaId (removePainArea "point-1700000000000" sampleStore) = None
  /\ handleIntensityChange 9 (removePainArea "point-1700000000000" sampleStore)
     = removePainArea "point-1700000000000" sampleStore.
Proof.
  destruct (@removePainArea_selection "point-1700000000000" sampleStore 9)
    as (_ & H).
  apply H. reflexivity.
Defined.

(** ** What a session keeps true *)

Lemma painAreas_handleImageClick ev now st :
  (resolve st ev = inl NoClosest \/ exists e, resolve st ev = inl e)
  /\ handleImageClick ev now st = st
  \/ exists h,
       resolve st ev = inr h
       /\ handleImageClick ev now st
          = mkState (painAreas st ++ [newPainArea (currentView st) ev now h])
              (Some (PainArea.id (newPainArea (currentView st) ev now h)))
              (currentView st) (canvasRef st).
Proof.
  unfold handleImageClick, resolve.
  destruct (resolveWith frontHotspots backHotspots st ev) as [e|h] eqn:R.
  - left. split; [eauto|]. unfold handleImageClickWith. now rewrite R.
  - right. exists h. split; [reflexivity|]. now apply click_match.
Qed.

Lemma newPainArea_wellMade view ev now h :
  In h (listHotspots view) -> wellMade (newPainArea view ev now h).
Proof.
  intros I. split; [simpl; lia|]. exists view, h.
  repeat split; auto. simpl. discriminate.
Qed.

Lemma withIntensity_wellMade area v :
  (0 <= v <= 10)%Z -> wellMade area ->
  wellMade (PainArea.withIntensity area v).
Proof.
  intros Hv [_ (view & h & M)]. split; [exact Hv|]. exists view, h. exact M.
Qed.

Lemma onLoad_frame img st :
  painAreas (onLoad img st) = painAreas st
  /\ selectedPainAreaId (onLoad img st) = selectedPainAreaId st
  /\ currentView (onLoad img st) = currentView st.
Proof.
  unfold onLoad. destruct (canvasRef st) as [canvas|]; auto.
  destruct (_ && _); auto. destruct (Canvas.getContext canvas); auto.
Qed.

Lemma step_keeps_invariant st st' :
  step st st' -> sessionInvariant st -> sessionInvariant st'.
Proof.
  intros S [W Sel]. destruct S as [ev now|img|area I|v S Hv|view|area I C|S].
  - destruct (painAreas_handleImageClick ev now st) as [[_ ->]|(h & R & ->)];
      [split; assumption|].
    split; simpl.
    + apply Forall_app. split; [exact W|]. constructor; [|constructor].
      apply newPainArea_wellMade.
      now destruct (resolve_inr _ _ _ _ R) as (_ & _ & I).
    + intros sel [= <-]. unfold ids. simpl. rewrite map_app.
      apply in_or_app. right. now left.
  - destruct (onLoad_frame img st) as (P & S & _). split.
    + now rewrite P.
    + unfold ids. rewrite P, S. exact Sel.
  - split.
    + rewrite painAreas_removePainArea. apply Forall_forall.
      intros a Ha. apply filter_In in Ha as [Ha _].
      exact (proj1 (Forall_forall _ _) W a Ha).
    + intros sel. rewrite selected_removePainArea.
      destruct (isSelected st (PainArea.id area)) eqn:IS; [discriminate|].
      intros E. pose proof (Sel sel E) as Hin.
      unfold ids in *. apply in_map_iff in Hin as (a & <- & Ha).
      apply in_map. apply In_removePainArea. split; [exact Ha|].
      intros Eq. unfold isSelected in IS. rewrite E, <- Eq in IS.
      now rewrite String.eqb_refl in IS.
  - destruct (handleIntensityChange_rest st v) as (Rs & _).
    destruct (painAreas_handleIntensityChange_cases st v)
      as [[_ ->]|(a & _ & E)]; [split; assumption|].
    split.
    + rewrite E. apply Forall_forall. intros x Hx.
      apply in_map_iff in Hx as (y & <- & Hy).
      pose proof (proj1 (Forall_forall _ _) W y Hy) as Wy.
      unfold setIntensityOf. destruct (String.eqb _ _); [|exact Wy].
      now apply withIntensity_wellMade.
    + intros sel. rewrite Rs. intros Es. unfold ids. rewrite E.
      rewrite map_setIntensityOf by reflexivity. now apply Sel.
  - split; [exact W|]. simpl. discriminate.
  - split; [exact W|]. simpl. intros sel [= <-].
    unfold ids. apply in_map.
    rewrite filterByView_filter in I. now apply filter_In in I as [I _].
  - split; [exact W|]. simpl. discriminate.
Qed.

Lemma fresh_invariant st : freshSession st -> sessionInvariant st.
Proof.
  intros [E S]. split.
  - rewrite E. constructor.
  - rewrite S. discriminate.
Qed.

Lemma reachable_invariant st0 st :
  freshSession st0 -> reachableFrom st0 st -> sessionInvariant st.
Proof.
  intros F R. induction R as [|st st' _ IH S].
  - now apply fresh_invariant.
  - exact (step_keeps_invariant S IH).
Qed.

Lemma wellMade_truthy_id area : wellMade area -> truthy (PainArea.id area) = true.
Proof. intros [_ (view & h & _ & _ & _ & _ & T)]. exact T. Qed.

(** X5.  In a session that starts without marks, a selected id always is the
    id of a stored record: whenever an id is selected, [selectedPainArea]
    finds a record of the store with that id, so the slider panel is there
    and the slider has a record to edit. *)
Theorem selection_is_stored (st0 st : State) (sel : string) :
  freshSession st0 -> reachableFrom st0 st ->
  selectedPainAreaId st = Some sel ->
  exists area,
    selectedPainArea st = Some area
    /\ PainArea.id area = sel
    /\ In area (painAreas st).
Proof.
  intros F R E. destruct (reachable_invariant F R) as [W Sel].
  pose proof (Sel sel E) as Hin. unfold ids in Hin.
  apply in_map_iff in Hin as (a & Ea & Ha).
  assert (T : truthy sel = true).
  { rewrite <- Ea. apply wellMade_truthy_id.
    exact (proj1 (Forall_forall _ _) W a Ha). }
  destruct (selectedPainArea_found st E T (Sel sel E)) as [area S].
  exists area. split; [exact S|].
  apply selectedPainArea_some in S as (E' & _ & I).
  rewrite E in E'. injection E' as ->. auto.
Qed.

(** X6.  In a session that starts without marks, every stored intensity is
    on the scale 0..10: a record starts at 5 and the slider, the only way
    to change it, offers 0..10. *)
Theorem session_intensities_in_range (st0 st : State) (area : PainArea.t) :
  freshSession st0 -> reachableFrom st0 st ->
  In area (painAreas st) ->
  (0 <= PainArea.intensity area <= 10)%Z.
Proof.
  intros F R I. destruct (reachable_invariant F R) as [W _].
  exact (proj1 (proj1 (Forall_forall _ _) W area I)).
Qed.

(** X7.  In a session that starts without marks, every stored record names a
    hotspot of the catalog of the view it was made in, and is drawn in that
    view and in no other: each record is shown by exactly one of the two
    view filters. *)
Theorem session_records_belong_to_one_view
    (st0 st : State) (area : PainArea.t) :
  freshSession st0 -> reachableFrom st0 st ->
  In area (painAreas st) ->
  exists view h,
    In h (listHotspots view)
    /\ PainArea.region area = Hotspot.name h
    /\ (forall view',
          In area (filterByView view' (painAreas st)) <-> view' = view).
Proof.
  intros F R I. destruct (reachable_invariant F R) as [W _].
  destruct (proj1 (Forall_forall _ _) W area I)
    as [_ (view & h & Hh & Rg & N & _ & _)].
  exists view, h. split; [exact Hh|]. split; [exact Rg|].
  intros view'. rewrite filterByView_filter, filter_In.
  assert (S : showsIn view' area = BodyView_eqb view view').
  { pose proof (@showsIn_created view view' sampleClick 0 h Hh) as S.
    unfold showsIn in *. cbn [PainArea.notes newPainArea] in S.
    now rewrite N. }
  rewrite S. split.
  - intros [_ E]. destruct view, view'; simpl in E; congruence.
  - intros ->. split; [exact I|]. now destruct view.
Qed.

Lemma sampleSession_reachable :
  reachableFrom emptyFront
    (handleIntensityChange 8
       (handleImageClick sampleClick 1700000000000 emptyFront)).
Proof.
  eapply reach_step.
  - eapply reach_step; [apply reach_start|apply step_click].
  - apply step_slider; [vm_compute; discriminate|lia].
Qed.

Lemma selection_is_stored_witness :
  exists area,
    selectedPainArea
      (handleIntensityChange 8
         (handleImageClick sampleClick 1700000000000 emptyFront))
    = Some area
    /\ PainArea.id area = "point-1700000000000"%string.
Proof.
  assert (E : selectedPainAreaId
                (handleIntensityChange 8
                   (handleImageClick sampleClick 1700000000000 emptyFront))
              = Some "point-1700000000000"%string)
    by (vm_compute; reflexivity).
  destruct (@selection_is_stored emptyFront _ "point-1700000000000"%string
              (conj eq_refl eq_refl) sampleSession_reachable E)
    as (area & S & Ea & _).
  exists area. split; assumption.
Defined.

Lemma sampleSession_stores :
  In (PainArea.withIntensity
        (newPainArea front sampleClick 1700000000000
           (Hotspot.mk 1 "Left Mandible (Angle)" 0.35 0.125 0.05 0.03 false))
        8)
     (painAreas
        (handleIntensityChange 8
           (handleImageClick sampleClick 1700000000000 emptyFront))).
Proof. vm_compute. left. reflexivity. Qed.

Lemma session_intensities_in_range_witness :
  (0 <= 8 <= 10)%Z.
Proof.
  exact (@session_intensities_in_range emptyFront _ _
           (conj eq_refl eq_refl) sampleSession_reachable
           sampleSession_stores).
Defined.

Lemma session_records_belong_to_one_view_witness :
  exists view h,
    In h (listHotspots view)
    /\ Hotspot.name h = "Left Mandible (Angle)"%string.
Proof.
  destruct (@session_records_belong_to_one_view emptyFront _ _
              (conj eq_refl eq_refl) sampleSession_reachable
              sampleSession_stores)
    as (view & h & Ih & Rg & _).
  exists view, h. split; [exact Ih|]. now rewrite <- Rg.
Defined.

(** ** Distinct ids *)

Lemma filtered_ids_distinct (keep : PainArea.t -> bool)
    (areas : list PainArea.t) :
  NoDup (map PainArea.id areas) ->
  NoDup (map PainArea.id (filter keep areas)).
Proof.
  intros N. induction areas as [|area areas IH]; simpl; [constructor|].
  simpl in N. apply NoDup_cons_iff in N as [Nin N].
  destruct (keep area); simpl; [|auto].
  constructor; [|auto]. intros Hin. apply Nin.
  apply in_map_iff in Hin as (x & E & Hx). apply filter_In in Hx as [Hx _].
  rewrite <- E. now apply in_map.
Qed.

(** X8.  Ids that are distinct stay distinct under every operation but one:
    removing a record, setting an intensity, switching the view and loading
    an image keep them distinct, and so does a click whose clock value was
    not used for a stored id; an accepted click whose clock value was used
    already leaves two records with one id. *)
Theorem ids_distinct_unless_clock_repeats (st : State) :
  NoDup (ids st) ->
  (forall anId, NoDup (ids (removePainArea anId st)))
  /\ (forall v, NoDup (ids (handleIntensityChange v st)))
  /\ (forall view, NoDup (ids (selectView view st)))
  /\ (forall img, NoDup (ids (onLoad img st)))
  /\ (forall ev now,
        ~ In ("point-" ++ numberToString now)%string (ids st) ->
        NoDup (ids (handleImageClick ev now st)))
  /\ (forall ev now h,
        resolve st ev = inr h ->
        In ("point-" ++ numberToString now)%string (ids st) ->
        ~ NoDup (ids (handleImageClick ev now st))).
Proof.
  intros N. split; [|split; [|split; [|split; [|split]]]].
  - intros anId. unfold ids. rewrite painAreas_removePainArea.
    now apply filtered_ids_distinct.
  - intros v. unfold ids. now rewrite handleIntensityChange_ids.
  - intros view. exact N.
  - intros img. unfold ids.
    destruct (onLoad_frame img st) as (-> & _). exact N.
  - intros ev now F. now apply ids_stay_distinct_on_fresh_clock.
  - intros ev now h R I ND. unfold handleImageClick in ND.
    unfold resolve in R. rewrite (click_match _ _ _ _ now R) in ND.
    unfold ids in ND. simpl in ND. rewrite map_app in ND. simpl in ND.
    apply NoDup_remove_2 in ND. apply ND. rewrite app_nil_r. exact I.
Qed.

Lemma ids_distinct_unless_clock_repeats_witness :
  NoDup (ids (removePainArea "point-1700000000777" sampleStore))
  /\ NoDup (ids (handleImageClick secondClick 1700000000999 sampleStore))
  /\ ~ NoDup (ids (handleImageClick secondClick 1700000000777 sampleStore)).
Proof.
  assert (N : NoDup (ids sampleStore)).
  { vm_compute. constructor; [|constructor; [|constructor]]; simpl.
    - intros [E|[]]. discriminate E.
    - intros []. }
  destruct (@ids_distinct_unless_clock_repeats sampleStore N)
    as (Rm & _ & _ & _ & Fresh & Clash).
  split; [apply Rm|]. split.
  - apply Fresh. vm_compute. intuition discriminate.
  - apply (Clash secondClick 1700000000777%Z
             (Hotspot.mk 20 "Pubic Symphysis Area" 0.47 0.49 0.06 0.03 false)).
    + vm_compute. reflexivity.
    + vm_compute. right. left. reflexivity.
Defined.

(** ** Loading the image *)

Lemma listHotspots_not_empty view : listHotspots view <> [].
Proof. destruct view; simpl; [unfold frontHotspots|unfold backHotspots]; discriminate. Qed.

(** In binary64 a click is given a hotspot when its pixel was sampled and is
    not transparent and some entry of the catalog has a computed distance
    below [Infinity]. *)
Lemma Double_resolve_some (enforceRange : bool) (st : State)
    (ev : MouseEvent) :
  (exists h, Double.resolve enforceRange st ev = inr h)
  <-> (exists s,
         Double.samplePixel enforceRange (canvasRef st) ev = inr s
         /\ (10 <= Double.alpha s)%Z)
      /\ exists h0,
           In h0 (listHotspots (currentView st))
           /\ Double.ltb (Double.distance ev h0) Double.Infinity = true.
Proof.
  pose proof (Double_searchHotspots_first_least ev
                (listHotspots (currentView st))) as F.
  unfold Double.resolve, Double.resolveWith. fold listHotspots.
  destruct (Double.samplePixel enforceRange (canvasRef st) ev) as [e|s].
  { split; [intros [h R]; discriminate|].
    intros ((s & S & _) & _). discriminate. }
  destruct (Double.alpha s <? 10)%Z eqn:A.
  { apply Z.ltb_lt in A. split; [intros [h R]; discriminate|].
    intros ((s' & [= <-] & A') & _). lia. }
  apply Z.ltb_ge in A.
  destruct (length (listHotspots (currentView st)) =? 0)%nat eqn:L.
  { exfalso. apply (listHotspots_not_empty (currentView st)).
    destruct (listHotspots (currentView st)); [reflexivity|discriminate]. }
  destruct (Double.closestHotspot
              (Double.searchHotspots ev (listHotspots (currentView st))))
    as [h|].
  - destruct F as (Fin & before & after & E & _).
    split; [|eauto]. intros _. split; [eauto|].
    exists h. split; [|exact Fin]. rewrite E. apply in_or_app. right. now left.
  - split; [intros [h R]; discriminate|].
    intros (_ & h0 & In0 & Fin). rewrite (F h0 In0) in Fin. discriminate.
Qed.

(** X9.  When the image has loaded (a canvas with a drawing context, an
    image of positive natural size), the raster is the image.  A click is
    then given a hotspot exactly when it is within the displayed bounds,
    each of its scaled coordinates is NaN or an integer within the natural
    bounds, [getImageData] returns for them, from the raster drawn from
    the image, an alpha of at least 10, and some entry of the catalog has
    a computed distance below [Infinity].  Loading changes neither the
    store, the selection nor the view.  Without a canvas, without a context,
    or for an image with no natural size, loading changes nothing. *)
Theorem onLoad_then_click (enforceRange : bool) (st : State) (img : Image.t)
    (ev : MouseEvent) :
  let st' := onLoad img st in
  let cx := Double.canvasClickX ev (Image.naturalWidth img) in
  let cy := Double.canvasClickY ev (Image.naturalHeight img) in
  (painAreas st' = painAreas st
   /\ selectedPainAreaId st' = selectedPainAreaId st
   /\ currentView st' = currentView st)
  /\ ((exists canvas ctx,
         canvasRef st = Some canvas /\ Canvas.getContext canvas = Some ctx) ->
      (0 < Image.naturalWidth img)%Z -> (0 < Image.naturalHeight img)%Z ->
      ((exists h, Double.resolve enforceRange st' ev = inr h)
       <-> Double.outsideDisplayed ev = false
           /\ (cx = Double.NotANumber
               \/ exists n,
                    cx = Double.Integer n
                    /\ (0 <= n < Image.naturalWidth img)%Z)
           /\ (cy = Double.NotANumber
               \/ exists n,
                    cy = Double.Integer n
                    /\ (0 <= n < Image.naturalHeight img)%Z)
           /\ (exists pixelAlpha,
                 Double.getImageData enforceRange (drawImage img) cx cy
                 = Some pixelAlpha
                 /\ (10 <= pixelAlpha)%Z)
           /\ exists h0,
                In h0 (listHotspots (currentView st))
                /\ Double.ltb (Double.distance ev h0) Double.Infinity
                   = true))
  /\ (canvasRef st = None
      \/ (exists canvas,
            canvasRef st = Some canvas /\ Canvas.getContext canvas = None)
      \/ (Image.naturalWidth img <= 0)%Z
      \/ (Image.naturalHeight img <= 0)%Z ->
      st' = st).
Proof.
  intros st' cx cy. split; [apply onLoad_frame|]. split.
  - intros (canvas & ctx & Ec & Ex) Pw Ph.
    assert (E : st' = setCanvas
                        (Canvas.mk (Image.naturalWidth img)
                           (Image.naturalHeight img) (Some (drawImage img)))
                        st).
    { unfold st', onLoad. rewrite Ec, Ex.
      apply Z.ltb_lt in Pw, Ph. now rewrite Pw, Ph. }
    rewrite Double_resolve_some. rewrite E. simpl.
    split.
    + intros ((s & S & A) & Near).
      apply Double_samplePixel_inr in S
        as (O & canvas' & ctx' & [= <-] & _ & _ & [= <-] & N & G & _).
      simpl in N, G. apply Double_inBounds_iff in N as [Bx By].
      fold cx cy in Bx, By, G. eauto 10.
    + intros (O & Bx & By & (a & G & A) & Near). split; [|exact Near].
      exists (Double.mkSample cx cy a). split; [|exact A].
      apply Double_samplePixel_inr. split; [exact O|].
      eexists. eexists. split; [reflexivity|]. simpl.
      split; [lia|]. split; [lia|]. split; [reflexivity|]. split.
      * apply Double_inBounds_iff. fold cx cy. auto.
      * fold cx cy. auto.
  - intros H. unfold st', onLoad.
    destruct (canvasRef st) as [canvas|] eqn:Ec; [|reflexivity].
    destruct ((0 <? Image.naturalWidth img)%Z
              && (0 <? Image.naturalHeight img)%Z) eqn:P; [|reflexivity].
    apply andb_true_iff in P as [Pw Ph]. apply Z.ltb_lt in Pw, Ph.
    destruct (Canvas.getContext canvas) as [ctx|] eqn:Ex; [|reflexivity].
    destruct H as [H|[(c & [= <-] & H)|[H|H]]]; try discriminate; try lia.
    congruence.
Qed.

Lemma sampleClick_scaled :
  Double.outsideDisplayed sampleClick = false
  /\ Double.canvasClickX sampleClick 100 = Double.Integer 28
  /\ Double.canvasClickY sampleClick 200 = Double.Integer 28
  /\ Double.ltb
       (Double.distance sampleClick
          (Hotspot.mk 1 "Forehead (Central Superior)"
             0.45 0.005 0.1 0.02 false))
       Double.Infinity = true.
Proof. vm_compute. auto. Qed.

Lemma holeClick_scaled :
  Double.canvasClickX holeClick 100 = Double.Integer 50
  /\ Double.canvasClickY holeClick 200 = Double.Integer 50.
Proof. vm_compute. auto. Qed.

Lemma onLoad_then_click_witness :
  (exists h,
     Double.resolve true (onLoad holedImage emptyFront) sampleClick = inr h)
  /\ ~ (exists h,
          Double.resolve true (onLoad holedImage emptyFront) holeClick
          = inr h)
  /\ onLoad brokenImage emptyFront = emptyFront.
Proof.
  destruct (@onLoad_then_click true emptyFront holedImage sampleClick)
    as (_ & Ok & _).
  destruct (@onLoad_then_click true emptyFront holedImage holeClick)
    as (_ & Hole & _).
  destruct (@onLoad_then_click true emptyFront brokenImage sampleClick)
    as (_ & _ & Broken).
  assert (Ready : exists canvas ctx,
             canvasRef emptyFront = Some canvas
             /\ Canvas.getContext canvas = Some ctx).
  { exists opaqueCanvas. eexists. split; reflexivity. }
  destruct sampleClick_scaled as (O & X & Y & Near).
  destruct holeClick_scaled as (HX & HY).
  split; [|split].
  - apply Ok; [exact Ready|reflexivity|reflexivity|].
    change (Image.naturalWidth holedImage) with 100%Z.
    change (Image.naturalHeight holedImage) with 200%Z.
    rewrite X, Y.
    split; [exact O|].
    split; [right; exists 28%Z; split; [reflexivity|lia]|].
    split; [right; exists 28%Z; split; [reflexivity|lia]|].
    split; [exists 255%Z; split; [reflexivity|lia]|].
    eexists. split; [left; reflexivity|exact Near].
  - intros Acc. apply Hole in Acc; [|exact Ready|reflexivity|reflexivity].
    destruct Acc as (_ & _ & _ & (a & G & A) & _).
    change (Image.naturalWidth holedImage) with 100%Z in G.
    change (Image.naturalHeight holedImage) with 200%Z in G.
    rewrite HX, HY in G. vm_compute in G. injection G as <-. lia.
  - apply Broken. right. right. left. simpl. lia.
Defined.

(** ** Red flags *)

Section RedFlagProperties.

Variable Number : Type.
Variable parseFloat : string -> Number.

Implicit Types (redFlags : RedFlags.t Number) (flagName : Flag.t).

Lemma Flag_eqb_eq (a b : Flag.t) : Flag_eqb a b = true <-> a = b.
Proof. destruct a, b; simpl; split; intros H; congruence. Qed.

(** X10.  Checking or unchecking a red flag touches that flag only.  It sets
    the flag's checkbox; checking keeps what was entered under the flag, and
    unchecking clears it (texts become empty, the weight-loss amount and the
    new-onset mark are dropped, every area is deselected).  The checkbox and
    the details of every other flag are as before. *)
Theorem handleRedFlagMainPresentChange_effect
    flagName (isPresent : bool) redFlags :
  let redFlags' :=
    handleRedFlagMainPresentChange flagName isPresent redFlags in
  flagPresent flagName redFlags' = Some isPresent
  /\ flagDetail flagName redFlags'
     = (if isPresent then flagDetail flagName redFlags
        else clearedDetail (flagDetail flagName redFlags))
  /\ (forall other,
        other <> flagName ->
        flagPresent other redFlags' = flagPresent other redFlags
        /\ flagDetail other redFlags' = flagDetail other redFlags).
Proof.
  destruct redFlags as [[mwp [mwa|]] [ntp [nta|]] wl bb sa bp orp orf];
    destruct flagName, isPresent; simpl;
    (split; [reflexivity|split; [reflexivity|]]);
    intros other N; destruct other; simpl; try (split; reflexivity);
    exfalso; apply N; reflexivity.
Qed.

Lemma deselectAll_keys (areas : list (string * AreaEntry.t)) :
  map fst (deselectAll areas) = map fst areas.
Proof. unfold deselectAll. rewrite map_map. reflexivity. Qed.

Lemma lookupArea_deselectAll areaKey (areas : list (string * AreaEntry.t)) :
  lookupArea areaKey (deselectAll areas)
  = option_map (fun _ => AreaEntry.mk false) (lookupArea areaKey areas).
Proof.
  induction areas as [|[k e] rest IH]; simpl; [reflexivity|].
  destruct (String.eqb k areaKey); [reflexivity|exact IH].
Qed.

(** X11.  Unchecking muscle weakness, or numbness, leaves the list of body
    areas as it is, with the same keys in the same order, and deselects every
    one of them; checking it again does not bring the selection back. *)
Theorem uncheck_deselects_every_area
    (flagName : AreaFlag.t) redFlags (areas : list (string * AreaEntry.t)) :
  areasOf flagName redFlags = Some areas ->
  let unchecked :=
    handleRedFlagMainPresentChange (AreaFlag_flag flagName) false redFlags in
  let rechecked :=
    handleRedFlagMainPresentChange (AreaFlag_flag flagName) true unchecked in
  exists areas',
    areasOf flagName unchecked = Some areas'
    /\ areasOf flagName rechecked = Some areas'
    /\ map fst areas' = map fst areas
    /\ (forall areaKey,
          lookupArea areaKey areas'
          = option_map (fun _ => AreaEntry.mk false)
              (lookupArea areaKey areas)).
Proof.
  intros E. exists (deselectAll areas).
  destruct redFlags as [[mwp mwa] [ntp nta] wl bb sa bp orp orf];
    destruct flagName; simpl in *; subst; simpl;
    (split; [reflexivity|split; [reflexivity|split]]);
    auto using deselectAll_keys, lookupArea_deselectAll.
Qed.

Lemma setSelected_keys areaKey b (areas : list (string * AreaEntry.t)) :
  map fst (setSelected areaKey b areas) = map fst areas.
Proof.
  induction areas as [|[k e] rest IH]; simpl; [reflexivity|].
  destruct (String.eqb k areaKey); simpl; congruence.
Qed.

Lemma lookupArea_setSelected areaKey b key
    (areas : list (string * AreaEntry.t)) :
  lookupArea key (setSelected areaKey b areas)
  = if String.eqb key areaKey
    then option_map (fun _ => AreaEntry.mk b) (lookupArea key areas)
    else lookupArea key areas.
Proof.
  induction areas as [|[k e] rest IH]; simpl.
  - now destruct (String.eqb key areaKey).
  - destruct (String.eqb k areaKey) eqn:Ek; simpl.
    + apply String.eqb_eq in Ek. subst k.
      destruct (String.eqb key areaKey) eqn:Ekey.
      * apply String.eqb_eq in Ekey. subst key.
        now rewrite String.eqb_refl.
      * rewrite String.eqb_sym, Ekey. reflexivity.
    + destruct (String.eqb k key) eqn:Ekk.
      * apply String.eqb_eq in Ekk. subst k.
        rewrite Ek. reflexivity.
      * exact IH.
Qed.

(** X12.  Ticking the box of a body area changes the selection of that area
    and nothing else: the flags' checkboxes, the details of the other flags,
    the area keys and the selection of every other area are as before.  For
    an area name that the flag does not list, or a flag without a list of
    areas, nothing changes. *)
Theorem handleAreaSelectionChange_effect
    (flagName : AreaFlag.t) (areaKey : string) (isSelected : bool) redFlags :
  let redFlags' :=
    handleAreaSelectionChange flagName areaKey isSelected redFlags in
  (forall other, flagPresent other redFlags' = flagPresent other redFlags)
  /\ (forall other,
        other <> AreaFlag_flag flagName ->
        flagDetail other redFlags' = flagDetail other redFlags)
  /\ (forall areas,
        areasOf flagName redFlags = Some areas ->
        exists areas',
          areasOf flagName redFlags' = Some areas'
          /\ map fst areas' = map fst areas
          /\ (forall key,
                lookupArea key areas'
                = if String.eqb key areaKey
                  then option_map (fun _ => AreaEntry.mk isSelected)
                         (lookupArea key areas)
                  else lookupArea key areas))
  /\ ((areasOf flagName redFlags = None
       \/ exists areas,
            areasOf flagName redFlags = Some areas
            /\ lookupArea areaKey areas = None) ->
      redFlags' = redFlags).
Proof.
  destruct redFlags as [[mwp mwa] [ntp nta] wl bb sa bp orp orf].
  destruct flagName; simpl; unfold selectArea; simpl.
  - split; [|split; [|split]].
    + intros other. destruct other; simpl; try reflexivity.
      destruct mwa as [a|]; [destruct (lookupArea areaKey a)|]; reflexivity.
    + intros other N. destruct other; simpl; try reflexivity.
      exfalso. now apply N.
    + intros areas ->. destruct (lookupArea areaKey areas) eqn:L; simpl.
      * eexists. split; [reflexivity|].
        split; [apply setSelected_keys|]. intros key.
        apply lookupArea_setSelected.
      * exists areas. split; [reflexivity|]. split; [reflexivity|].
        intros key. destruct (String.eqb key areaKey) eqn:E; [|reflexivity].
        apply String.eqb_eq in E. subst key. now rewrite L.
    + intros [->|(areas & -> & ->)]; reflexivity.
  - split; [|split; [|split]].
    + intros other. destruct other; simpl; try reflexivity.
      destruct nta as [a|]; [destruct (lookupArea areaKey a)|]; reflexivity.
    + intros other N. destruct other; simpl; try reflexivity.
      exfalso. now apply N.
    + intros areas ->. destruct (lookupArea areaKey areas) eqn:L; simpl.
      * eexists. split; [reflexivity|].
        split; [apply setSelected_keys|]. intros key.
        apply lookupArea_setSelected.
      * exists areas. split; [reflexivity|]. split; [reflexivity|].
        intros key. destruct (String.eqb key areaKey) eqn:E; [|reflexivity].
        apply String.eqb_eq in E. subst key. now rewrite L.
    + intros [->|(areas & -> & ->)]; reflexivity.
Qed.

Lemma deselectAll_twice (areas : list (string * AreaEntry.t)) :
  deselectAll (deselectAll areas) = deselectAll areas.
Proof. unfold deselectAll. rewrite map_map. reflexivity. Qed.

(** X13.  Checking and unchecking compose as follows: doing the same change
    twice is doing it once, changes of two different flags can be made in
    either order, and checking a flag after unchecking it does not restore
    what was entered: the details stay cleared. *)
Theorem handleRedFlagMainPresentChange_compose
    flagName (isPresent : bool) redFlags :
  let change := @handleRedFlagMainPresentChange Number in
  change flagName isPresent (change flagName isPresent redFlags)
  = change flagName isPresent redFlags
  /\ (forall other (b : bool),
        other <> flagName ->
        change flagName isPresent (change other b redFlags)
        = change other b (change flagName isPresent redFlags))
  /\ flagDetail flagName (change flagName true (change flagName false redFlags))
     = clearedDetail (flagDetail flagName redFlags).
Proof.
  intros change. unfold change. split; [|split].
  - destruct redFlags as [[mwp [mwa|]] [ntp [nta|]] wl bb sa bp orp orf];
      destruct flagName, isPresent; simpl; unfold setAreaSymptomPresent;
      simpl; rewrite ?deselectAll_twice; reflexivity.
  - intros other b N.
    destruct redFlags as [[mwp [mwa|]] [ntp [nta|]] wl bb sa bp orp orf];
      destruct flagName, other; try (exfalso; apply N; reflexivity);
      destruct isPresent, b; reflexivity.
  - destruct redFlags as [[mwp [mwa|]] [ntp [nta|]] wl bb sa bp orp orf];
      destruct flagName; reflexivity.
Qed.

(** X14.  Editing what is entered under a flag never changes a checkbox,
    with one exception: choosing the kind of balance problem checks the
    balance flag, whatever it was. *)
Theorem detail_editors_keep_checkboxes redFlags flagName :
  (forall d v,
     flagPresent flagName (handleSingleDetailChange d v redFlags)
     = flagPresent flagName redFlags)
  /\ (forall b,
        flagPresent flagName (handleBladderIsNewOnsetChange b redFlags)
        = flagPresent flagName redFlags)
  /\ (forall text,
        flagPresent flagName (handleOtherRedFlagTextChange text redFlags)
        = flagPresent flagName redFlags)
  /\ (forall period,
        flagPresent flagName (handleWeightLossPeriodChange period redFlags)
        = flagPresent flagName redFlags)
  /\ (forall amount,
        flagPresent flagName
          (handleWeightLossAmountChange parseFloat amount redFlags)
        = flagPresent flagName redFlags)
  /\ (forall typeValue,
        flagPresent flagName
          (handleBalanceProblemTypeChange typeValue redFlags)
        = if Flag_eqb flagName Flag.balanceProblems then Some true
          else flagPresent flagName redFlags).
Proof.
  destruct redFlags as [mw nt wl bb sa bp orp orf].
  repeat split; intros; destruct flagName; simpl; try reflexivity;
    match goal with d : DetailFlag.t |- _ => destruct d; reflexivity end.
Qed.

End RedFlagProperties.

Lemma uncheck_deselects_every_area_witness :
  areasOf AreaFlag.muscleWeakness
    (handleRedFlagMainPresentChange Flag.muscleWeakness true
       (handleRedFlagMainPresentChange Flag.muscleWeakness false
          sampleRedFlags))
  = Some [("Arms"%string, AreaEntry.mk false);
          ("Legs"%string, AreaEntry.mk false)].
Proof.
  destruct (@uncheck_deselects_every_area Q AreaFlag.muscleWeakness
              sampleRedFlags
              [("Arms"%string, AreaEntry.mk true);
               ("Legs"%string, AreaEntry.mk false)] eq_refl)
    as (areas' & U & R & _).
  simpl in R, U. rewrite R, <- U. reflexivity.
Defined.

Lemma handleAreaSelectionChange_effect_witness :
  handleAreaSelectionChange AreaFlag.muscleWeakness "Face" true sampleRedFlags
  = sampleRedFlags
  /\ exists areas',
       areasOf AreaFlag.muscleWeakness
         (handleAreaSelectionChange AreaFlag.muscleWeakness "Legs" true
            sampleRedFlags)
       = Some areas'
       /\ lookupArea "Legs" areas' = Some (AreaEntry.mk true)
       /\ lookupArea "Arms" areas' = Some (AreaEntry.mk true).
Proof.
  destruct (@handleAreaSelectionChange_effect Q AreaFlag.muscleWeakness
              "Face" true sampleRedFlags) as (_ & _ & _ & NoOp).
  destruct (@handleAreaSelectionChange_effect Q AreaFlag.muscleWeakness
              "Legs" true sampleRedFlags) as (_ & _ & Sel & _).
  split.
  - apply NoOp. right. eexists. split; reflexivity.
  - destruct (Sel _ eq_refl) as (areas' & E & _ & L).
    exists areas'. split; [exact E|]. split; rewrite L; reflexivity.
Defined.

Lemma handleRedFlagMainPresentChange_effect_witness :
  flagDetail Flag.unexplainedWeightLoss
    (handleRedFlagMainPresentChange Flag.bladderOrBowelIncontinence false
       sampleRedFlags)
  = WeightLossDetail (Some "last 3 months"%string) (Some 5%Q).
Proof.
  destruct (@handleRedFlagMainPresentChange_effect Q
              Flag.bladderOrBowelIncontinence false sampleRedFlags)
    as (_ & _ & Frame).
  destruct (Frame Flag.unexplainedWeightLoss) as (_ & D);
    [discriminate|exact D].
Defined.

Lemma handleRedFlagMainPresentChange_compose_witness :
  handleRedFlagMainPresentChange Flag.balanceProblems true
    (handleRedFlagMainPresentChange Flag.saddleAnaesthesia false
       sampleRedFlags)
  = handleRedFlagMainPresentChange Flag.saddleAnaesthesia false
      (handleRedFlagMainPresentChange Flag.balanceProblems true
         sampleRedFlags).
Proof.
  destruct (@handleRedFlagMainPresentChange_compose Q
              Flag.balanceProblems true sampleRedFlags) as (_ & Comm & _).
  apply Comm. discriminate.
Defined.

(** ** Steps of the form *)

Lemma navigateRendered_in_range (s : Z) (n : Navigation) :
  (1 <= s <= totalSteps)%Z -> (1 <= navigateRendered s n <= totalSteps)%Z.
Proof.
  unfold totalSteps. intros H.
  destruct n as [| |step]; unfold navigateRendered; simpl;
    unfold goToNextStep, goToPrevStep, goToStep, totalSteps.
  - destruct (Z.ltb_spec s 7); lia.
  - destruct (s >? 1)%Z eqn:E; [apply Z.gtb_lt in E|]; lia.
  - destruct (step >=? 1)%Z eqn:E1; simpl; [|lia].
    destruct (Z.leb_spec step 7); [|lia].
    rewrite Z.geb_le in E1. lia.
Qed.

(** X15.  With a render between the calls, so that each call is made on the
    context value of the latest render, the form never leaves its steps:
    from a step of 1..7, any sequence of Next, Back and jumps to a step, in
    range or not, ends on a step of 1..7.  Calls made in a row on one
    context value are all judged on the step that value captured: from a
    captured step below 7, [k] calls of Next add [k] to the step, and from
    a captured step above 1, [k] calls of Back take [k] from it, whatever
    the step has become. *)
Theorem navigation_stays_in_range (s : Z) (ns : list Navigation) :
  (1 <= s <= totalSteps)%Z ->
  (1 <= fold_left navigateRendered ns s <= totalSteps)%Z
  /\ (forall (currentStep : Z) (k : nat),
        (currentStep < totalSteps)%Z ->
        fold_left (navigate currentStep) (repeat Next k) s
        = (s + Z.of_nat k)%Z)
  /\ (forall (currentStep : Z) (k : nat),
        (1 < currentStep)%Z ->
        fold_left (navigate currentStep) (repeat Prev k) s
        = (s - Z.of_nat k)%Z).
Proof.
  intros H. split; [|split].
  - revert s H. induction ns as [|n ns IH]; intros s H; simpl; [exact H|].
    apply IH. now apply navigateRendered_in_range.
  - intros c k L. clear H. revert s.
    induction k as [|k IH]; intros s; [simpl; lia|].
    change (fold_left (navigate c) (repeat Next (S k)) s)
      with (fold_left (navigate c) (repeat Next k) (goToNextStep c s)).
    rewrite IH. unfold goToNextStep.
    apply Z.ltb_lt in L. rewrite L. lia.
  - intros c k L. clear H. revert s.
    induction k as [|k IH]; intros s; [simpl; lia|].
    change (fold_left (navigate c) (repeat Prev (S k)) s)
      with (fold_left (navigate c) (repeat Prev k) (goToPrevStep c s)).
    rewrite IH. unfold goToPrevStep.
    apply Z.lt_gt, Z.gtb_gt in L. rewrite L. lia.
Qed.

Lemma navigation_stays_in_range_witness :
  (1 <= fold_left navigateRendered [Next; GoTo 9; Prev; Prev; GoTo 7; Next] 1
   <= totalSteps)%Z
  /\ fold_left (navigate 6) [Next; Next] 6%Z = 8%Z
  /\ fold_left (navigate 2) [Prev; Prev; Prev] 2%Z = (-1)%Z.
Proof.
  assert (One : (1 <= 1 <= totalSteps)%Z) by (unfold totalSteps; lia).
  assert (Six : (1 <= 6 <= totalSteps)%Z) by (unfold totalSteps; lia).
  assert (Two : (1 <= 2 <= totalSteps)%Z) by (unfold totalSteps; lia).
  destruct (@navigation_stays_in_range 1
              [Next; GoTo 9; Prev; Prev; GoTo 7; Next] One) as (R & _ & _).
  destruct (@navigation_stays_in_range 6 [] Six) as (_ & N & _).
  destruct (@navigation_stays_in_range 2 [] Two) as (_ & _ & P).
  split; [exact R|]. split.
  - apply (N 6%Z 2%nat). unfold totalSteps. lia.
  - apply (P 2%Z 3%nat). lia.
Defined.

(** X16.  With a render between the two calls, Next and Back undo each
    other away from the ends: Back after Next returns to the step one was
    on unless that was the last step, where Next does nothing; Next after
    Back returns unless that was the first step, where Back does nothing.
    On one context value both calls are judged on the captured step: Back
    after Next returns to the step strictly between the ends, ends on step 2
    from step 1 and on step 6 from step 7.  A jump to a step outside 1..7
    is ignored. *)
Theorem next_and_back (s : Z) :
  (1 <= s <= totalSteps)%Z ->
  ((s < totalSteps)%Z ->
   goToPrevStep (goToNextStep s s) (goToNextStep s s) = s)
  /\ ((1 < s)%Z ->
      goToNextStep (goToPrevStep s s) (goToPrevStep s s) = s)
  /\ goToNextStep totalSteps totalSteps = totalSteps
  /\ goToPrevStep 1 1 = 1%Z
  /\ ((1 < s < totalSteps)%Z -> goToPrevStep s (goToNextStep s s) = s)
  /\ goToPrevStep 1 (goToNextStep 1 1) = 2%Z
  /\ goToPrevStep totalSteps (goToNextStep totalSteps totalSteps)
     = (totalSteps - 1)%Z
  /\ (forall step prevStep,
        (step < 1 \/ totalSteps < step)%Z -> goToStep step prevStep = prevStep).
Proof.
  unfold totalSteps. intros H.
  split; [|split; [|split; [|split; [|split; [|split; [|split]]]]]];
    try reflexivity.
  - intros L. unfold goToNextStep, goToPrevStep, totalSteps.
    destruct (Z.ltb_spec s 7); [|lia].
    destruct (s + 1 >? 1)%Z eqn:E; [lia|].
    rewrite Z.gtb_ltb in E. apply Z.ltb_ge in E. lia.
  - intros L. unfold goToNextStep, goToPrevStep, totalSteps.
    destruct (s >? 1)%Z eqn:E.
    + destruct (Z.ltb_spec (s - 1) 7); lia.
    + rewrite Z.gtb_ltb in E. apply Z.ltb_ge in E. lia.
  - intros L. unfold goToNextStep, goToPrevStep, totalSteps.
    destruct (Z.ltb_spec s 7); [|lia].
    destruct (s >? 1)%Z eqn:E; [lia|].
    rewrite Z.gtb_ltb in E. apply Z.ltb_ge in E. lia.
  - intros step prevStep O. unfold goToStep, totalSteps.
    destruct (step >=? 1)%Z eqn:E1; simpl; [|reflexivity].
    rewrite Z.geb_le in E1. destruct (Z.leb_spec step 7); [lia|reflexivity].
Qed.

Lemma next_and_back_witness :
  goToPrevStep (goToNextStep 5 5) (goToNextStep 5 5) = 5%Z
  /\ goToPrevStep 5 (goToNextStep 5 5) = 5%Z
  /\ goToStep 0 5 = 5%Z.
Proof.
  destruct (@next_and_back 5) as (NB & _ & _ & _ & St & _ & _ & Out).
  - unfold totalSteps. lia.
  - split; [apply NB; unfold totalSteps; lia|].
    split; [apply St; unfold totalSteps; lia|apply Out; lia].
Defined.

Lemma length_filter_pos (A : Type) (p : A -> bool) (l : list A) :
  (0 <? length (filter p l))%nat = existsb p l.
Proof.
  induction l as [|a l IH]; simpl; [reflexivity|].
  destruct (p a); simpl; [reflexivity|exact IH].
Qed.

(** X17.  The pain-mapping step is valid exactly while the store holds a
    record.  It is not valid in a session without marks; an accepted click
    makes it valid; removing an id leaves it valid exactly when a record with
    another id remains; setting an intensity and switching the view do not
    change it. *)
Theorem pain_mapping_step_valid (formData : FormData.t) (st : State) :
  (isStepValid (withStore formData st) 5 = false <-> painAreas st = [])
  /\ (forall ev now h,
        resolve st ev = inr h ->
        isStepValid (withStore formData (handleImageClick ev now st)) 5 = true)
  /\ (forall anId,
        isStepValid (withStore formData (removePainArea anId st)) 5
        = existsb (fun area => negb (String.eqb (PainArea.id area) anId))
            (painAreas st))
  /\ (forall v,
        isStepValid (withStore formData (handleIntensityChange v st)) 5
        = isStepValid (withStore formData st) 5)
  /\ (forall view,
        isStepValid (withStore formData (selectView view st)) 5
        = isStepValid (withStore formData st) 5).
Proof.
  simpl. split; [|split; [|split; [|split]]].
  - destruct (painAreas st); simpl; split; intros H;
      try reflexivity; discriminate.
  - intros ev now h R. unfold handleImageClick. unfold resolve in R.
    rewrite (click_match _ _ _ _ now R). simpl. rewrite length_app. simpl.
    apply Nat.ltb_lt. lia.
  - intros anId. rewrite painAreas_removePainArea. apply length_filter_pos.
  - intros v. pose proof (handleIntensityChange_ids st v) as E.
    apply (f_equal (@length _)) in E. rewrite !length_map in E.
    now rewrite E.
  - reflexivity.
Qed.

Lemma pain_mapping_step_valid_witness :
  isStepValid
    (withStore
       (FormData.mk None []
          (Demographics.mk None None None None
             (Address.mk None None None None) true None
             (Funding.mk None None None None)
             (NextOfKin.mk None None None)
             (ReferringDoctor.mk None None None None None)))
       (handleImageClick sampleClick 1700000000000 emptyFront))
    5
  = true.
Proof.
  destruct (@pain_mapping_step_valid
              (FormData.mk None []
                 (Demographics.mk None None None None
                    (Address.mk None None None None) true None
                    (Funding.mk None None None None)
                    (NextOfKin.mk None None None)
                    (ReferringDoctor.mk None None None None None)))
              emptyFront) as (_ & Click & _).
  apply (Click sampleClick 1700000000000%Z
           (Hotspot.mk 1 "Left Mandible (Angle)" 0.35 0.125 0.05 0.03 false)).
  vm_compute. reflexivity.
Defined.

(** ** The suggestion of the summary step *)

Section SummaryProperties.

Variable Imaging : Type.
Variable hadStudy : Imaging -> bool.

Local Abbreviation suggestion := (getNextStepSuggestion hadStudy).

Lemma existsb_length (A : Type) (p : A -> bool) (l : list A) :
  existsb p l = true -> (0 <? length l)%nat = true.
Proof. destruct l; simpl; [discriminate|reflexivity]. Qed.

Lemma suggestion_imaging_iff
    (imaging : list Imaging) (areas : list PainArea.t) (hadSurgery : bool) :
  suggestion imaging areas hadSurgery = "Referral for imaging"%string
  <-> existsb hadStudy imaging = false
      /\ exists area,
           In area areas /\ (5 <= PainArea.intensity area)%Z.
Proof.
  unfold getNextStepSuggestion.
  assert (HP : existsb (fun area => (PainArea.intensity area >=? 5)%Z) areas
               = true
               <-> exists area,
                     In area areas /\ (5 <= PainArea.intensity area)%Z).
  { rewrite existsb_exists. split; intros (a & I & H); exists a;
      (split; [exact I|]); [now apply Z.geb_le in H|now apply Z.geb_le]. }
  destruct (existsb hadStudy imaging); simpl.
  - split; [|intros [? _]; discriminate].
    destruct hadSurgery, (0 <? length areas)%nat; simpl; discriminate.
  - destruct (existsb _ areas).
    + split; [intros _; split; [reflexivity|now apply HP]|reflexivity].
    + split.
      * destruct hadSurgery, (0 <? length areas)%nat; simpl; discriminate.
      * intros [_ H]. apply HP in H. discriminate.
Qed.

(** X18.  The suggestion follows this table.  Without pain areas it is
    "No Immediate Action Needed", and only then.  It is "Referral for
    imaging" exactly when no imaging study was had and some area has
    intensity 5 or more.  Otherwise, with pain areas, it is "Book a
    Specialist Appointment" after surgery and "Referral to Allied Health"
    without. *)
Theorem getNextStepSuggestion_table
    (imaging : list Imaging) (areas : list PainArea.t) (hadSurgery : bool) :
  let highPain :=
    existsb (fun area => (5 <=? PainArea.intensity area)%Z) areas in
  let needsImaging := negb (existsb hadStudy imaging) && highPain in
  (suggestion imaging areas hadSurgery = "No Immediate Action Needed"%string
   <-> areas = [])
  /\ (suggestion imaging areas hadSurgery = "Referral for imaging"%string
      <-> needsImaging = true)
  /\ (suggestion imaging areas hadSurgery
      = "Book a Specialist Appointment"%string
      <-> needsImaging = false /\ hadSurgery = true /\ areas <> [])
  /\ (suggestion imaging areas hadSurgery
      = "Referral to Allied Health"%string
      <-> needsImaging = false /\ hadSurgery = false /\ areas <> []).
Proof.
  intros highPain needsImaging.
  assert (HP : existsb (fun area => (PainArea.intensity area >=? 5)%Z) areas
               = highPain).
  { unfold highPain. induction areas as [|a l IH]; simpl; [reflexivity|]. rewrite IH, Z.geb_leb. reflexivity. }
  unfold needsImaging, getNextStepSuggestion. rewrite HP. unfold highPain.
  destruct areas as [|a l].
  - simpl. rewrite !andb_false_r.
    repeat split; intros; try reflexivity; try discriminate;
      intuition (try discriminate; try congruence).
  - destruct (existsb hadStudy imaging);
      destruct (existsb _ (a :: l));
      destruct hadSurgery; simpl;
      repeat split; intros; try reflexivity; try discriminate;
      intuition (try discriminate; try congruence).
Qed.

(** X19.  A fresh mark asks for imaging: after an accepted click, when no
    imaging study was had, the suggestion is "Referral for imaging", whatever
    else the store holds and whatever the surgery history, because a record
    starts at intensity 5.  When every stored intensity is below 5 the
    suggestion is never "Referral for imaging". *)
Theorem accepted_click_suggests_imaging
    (imaging : list Imaging) (st : State) (ev : MouseEvent) (now : Z)
    (h : Hotspot.t) (hadSurgery : bool) :
  resolve st ev = inr h ->
  (existsb hadStudy imaging = false ->
   suggestion imaging (painAreas (handleImageClick ev now st)) hadSurgery
   = "Referral for imaging"%string)
  /\ (Forall (fun area => (PainArea.intensity area < 5)%Z) (painAreas st) ->
      suggestion imaging (painAreas st) hadSurgery
      <> "Referral for imaging"%string).
Proof.
  intros R. split.
  - intros NoStudy. apply suggestion_imaging_iff. split; [exact NoStudy|].
    unfold handleImageClick. unfold resolve in R.
    rewrite (click_match _ _ _ _ now R). simpl.
    exists (newPainArea (currentView st) ev now h). split.
    + apply in_or_app. right. now left.
    + simpl. lia.
  - intros Low E. apply suggestion_imaging_iff in E as (_ & a & Ia & Ha).
    pose proof (proj1 (Forall_forall _ _) Low a Ia). simpl in *. lia.
Qed.

End SummaryProperties.

Lemma accepted_click_suggests_imaging_witness :
  getNextStepSuggestion (fun studied : bool => studied) [false; false]
    (painAreas (handleImageClick sampleClick 1700000000000 emptyFront)) true
  = "Referral for imaging"%string.
Proof.
  destruct (@accepted_click_suggests_imaging bool (fun studied => studied)
              [false; false] emptyFront sampleClick 1700000000000
              (Hotspot.mk 1 "Left Mandible (Angle)" 0.35 0.125 0.05 0.03 false)
              true) as (Imaging & _).
  - vm_compute. reflexivity.
  - apply Imaging. reflexivity.
Defined.

(** ** The highest intensity *)

Lemma Math_max_from (values : list Z) (m0 : Z) :
  exists m,
    fold_left
      (fun acc v =>
         match acc with
         | None => Some v
         | Some m => Some (Z.max m v)
         end)
      values (Some m0)
    = Some m
    /\ (m0 <= m)%Z
    /\ (forall v, In v values -> (v <= m)%Z)
    /\ (m = m0 \/ In m values).
Proof.
  revert m0. induction values as [|v values IH]; intros m0; simpl.
  - exists m0. split; [reflexivity|]. split; [lia|]. split; [tauto|auto].
  - destruct (IH (Z.max m0 v)) as (m & E & L & U & A).
    exists m. split; [exact E|]. split; [lia|]. split.
    + intros x [<-|Hx]; [lia|auto].
    + destruct A as [->|A]; [|auto].
      destruct (Z.max_spec m0 v) as [[_ ->]|[_ ->]]; auto.
Qed.

Lemma highest_attained (areas : list PainArea.t) :
  areas <> [] ->
  exists m area,
    highestPainIntensity areas = Some m
    /\ In area areas /\ PainArea.intensity area = m.
Proof.
  unfold highestPainIntensity, Math_max.
  destruct areas as [|a l]; [congruence|]. intros _. simpl.
  destruct (Math_max_from (map PainArea.intensity l) (PainArea.intensity a))
    as (m & E & _ & _ & A).
  exists m. destruct A as [->|A].
  - exists a. auto.
  - apply in_map_iff in A as (x & Ex & Ix). exists x. auto.
Qed.

(** X20.  The highest pain intensity of the summary is 0 for an empty store
    and otherwise the largest stored intensity: no record exceeds it and
    some record has it.  It is 5 or more exactly when the suggestion's test
    for high pain holds. *)
Theorem highestPainIntensity_is_max (areas : list PainArea.t) :
  exists m,
    highestPainIntensity areas = Some m
    /\ (forall area, In area areas -> (PainArea.intensity area <= m)%Z)
    /\ (areas = [] -> m = 0%Z)
    /\ (areas <> [] ->
        exists area, In area areas /\ PainArea.intensity area = m)
    /\ (existsb (fun area => (PainArea.intensity area >=? 5)%Z) areas = true
        <-> (5 <= m)%Z).
Proof.
  unfold highestPainIntensity, Math_max.
  destruct areas as [|a l]; simpl.
  - exists 0%Z. split; [reflexivity|]. split; [tauto|].
    split; [reflexivity|]. split; [congruence|].
    split; [discriminate|lia].
  - destruct (Math_max_from (map PainArea.intensity l) (PainArea.intensity a))
      as (m & E & L & U & A).
    exists m. split; [exact E|]. split; [|split; [discriminate|split]].
    + intros area [<-|I]; [exact L|]. apply U. now apply in_map.
    + intros _. destruct A as [->|A]; [eauto|].
      apply in_map_iff in A as (x & Ex & Ix). eauto.
    + rewrite orb_true_iff, existsb_exists. split.
      * intros [H|(x & Ix & H)]; rewrite Z.geb_le in H.
        -- lia.
        -- pose proof (U _ (in_map PainArea.intensity _ _ Ix)). lia.
      * intros H. destruct A as [->|A].
        -- left. now apply Z.geb_le.
        -- right. apply in_map_iff in A as (x & Ex & Ix).
           exists x. split; [exact Ix|]. rewrite Ex. now apply Z.geb_le.
Qed.

Lemma highestPainIntensity_is_max_witness :
  highestPainIntensity (painAreas sampleStore) = Some 8%Z.
Proof.
  destruct (@highestPainIntensity_is_max (painAreas sampleStore))
    as (m & E & U & _ & A & _).
  rewrite E. f_equal.
  assert (L : (8 <= m)%Z) by (apply (U otherArea); right; left; reflexivity).
  assert (N : painAreas sampleStore <> []) by discriminate.
  destruct (A N) as (area & I & Em).
  destruct I as [Ea|[Ea|[]]]; rewrite <- Ea in Em; simpl in Em; lia.
Defined.
(** ** Names of uploads *)

Lemma allChars_app (class : ascii -> bool) (a b : string) :
  allChars class (a ++ b) = allChars class a && allChars class b.
Proof.
  induction a as [|c a IH]; simpl; [reflexivity|].
  now rewrite IH, andb_assoc.
Qed.

Lemma allChars_keepChars (class : ascii -> bool) (s : string) :
  allChars class (keepChars class s) = true.
Proof.
  induction s as [|c s IH]; simpl; [reflexivity|].
  destruct (class c) eqn:E; simpl; [now rewrite E|exact IH].
Qed.

Lemma keepChars_length (class : ascii -> bool) (s : string) :
  (String.length (keepChars class s) <= String.length s)%nat.
Proof.
  induction s as [|c s IH]; simpl; [lia|].
  destruct (class c); simpl; lia.
Qed.

Lemma keepChars_fixed (class : ascii -> bool) (s : string) :
  keepChars class s = s <-> allChars class s = true.
Proof.
  induction s as [|c s IH]; simpl; [tauto|].
  destruct (class c) eqn:E; simpl.
  - rewrite <- IH. split; [intros [= H]; exact H|intros ->; reflexivity].
  - split; [|discriminate]. intros H.
    pose proof (keepChars_length class s) as L. rewrite H in L.
    simpl in L. lia.
Qed.

Lemma keepChars_empty (class : ascii -> bool) (s : string) :
  keepChars class s = EmptyString
  <-> allChars (fun c => negb (class c)) s = true.
Proof.
  induction s as [|c s IH]; simpl; [tauto|].
  destruct (class c); simpl; [split; discriminate|exact IH].
Qed.

Lemma allChars_excludes (class : ascii -> bool) (s : string) (c : ascii) :
  allChars class s = true -> class c = false ->
  includes s (String c EmptyString) = false.
Proof.
  intros A C. destruct (includes s (String c EmptyString)) eqn:I;
    [|reflexivity].
  apply includes_iff in I as (before & after & ->).
  rewrite !allChars_app in A. simpl in A. rewrite C in A.
  rewrite andb_false_r in A. discriminate.
Qed.

(** X21.  The session id that names an upload directory is made of letters,
    digits, [_] and [-] only: it holds no slash, backslash or dot, whatever
    the request sent.  Sanitising is idempotent, leaves an id unchanged
    exactly when the id is clean, and gives the empty name exactly when no
    character of the id is allowed. *)
Theorem sanitizedSessionId_clean (formSessionId0 : string) :
  let clean := sanitizedSessionId formSessionId0 in
  allChars sessionIdChar clean = true
  /\ includes clean "/" = false
  /\ includes clean backslash = false
  /\ includes clean "." = false
  /\ sanitizedSessionId clean = clean
  /\ (clean = formSessionId0 <-> allChars sessionIdChar formSessionId0 = true)
  /\ (clean = ""%string
      <-> allChars (fun c => negb (sessionIdChar c)) formSessionId0 = true).
Proof.
  intros clean. unfold clean, sanitizedSessionId.
  pose proof (allChars_keepChars sessionIdChar formSessionId0) as A.
  split; [exact A|].
  split; [apply (allChars_excludes _ _ _ A); reflexivity|].
  split; [apply (allChars_excludes _ _ _ A); reflexivity|].
  split; [apply (allChars_excludes _ _ _ A); reflexivity|].
  split; [now apply keepChars_fixed|].
  split; [apply keepChars_fixed|apply keepChars_empty].
Qed.

Lemma digits_clean (d : Decimal.uint) :
  allChars isDigit (NilEmpty.string_of_uint d) = true.
Proof. induction d; simpl; auto. Qed.

Lemma allChars_weaken (p q : ascii -> bool) (s : string) :
  (forall c, p c = true -> q c = true) ->
  allChars p s = true -> allChars q s = true.
Proof.
  intros W. induction s as [|c s IH]; simpl; [reflexivity|].
  intros H. apply andb_true_iff in H as [Hc Hs].
  now rewrite (W c Hc), IH.
Qed.

Lemma isDigit_sessionIdChar c : isDigit c = true -> sessionIdChar c = true.
Proof.
  intros D. unfold sessionIdChar. rewrite D.
  now rewrite !orb_true_r.
Qed.

Lemma isBase36_sessionIdChar c : isBase36 c = true -> sessionIdChar c = true.
Proof.
  unfold isBase36, sessionIdChar. intros H.
  apply orb_true_iff in H as [-> | ->]; now rewrite ?orb_true_r.
Qed.

Lemma numberToString_clean (n : Z) :
  allChars sessionIdChar (numberToString n) = true.
Proof.
  assert (U : forall d, allChars sessionIdChar (NilZero.string_of_uint d)
                        = true).
  { intros d. destruct d; try reflexivity;
      apply (allChars_weaken isDigit); auto using isDigit_sessionIdChar;
      apply (digits_clean (_ d)). }
  unfold numberToString. destruct (Z.to_int n) as [d|d]; simpl.
  - apply U.
  - apply U.
Qed.

(** X22.  The server keeps the session ids the form makes: an id
    [session-<clock>-<base-36 digits>] passes the sanitiser unchanged, so the
    uploads of a session go to the directory named by its id; and the
    default id of the imaging route, used when the query has none or an empty
    one, is clean as well. *)
Theorem formSessionId_survives (now : Z) (randomPart : string) :
  allChars isBase36 randomPart = true ->
  sanitizedSessionId (formSessionId now randomPart)
  = formSessionId now randomPart
  /\ sanitizedSessionId (sessionIdOfQuery None) = sessionIdOfQuery None
  /\ sanitizedSessionId (sessionIdOfQuery (Some ""%string))
     = "default_session"%string
  /\ sanitizedSessionId
       (sessionIdOfQuery (Some (formSessionId now randomPart)))
     = formSessionId now randomPart.
Proof.
  intros R.
  assert (C : sanitizedSessionId (formSessionId now randomPart)
              = formSessionId now randomPart).
  { apply keepChars_fixed. unfold formSessionId.
    rewrite !allChars_app, numberToString_clean.
    rewrite (allChars_weaken isBase36 sessionIdChar randomPart
               isBase36_sessionIdChar R).
    reflexivity. }
  split; [exact C|]. split; [reflexivity|]. split; [reflexivity|].
  unfold sessionIdOfQuery.
  replace (truthy (formSessionId now randomPart)) with true by reflexivity.
  exact C.
Qed.

Lemma formSessionId_survives_witness :
  sanitizedSessionId (formSessionId 1700000000000 "k3x9q2a")
  = "session-1700000000000-k3x9q2a"%string.
Proof.
  destruct (@formSessionId_survives 1700000000000 "k3x9q2a" eq_refl)
    as (C & _).
  rewrite C. vm_compute. reflexivity.
Defined.

Lemma maskChars_length (class : ascii -> bool) (s : string) :
  String.length (maskChars class s) = String.length s.
Proof. induction s as [|c s IH]; simpl; congruence. Qed.

Lemma maskChars_clean (class : ascii -> bool) (s : string) :
  class "_"%char = true -> allChars class (maskChars class s) = true.
Proof.
  intros U. induction s as [|c s IH]; simpl; [reflexivity|].
  rewrite IH, andb_true_r. destruct (class c) eqn:E; auto.
Qed.

Lemma maskChars_fixed (class : ascii -> bool) (s : string) :
  allChars class s = true -> maskChars class s = s.
Proof.
  induction s as [|c s IH]; simpl; [reflexivity|].
  intros H. apply andb_true_iff in H as [-> Hs]. now rewrite IH.
Qed.

(** X23.  The stored name of an uploaded file has the length of the
    original name and is made of letters, digits, [_], [.] and [-] only, so
    it holds no slash or backslash; masking is idempotent and leaves a clean
    name as it is. *)
Theorem sanitizedOriginalName_clean (originalname : string) :
  let clean := sanitizedOriginalName originalname in
  String.length clean = String.length originalname
  /\ allChars fileNameChar clean = true
  /\ includes clean "/" = false
  /\ includes clean backslash = false
  /\ sanitizedOriginalName clean = clean
  /\ (allChars fileNameChar originalname = true -> clean = originalname).
Proof.
  intros clean. unfold clean, sanitizedOriginalName.
  assert (A : allChars fileNameChar (maskChars fileNameChar originalname)
              = true) by (apply maskChars_clean; reflexivity).
  split; [apply maskChars_length|]. split; [exact A|].
  split; [apply (allChars_excludes _ _ _ A); reflexivity|].
  split; [apply (allChars_excludes _ _ _ A); reflexivity|].
  split; [now apply maskChars_fixed|apply maskChars_fixed].
Qed.

Lemma sanitizedOriginalName_clean_witness :
  sanitizedOriginalName "scan_2024-01.final.pdf"
  = "scan_2024-01.final.pdf"%string.
Proof.
  destruct (@sanitizedOriginalName_clean "scan_2024-01.final.pdf")
    as (_ & _ & _ & _ & _ & Fixed).
  apply Fixed. reflexivity.
Defined.

(** ** The pain areas in the prompt and in the email *)

Lemma concat_cons (x : string) (l : list string) :
  String.concat "" (x :: l) = (x ++ String.concat "" l)%string.
Proof. destruct l; simpl; [now rewrite append_empty_r|reflexivity]. Qed.

Lemma fold_left_append (A : Type) (f : A -> string) (l : list A)
    (start : string) :
  fold_left (fun text a => (text ++ f a)%string) l start
  = (start ++ String.concat "" (map f l))%string.
Proof.
  revert start. induction l as [|a l IH]; intros start.
  - simpl. now rewrite append_empty_r.
  - cbn [fold_left map]. rewrite IH, concat_cons, append_assoc. reflexivity.
Qed.

Lemma concat_app_strings (l1 l2 : list string) :
  String.concat "" (l1 ++ l2)
  = (String.concat "" l1 ++ String.concat "" l2)%string.
Proof.
  induction l1 as [|x l1 IH].
  - reflexivity.
  - rewrite <- app_comm_cons, !concat_cons, IH, append_assoc. reflexivity.
Qed.

(** X24.  The prompt gets the pain areas as a block of its own, after what
    was written before: nothing for a request without pain areas or with an
    empty list, and otherwise the heading followed by one line per record,
    in store order. *)
Theorem appendPainAreas_block (prompt : string) (areas : list PainArea.t) :
  appendPainAreas prompt None = prompt
  /\ appendPainAreas prompt (Some []) = prompt
  /\ (areas <> [] ->
      appendPainAreas prompt (Some areas)
      = (prompt ++ newline ++ "Pain Areas Reported:" ++ newline
           ++ String.concat "" (map promptPainArea areas))%string)
  /\ (forall more : list PainArea.t,
        areas <> [] ->
        appendPainAreas prompt (Some (areas ++ more))
        = (appendPainAreas prompt (Some areas)
             ++ String.concat "" (map promptPainArea more))%string).
Proof.
  assert (B : forall l : list PainArea.t,
             l <> [] ->
             appendPainAreas prompt (Some l)
             = (prompt ++ newline ++ "Pain Areas Reported:" ++ newline
                  ++ String.concat "" (map promptPainArea l))%string).
  { intros l N. unfold appendPainAreas.
    destruct l as [|a l]; [congruence|].
    change (0 <? length (a :: l))%nat with true. cbv iota.
    rewrite fold_left_append, !append_assoc. reflexivity. }
  split; [reflexivity|]. split; [reflexivity|]. split; [apply B|].
  intros more N.
  assert (N' : (areas ++ more)%list <> []).
  { destruct areas; [congruence|discriminate]. }
  rewrite (B _ N'), (B _ N), map_app, concat_app_strings, !append_assoc.
  reflexivity.
Qed.

Lemma appendPainAreas_block_witness :
  appendPainAreas "Patient report." (Some [sampleArea])
  = ("Patient report." ++ newline ++ "Pain Areas Reported:" ++ newline
       ++ "- Region: Chin (Mentum), Intensity: 5/10, "
       ++ "Notes: View: front, RegionID: 1" ++ newline)%string.
Proof.
  destruct (@appendPainAreas_block "Patient report." [sampleArea])
    as (_ & _ & B & _).
  rewrite B by discriminate. vm_compute. reflexivity.
Defined.

Lemma catalog_names_checked :
  forallb (fun h => truthy (Hotspot.name h)) frontHotspots
  && forallb (fun h => truthy (Hotspot.name h)) backHotspots = true.
Proof. vm_compute. reflexivity. Qed.

Lemma notesFor_truthy view h : truthy (notesFor view h) = true.
Proof.
  destruct (notesFor_shape view h) as [tail ->]. reflexivity.
Qed.

(** X25.  What the clinic reads for a record of a session that started
    without marks: the prompt line and the email row carry the name of a
    catalog hotspot as region and the notes written at the click, never
    "N/A", and an intensity of 0..10.  The prompt prints the intensity as
    [i/10]; the email prints its digits, but prints "N/A" for 0. *)
Theorem session_record_rendering (st0 st : State) (area : PainArea.t) :
  freshSession st0 -> reachableFrom st0 st ->
  In area (painAreas st) ->
  exists view h i,
    In h (listHotspots view)
    /\ (0 <= i <= 10)%Z
    /\ promptPainArea area
       = ("- Region: " ++ Hotspot.name h
            ++ ", Intensity: " ++ numberToString i
            ++ "/10, Notes: " ++ notesFor view h ++ newline)%string
    /\ emailPainAreaRow area
       = (newline ++ "              <tr>" ++ newline
            ++ "                <td>" ++ Hotspot.name h ++ "</td>" ++ newline
            ++ "                <td>"
            ++ (if (i =? 0)%Z then "N/A" else numberToString i)
            ++ "</td>" ++ newline
            ++ "                <td>" ++ notesFor view h ++ "</td>" ++ newline
            ++ "              </tr>" ++ newline ++ "            ")%string.
Proof.
  intros F R I. destruct (reachable_invariant F R) as [W _].
  destruct (proj1 (Forall_forall _ _) W area I)
    as [Range (view & h & Hh & Rg & N & _ & _)].
  exists view, h, (PainArea.intensity area).
  split; [exact Hh|]. split; [exact Range|].
  pose proof (catalog_forallb (fun _ h => truthy (Hotspot.name h))
                catalog_names_checked view h Hh) as T.
  simpl in T.
  unfold promptPainArea, emailPainAreaRow, intensityOrNA, orNA.
  rewrite Rg, N, T, notesFor_truthy. split; reflexivity.
Qed.

Lemma session_record_rendering_witness :
  exists view h i,
    In h (listHotspots view) /\ (0 <= i <= 10)%Z.
Proof.
  destruct (@session_record_rendering emptyFront _ _
              (conj eq_refl eq_refl) sampleSession_reachable
              sampleSession_stores)
    as (view & h & i & Ih & Ri & _).
  exists view, h, i. split; [exact Ih|exact Ri].
Defined.

(** ** The bar of the pain evaluation card *)

(** X26.  In a session that started without marks and holds a record, the
    bar of the summary shows the largest stored intensity, a value of 0..10:
    its width is ten times that value, between 0 and 100 percent, and its
    colour is green up to 3, yellow up to 6 and red above. *)
Theorem session_pain_bar (st0 st : State) :
  freshSession st0 -> reachableFrom st0 st ->
  painAreas st <> [] ->
  exists m,
    highestPainIntensity (painAreas st) = Some m
    /\ (0 <= m <= 10)%Z
    /\ painBarWidth m == inject_Z (10 * m)
    /\ 0 <= painBarWidth m /\ painBarWidth m <= 100
    /\ (painBarColor m = "bg-green-500"%string <-> (m <= 3)%Z)
    /\ (painBarColor m = "bg-yellow-500"%string <-> (4 <= m <= 6)%Z)
    /\ (painBarColor m = "bg-red-500"%string <-> (7 <= m)%Z).
Proof.
  intros F R N.
  destruct (highest_attained N) as (m & area & E & I & Em).
  destruct (reachable_invariant F R) as [Inv _].
  pose proof (proj1 (proj1 (Forall_forall _ _) Inv area I)) as Range.
  rewrite Em in Range.
  assert (W : painBarWidth m == inject_Z (10 * m)).
  { unfold painBarWidth. rewrite inject_Z_mult. field. }
  exists m. split; [exact E|]. split; [exact Range|]. split; [exact W|].
  split; [|split].
  - rewrite W. change 0 with (inject_Z 0). rewrite <- Zle_Qle. lia.
  - rewrite W. change 100 with (inject_Z 100). rewrite <- Zle_Qle. lia.
  - unfold painBarColor.
    destruct (Z.leb_spec m 3); [|destruct (Z.leb_spec m 6)];
      repeat split; intros; try reflexivity; try discriminate; lia.
Qed.

Lemma session_pain_bar_witness :
  exists m,
    highestPainIntensity
      (painAreas
         (handleIntensityChange 8
            (handleImageClick sampleClick 1700000000000 emptyFront)))
    = Some m
    /\ (0 <= m <= 10)%Z.
Proof.
  destruct (@session_pain_bar emptyFront _ (conj eq_refl eq_refl)
              sampleSession_reachable) as (m & E & Range & _).
  - vm_compute. discriminate.
  - exists m. split; assumption.
Defined.

